(** * LDA by collapsed Gibbs sampling: a shallow embedding of
      [src/TopicModel/LDAModel.hpp]

    The C++ templates [DocumentLDA<_TW>], [ModelStateLDA<_TW>] and
    [LDAModel<_TW>] are rendered as Rocq definitions inside a section whose
    variable [TW] plays the role of the template parameter [_TW].  Scalars
    of type [FLOAT] and [double] are kept abstract behind the class
    [FloatOps]; two instances are given at the end of the definitions:
    IEEE-754 binary32/binary64 (through [SpecFloat]) and exact integer
    arithmetic.  Everything declared in headers other than [LDAModel.hpp]
    ([math::digammaT], [math::lgammaT], [updateCnt], [forRandom], the random
    generator, the thread pool) is a field of the class [Collaborators]. *)

From Stdlib Require Import ZArith Bool Lia.
From Stdlib Require Import SpecFloat.
From stdpp Require Import base option list.

Open Scope Z_scope.

(** ** Scalars *)

(** [enum class TermWeight { one, idf, pmi, size }] *)
Module TermWeight.
Inductive t : Set := one | idf | pmi | size.

Definition is_one (tw : t) : bool :=
  match tw with one => true | _ => false end.
Definition is_idf (tw : t) : bool :=
  match tw with idf => true | _ => false end.
Definition is_pmi (tw : t) : bool :=
  match tw with pmi => true | _ => false end.
End TermWeight.

(** Floating-point arithmetic as the code uses it: [FLOAT] is the 32-bit
    type, [DOUBLE] the accumulator of the log-likelihood. *)
Class FloatOps : Type := {
  FLOAT : Type;
  DOUBLE : Type;
  f_of_Z : Z -> FLOAT;            (* integer to float conversion *)
  f_to_Z : FLOAT -> Z;            (* float to integer conversion *)
  fadd : FLOAT -> FLOAT -> FLOAT;
  fsub : FLOAT -> FLOAT -> FLOAT;
  fmul : FLOAT -> FLOAT -> FLOAT;
  fdiv : FLOAT -> FLOAT -> FLOAT;
  fltb : FLOAT -> FLOAT -> bool;  (* operator< *)
  feqb : FLOAT -> FLOAT -> bool;  (* operator== *)
  d_of_Z : Z -> DOUBLE;
  f2d : FLOAT -> DOUBLE;          (* widening conversion *)
  dadd : DOUBLE -> DOUBLE -> DOUBLE;
  dsub : DOUBLE -> DOUBLE -> DOUBLE
}.

(** Two's-complement wrap-around of [int32_t] and the range of [size_t]. *)
Definition wrap32 (z : Z) : Z := (z + 2 ^ 31) mod 2 ^ 32 - 2 ^ 31.
Definition wrap_size_t (z : Z) : Z := z mod 2 ^ 64.

Section Scalars.
Context `{FloatOps}.

(** [std::max(a, b)] is [(a < b) ? b : a]. *)
Definition std_max (a b : FLOAT) : FLOAT := if fltb a b then b else a.

(** The literal [1e-5f]: the float nearest to 1/100000, which is what
    the correctly rounded quotient of the two exact integers gives. *)
Definition FLT_1e_5 : FLOAT := fdiv (f_of_Z 1) (f_of_Z 100000).

(** [Eigen::Matrix<FLOAT,-1,1>::sum()] *)
Definition fsum (l : list FLOAT) : FLOAT := fold_left fadd l (f_of_Z 0).

(** [using WeightType = std::conditional<_TW == TermWeight::one,
    int32_t, float>::type] *)
Definition WeightType (tw : TermWeight.t) : Type :=
  match tw with TermWeight.one => Z | _ => FLOAT end.

Definition w_of_Z (tw : TermWeight.t) (z : Z) : WeightType tw :=
  match tw with
  | TermWeight.one => wrap32 z
  | _ => f_of_Z z
  end.

Definition wadd (tw : TermWeight.t) : WeightType tw -> WeightType tw -> WeightType tw :=
  match tw with
  | TermWeight.one => fun a b => wrap32 (a + b)
  | _ => fadd
  end.

Definition wsub (tw : TermWeight.t) : WeightType tw -> WeightType tw -> WeightType tw :=
  match tw with
  | TermWeight.one => fun a b => wrap32 (a - b)
  | _ => fsub
  end.

(** [INC * weight] with [INC] an [int] template argument. *)
Definition wscale (tw : TermWeight.t) (inc : Z) : WeightType tw -> WeightType tw :=
  match tw with
  | TermWeight.one => fun w => wrap32 (inc * w)
  | _ => fun w => fmul (f_of_Z inc) w
  end.

(** [.template cast<FLOAT>()] and the implicit conversion in
    [weight + float]. *)
Definition cast_FLOAT (tw : TermWeight.t) : WeightType tw -> FLOAT :=
  match tw with
  | TermWeight.one => f_of_Z
  | _ => fun x => x
  end.

(** Conversion to [size_t], as in the lambda parameter [size_t n] of
    [getTopicsByDoc]. *)
Definition to_size_t (tw : TermWeight.t) : WeightType tw -> Z :=
  match tw with
  | TermWeight.one => wrap_size_t
  | _ => fun x => wrap_size_t (f_to_Z x)
  end.

(** One coefficient of [cwiseMax(0)]. *)
Definition wmax0 (tw : TermWeight.t) : WeightType tw -> WeightType tw :=
  match tw with
  | TermWeight.one => fun a => if a <? 0 then 0 else a
  | _ => fun a => std_max a (f_of_Z 0)
  end.

(** [!x] on a count. *)
Definition w_is_zero (tw : TermWeight.t) : WeightType tw -> bool :=
  match tw with
  | TermWeight.one => fun a => a =? 0
  | _ => fun a => feqb a (f_of_Z 0)
  end.
End Scalars.

(** ** Collaborators declared outside [LDAModel.hpp] *)

Class Collaborators `{FloatOps} : Type := {
  digammaT : FLOAT -> FLOAT;                 (* math::digammaT *)
  lgammaT : FLOAT -> FLOAT;                  (* math::lgammaT *)
  logT : FLOAT -> FLOAT;                     (* log *)
  (* updateCnt<DEC>(val, inc): the new value of [val] *)
  updateCnt : forall tw, bool -> WeightType tw -> WeightType tw -> WeightType tw;
  to_TID : Z -> Z;                           (* conversion to the type TID *)
  RANDGEN : Type;
  default_RANDGEN : RANDGEN;                 (* RANDGEN{} *)
  seeded_RANDGEN : Z -> RANDGEN;             (* RANDGEN{seed} *)
  rg_next : RANDGEN -> Z * RANDGEN;          (* rg() *)
  (* std::uniform_int_distribution<TID>{a, b}(rg) *)
  uniform_int : Z -> Z -> RANDGEN -> nat * RANDGEN;
  (* a uniform draw in [0, hi) *)
  uniform_real : FLOAT -> RANDGEN -> FLOAT * RANDGEN;
  (* forRandom(N, seed, f) calls f on these indices, in this order *)
  forRandom : nat -> Z -> list nat
}.

(** [ThreadPool]: the number of workers and, for the sequential reading of
    a round taken here, the worker that runs the n-th enqueued task. *)
Record ThreadPool : Set := {
  getNumWorkers : nat;
  workerOf : nat -> nat
}.

(** [std::vector::resize(n, v)] *)
Definition resize {A} (n : nat) (v : A) (l : list A) : list A :=
  take n l ++ replicate (n - length l) v.

Section LDA.
Context `{Collaborators}.

(** The template parameter [_TW].  [_Shared] is [false] throughout, as
    in every instantiation made by [ILDAModel::create]. *)
Context {TW : TermWeight.t}.

Local Abbreviation W := (WeightType TW).

(** *** [struct DocumentLDA] *)
Record DocumentLDA : Type := {
  words : list nat;            (* DocumentBase::words *)
  Zs : list nat;
  wordWeights : list FLOAT;
  doc_numByTopic : list W      (* DocumentLDA::numByTopic *)
}.

(** *** [struct ModelStateLDA] *)
Record ModelStateLDA : Type := {
  zLikelihood : list FLOAT;
  numByTopic : list W;
  numByTopicWord : list (list W)   (* K rows of V counts *)
}.

(** *** [class LDAModel] with the members of [TopicModel] it reads *)
Record LDAModel : Type := {
  docs : list DocumentLDA;
  globalState : ModelStateLDA;
  tState : ModelStateLDA;
  realV : nat;
  iterated : Z;
  rg : RANDGEN;
  vocabWeights : list FLOAT;
  alpha : FLOAT;
  alphas : list FLOAT;
  eta : FLOAT;
  K : nat;
  optimInterval : Z;
  burnIn : Z
}.

Definition set_alphas (this : LDAModel) (a : list FLOAT) : LDAModel :=
  {| docs := docs this; globalState := globalState this; tState := tState this;
     realV := realV this; iterated := iterated this; rg := rg this;
     vocabWeights := vocabWeights this; alpha := alpha this; alphas := a;
     eta := eta this; K := K this; optimInterval := optimInterval this;
     burnIn := burnIn this |}.

Definition set_round (this : LDAModel) (ds : list DocumentLDA)
    (g t : ModelStateLDA) : LDAModel :=
  {| docs := ds; globalState := g; tState := t;
     realV := realV this; iterated := iterated this; rg := rg this;
     vocabWeights := vocabWeights this; alpha := alpha this; alphas := alphas this;
     eta := eta this; K := K this; optimInterval := optimInterval this;
     burnIn := burnIn this |}.

Definition set_iterated (this : LDAModel) (n : Z) : LDAModel :=
  {| docs := docs this; globalState := globalState this; tState := tState this;
     realV := realV this; iterated := n; rg := rg this;
     vocabWeights := vocabWeights this; alpha := alpha this; alphas := alphas this;
     eta := eta this; K := K this; optimInterval := optimInterval this;
     burnIn := burnIn this |}.

Definition wzero : W := w_of_Z TW 0.
Definition fzero : FLOAT := f_of_Z 0.

(** [DocumentLDA::getSumWordWeight<_TW>()]: [words.size()] returned as
    [int32_t] when [_TW == one], else [std::accumulate] over
    [wordWeights] from [0.f]. *)
Definition getSumWordWeight (doc : DocumentLDA) : W :=
  match TW as tw return WeightType tw with
  | TermWeight.one => wrap32 (Z.of_nat (length (words doc)))
  | _ => fold_left fadd (wordWeights doc) (f_of_Z 0)
  end.

Definition set_Zs (doc : DocumentLDA) (zs : list nat) : DocumentLDA :=
  {| words := words doc; Zs := zs; wordWeights := wordWeights doc;
     doc_numByTopic := doc_numByTopic doc |}.

Definition set_wordWeights (doc : DocumentLDA) (ws : list FLOAT) : DocumentLDA :=
  {| words := words doc; Zs := Zs doc; wordWeights := ws;
     doc_numByTopic := doc_numByTopic doc |}.

Definition set_zLikelihood (ld : ModelStateLDA) (z : list FLOAT) : ModelStateLDA :=
  {| zLikelihood := z; numByTopic := numByTopic ld;
     numByTopicWord := numByTopicWord ld |}.

(** The weight of the token at position [pid]:
    [_TW != TermWeight::one ? doc.wordWeights[pid] : 1]. *)
Definition tokenWeight (doc : DocumentLDA) (pid : nat) : W :=
  match TW as tw return WeightType tw with
  | TermWeight.one => 1
  | _ => nth pid (wordWeights doc) fzero
  end.

(** [addWordTo<INC>(ld, doc, pid, vid, tid)].  The two [assert]s are
    compiled away under NDEBUG; an index out of range, undefined in the
    source, leaves the vectors as they are here. *)
Definition addWordTo (INC : Z) (ld : ModelStateLDA) (doc : DocumentLDA)
    (pid vid tid : nat) : ModelStateLDA * DocumentLDA :=
  let DEC := (INC <? 0) && negb (TermWeight.is_one TW) in
  let weight := tokenWeight doc pid in
  let upd := fun val : W => updateCnt TW DEC val (wscale TW INC weight) in
  ({| zLikelihood := zLikelihood ld;
      numByTopic := alter upd tid (numByTopic ld);
      numByTopicWord := alter (alter upd vid) tid (numByTopicWord ld) |},
   {| words := words doc; Zs := Zs doc; wordWeights := wordWeights doc;
      doc_numByTopic := alter upd tid (doc_numByTopic doc) |}).

Fixpoint prefixSum_from (acc : FLOAT) (l : list FLOAT) : list FLOAT :=
  match l with
  | [] => []
  | x :: l' => fadd acc x :: prefixSum_from (fadd acc x) l'
  end.

(** Modelled from the spec: [sample::prefixSum(p, n)] of Utils/sample.hpp,
    which is not part of this file.  "Prefix-sum p in place": entry [i]
    of the first [n] becomes [p[0] + ... + p[i]], accumulated from the
    left. *)
Definition prefixSum (p : list FLOAT) (n : nat) : list FLOAT :=
  match take n p with
  | [] => p
  | x :: l => x :: prefixSum_from x l ++ drop n p
  end.

(** [a >= b] on floats. *)
Definition fgeb (a b : FLOAT) : bool := fltb b a || feqb a b.

(** The number of leading entries of [p] that are not [>= u]. *)
Fixpoint first_ge (u : FLOAT) (p : list FLOAT) : nat :=
  match p with
  | [] => 0%nat
  | x :: p' => if fgeb x u then 0%nat else S (first_ge u p')
  end.

(** Modelled from the spec: [sample::sampleFromDiscreteAcc(first, last,
    rg)] of Utils/sample.hpp, which is not part of this file.  "draw u
    uniformly in [0, p[K-1]); find the smallest k with p[k] >= u".  The
    draw itself is the collaborator [uniform_real]; when no entry is
    [>= u] the spec gives no result and the length is returned. *)
Definition sampleFromDiscreteAcc (p : list FLOAT) (rgs : RANDGEN) : nat * RANDGEN :=
  let '(u, rgs') := uniform_real (List.last p fzero) rgs in
  (first_ge u p, rgs').

(** [numByTopicWord.col(vid)] *)
Definition col (m : list (list W)) (vid : nat) : list W :=
  map (fun row => nth vid row wzero) m.

(** The coefficient-wise expression assigned to [zLikelihood] in
    [getZLikelihoods], before the prefix sum. *)
Definition zLikelihood_expr (this : LDAModel) (ld : ModelStateLDA)
    (doc : DocumentLDA) (vid : nat) : list FLOAT :=
  let V := realV this in
  zip_with fdiv
    (zip_with fmul
       (zip_with (fun n a => fadd (cast_FLOAT TW n) a)
          (doc_numByTopic doc) (alphas this))
       (map (fun n => fadd (cast_FLOAT TW n) (eta this))
          (col (numByTopicWord ld) vid)))
    (map (fun n => fadd (cast_FLOAT TW n) (fmul (f_of_Z (Z.of_nat V)) (eta this)))
       (numByTopic ld)).

(** [getZLikelihoods(ld, doc, vid)]: the returned pointer is
    [&ld.zLikelihood[0]]. *)
Definition getZLikelihoods (this : LDAModel) (ld : ModelStateLDA)
    (doc : DocumentLDA) (vid : nat) : ModelStateLDA :=
  set_zLikelihood ld (prefixSum (zLikelihood_expr this ld doc vid) (K this)).

(** The body of the loop of [sampleDocument] below the [continue], at
    position [w]. *)
Definition resampleToken (this : LDAModel) (w : nat)
    (st : DocumentLDA * ModelStateLDA * RANDGEN) : DocumentLDA * ModelStateLDA * RANDGEN :=
  let '(doc, ld, rgs) := st in
  let vid := nth w (words doc) 0%nat in
  let '(ld1, doc1) := addWordTo (-1) ld doc w vid (nth w (Zs doc) 0%nat) in
  let ld2 := getZLikelihoods this ld1 doc1 vid in
  let '(z, rgs') := sampleFromDiscreteAcc (take (K this) (zLikelihood ld2)) rgs in
  let doc2 := set_Zs doc1 (<[w := z]> (Zs doc1)) in
  let '(ld3, doc3) := addWordTo 1 ld2 doc2 w vid z in
  (doc3, ld3, rgs').

(** One turn of that loop: [if (doc.words[w] >= this->realV) continue;]
    and the body. *)
Definition sampleToken (this : LDAModel) (w : nat)
    (st : DocumentLDA * ModelStateLDA * RANDGEN) : DocumentLDA * ModelStateLDA * RANDGEN :=
  if (realV this <=? nth w (words (fst (fst st))) 0%nat)%nat then st
  else resampleToken this w st.

(** [sampleDocument(doc, ld, rgs)] *)
Definition sampleDocument (this : LDAModel) (doc : DocumentLDA)
    (ld : ModelStateLDA) (rgs : RANDGEN) : DocumentLDA * ModelStateLDA * RANDGEN :=
  fold_left (fun st w => sampleToken this w st)
    (seq 0 (length (words doc))) (doc, ld, rgs).

(** *** Hyperparameter optimisation *)

(** [calcDigammaSum(list, len, alpha)].  [list(i)] is given already
    converted to [FLOAT], the conversion [list(i) + alpha] performs. *)
Definition calcDigammaSum (list : nat -> FLOAT) (len : nat) (alpha : FLOAT) : FLOAT :=
  let dAlpha := digammaT alpha in
  fold_left (fun ret i => fadd ret (fsub (digammaT (fadd (list i) alpha)) dAlpha))
    (seq 0 len) (f_of_Z 0).

(** [this->docs[i].getSumWordWeight<_TW>()] and
    [this->docs[i].numByTopic[k]], the two lambdas handed to
    [calcDigammaSum]. *)
Definition docSumWordWeight (this : LDAModel) (i : nat) : FLOAT :=
  match docs this !! i with
  | Some doc => cast_FLOAT TW (getSumWordWeight doc)
  | None => fzero
  end.

Definition docNumByTopic (this : LDAModel) (k i : nat) : FLOAT :=
  match docs this !! i with
  | Some doc => cast_FLOAT TW (nth k (doc_numByTopic doc) wzero)
  | None => fzero
  end.

(** The body of the inner loop over [k]. *)
Definition optimizeTopic (denom : FLOAT) (this : LDAModel) (k : nat) : LDAModel :=
  let nom := calcDigammaSum (docNumByTopic this k) (length (docs this))
               (nth k (alphas this) fzero) in
  set_alphas this
    (<[k := std_max (fmul (fdiv nom denom) (nth k (alphas this) fzero)) FLT_1e_5]>
       (alphas this)).

(** The body of the outer loop. *)
Definition optimizeIteration (this : LDAModel) : LDAModel :=
  let denom := calcDigammaSum (docSumWordWeight this) (length (docs this))
                 (fsum (alphas this)) in
  fold_left (optimizeTopic denom) (seq 0 (K this)) this.

(** [optimizeParameters(pool, localData, rgs)]; the three arguments are
    not used by the body. *)
Definition optimizeParameters (this : LDAModel) : LDAModel :=
  fold_left (fun this _ => optimizeIteration this) (seq 0 10) this.

(** *** Merging the replicas *)

Definition vec_add (a b : list W) : list W := zip_with (wadd TW) a b.
Definition vec_sub (a b : list W) : list W := zip_with (wsub TW) a b.
Definition mat_add (a b : list (list W)) : list (list W) := zip_with vec_add a b.
Definition mat_sub (a b : list (list W)) : list (list W) := zip_with vec_sub a b.

(** The two [+=] of the first loop of [mergeState], for the replica
    [li]. *)
Definition addDelta (tState li globalState : ModelStateLDA) : ModelStateLDA :=
  {| zLikelihood := zLikelihood globalState;
     numByTopic :=
       vec_add (numByTopic globalState)
         (vec_sub (numByTopic li) (numByTopic tState));
     numByTopicWord :=
       mat_add (numByTopicWord globalState)
         (mat_sub (numByTopicWord li) (numByTopicWord tState)) |}.

(** One turn of that loop, on [localData[i]]. *)
Definition mergeLocal (tState : ModelStateLDA) (localData : list ModelStateLDA)
    (globalState : ModelStateLDA) (i : nat) : ModelStateLDA :=
  match localData !! i with
  | Some li => addDelta tState li globalState
  | None => globalState
  end.

(** [cwiseMax(0)] on both count arrays, under [_TW != TermWeight::one]. *)
Definition clampState (g : ModelStateLDA) : ModelStateLDA :=
  if TermWeight.is_one TW then g
  else {| zLikelihood := zLikelihood g;
          numByTopic := map (wmax0 TW) (numByTopic g);
          numByTopicWord := map (map (wmax0 TW)) (numByTopicWord g) |}.

(** [mergeState(pool, globalState, tState, localData)]: the new values of
    the three arguments passed by reference. *)
Definition mergeState (pool : ThreadPool) (globalState tState : ModelStateLDA)
    (localData : list ModelStateLDA)
    : ModelStateLDA * ModelStateLDA * list ModelStateLDA :=
  let tState' := globalState in
  let g0 := default globalState (localData !! 0%nat) in
  let g1 := fold_left (mergeLocal tState' localData)
              (seq 1 (getNumWorkers pool - 1)) g0 in
  let g2 := clampState g1 in
  let localData' := fold_left (fun l i => <[i := g2]> l)
                      (seq 0 (getNumWorkers pool)) localData in
  (g2, tState', localData').

(** *** One training round *)

Definition round_state : Type :=
  (list DocumentLDA * list ModelStateLDA * list RANDGEN)%type.

(** [sampleDocument(docs[j], localData[threadId], rgs[threadId])] on the
    three arrays. *)
Definition sampleAt (this : LDAModel) (threadId j : nat) (st : round_state)
    : round_state :=
  let '(ds, localData, rgs) := st in
  match ds !! j, localData !! threadId, rgs !! threadId with
  | Some doc, Some ld, Some r =>
      let '(doc', ld', r') := sampleDocument this doc ld r in
      (<[j := doc']> ds, <[threadId := ld']> localData, <[threadId := r']> rgs)
  | _, _, _ => st
  end.

(** The task enqueued for chunk [ch], run by worker [threadId]:
    [forRandom((n - 1 - ch) / chStride + 1, rgs[threadId](), ...)]. *)
Definition sampleChunk (this : LDAModel) (chStride threadId ch : nat)
    (st : round_state) : round_state :=
  let '(ds, localData, rgs) := st in
  match rgs !! threadId with
  | Some r =>
      let '(seed, r') := rg_next r in
      fold_left (fun st id => sampleAt this threadId (id * chStride + ch) st)
        (forRandom ((length ds - 1 - ch) / chStride + 1) seed)
        (ds, localData, <[threadId := r']> rgs)
  | None => st
  end.

(** The tasks of one round, taken in the order they are enqueued. *)
Definition sampleRound (this : LDAModel) (pool : ThreadPool) (st : round_state)
    : round_state :=
  let chStride := Nat.min (getNumWorkers pool * 8) (length (fst (fst st))) in
  fold_left (fun st ch => sampleChunk this chStride (workerOf pool ch) ch st)
    (seq 0 chStride) st.

(** The guard of the call to [optimizeParameters] in [trainOne]; [size_t]
    arithmetic, [&&] evaluated left to right. *)
Definition optimDue (this : LDAModel) : bool :=
  (burnIn this <=? iterated this)
  && negb (optimInterval this =? 0)
  && (wrap_size_t (iterated this + 1) mod optimInterval this =? 0).

(** [trainOne(pool, localData, rgs)].  [updateGlobalInfo] has an empty
    body; nothing modelled here raises [exception::TrainingError], so the
    handler is not entered. *)
Definition trainOne (this : LDAModel) (pool : ThreadPool)
    (localData : list ModelStateLDA) (rgs : list RANDGEN)
    : LDAModel * list ModelStateLDA * list RANDGEN :=
  let '(ds, localData1, rgs1) := sampleRound this pool (docs this, localData, rgs) in
  let '(g, t, localData2) :=
    mergeState pool (globalState this) (tState this) localData1 in
  let this1 := set_round this ds g t in
  let this2 := if optimDue this1 then optimizeParameters this1 else this1 in
  (this2, localData2, rgs1).

(** [n] seeds drawn from [r], one generator each. *)
Fixpoint make_rgs (n : nat) (r : RANDGEN) : list RANDGEN * RANDGEN :=
  match n with
  | O => ([], r)
  | S n' =>
      let '(s, r') := rg_next r in
      let '(l, r'') := make_rgs n' r' in
      (seeded_RANDGEN s :: l, r'')
  end.

Fixpoint train_rounds (rounds : nat) (pool : ThreadPool)
    (st : LDAModel * list ModelStateLDA * list RANDGEN)
    : LDAModel * list ModelStateLDA * list RANDGEN :=
  match rounds with
  | O => st
  | S n =>
      let '(this, localData, rgs) := st in
      let '(this', localData', rgs') := trainOne this pool localData rgs in
      train_rounds n pool
        (set_iterated this' (wrap_size_t (iterated this' + 1)), localData', rgs')
  end.

(** Modelled from the spec: [TopicModel::train] of TopicModel.hpp, which
    is not part of this file.  "train(rounds, workers): runs `rounds`
    training rounds"; "Before the round, local states are initialized by
    copying the global state"; one generator per worker seeded from the
    model's; the count of completed rounds goes up by one per round. *)
Definition train (this : LDAModel) (rounds : nat) (pool : ThreadPool) : LDAModel :=
  let '(rgs, _) := make_rgs (getNumWorkers pool) (rg this) in
  let localData := replicate (getNumWorkers pool) (globalState this) in
  fst (fst (train_rounds rounds pool (this, localData, rgs))).

(** *** Log-likelihood *)

(** [getLLDocs(first, last)] over the documents [ds]. *)
Definition llDocTopic (this : LDAModel) (doc : DocumentLDA) (ll : DOUBLE) (k : nat)
    : DOUBLE :=
  dadd ll
    (f2d (fsub
            (lgammaT (fadd (cast_FLOAT TW (nth k (doc_numByTopic doc) wzero))
                           (nth k (alphas this) fzero)))
            (lgammaT (nth k (alphas this) fzero)))).

Definition llDoc (this : LDAModel) (ll : DOUBLE) (doc : DocumentLDA) : DOUBLE :=
  let ll1 :=
    dsub ll
      (f2d (fsub
              (lgammaT (fadd (cast_FLOAT TW (getSumWordWeight doc))
                             (fsum (alphas this))))
              (lgammaT (fsum (alphas this))))) in
  fold_left (llDocTopic this doc) (seq 0 (K this)) ll1.

Definition getLLDocs (this : LDAModel) (ds : list DocumentLDA) : DOUBLE :=
  fold_left (llDoc this) ds (d_of_Z 0).

(** [getLLRest(ld)] *)
Definition llWord (this : LDAModel) (ld : ModelStateLDA) (k : nat)
    (ll : DOUBLE) (v : nat) : DOUBLE :=
  let n := nth v (nth k (numByTopicWord ld) []) wzero in
  if w_is_zero TW n then ll
  else dadd ll (f2d (fsub (lgammaT (fadd (cast_FLOAT TW n) (eta this)))
                          (lgammaT (eta this)))).

Definition llTopic (this : LDAModel) (ld : ModelStateLDA) (ll : DOUBLE) (k : nat)
    : DOUBLE :=
  let V := realV this in
  let ll1 :=
    dsub ll
      (f2d (lgammaT (fadd (cast_FLOAT TW (nth k (numByTopic ld) wzero))
                          (fmul (f_of_Z (Z.of_nat V)) (eta this))))) in
  fold_left (llWord this ld k) (seq 0 V) ll1.

Definition getLLRest (this : LDAModel) (ld : ModelStateLDA) : DOUBLE :=
  let V := realV this in
  let ll0 :=
    dadd (d_of_Z 0)
      (f2d (fmul (lgammaT (fmul (f_of_Z (Z.of_nat V)) (eta this)))
                 (f_of_Z (Z.of_nat (K this))))) in
  fold_left (llTopic this ld) (seq 0 (K this)) ll0.


(** *** Initialising a document *)

(** [prepareDoc(doc, topicDocPtr, wordSize)]: [numByTopic.init(nullptr,
    K)] gives [K] zeros, [tvector<TID>(wordSize)] gives [wordSize]
    value-initialised entries, and [resize] keeps the weights already
    present. *)
Definition prepareDoc (this : LDAModel) (doc : DocumentLDA) (wordSize : nat)
    : DocumentLDA :=
  {| words := words doc;
     Zs := replicate wordSize 0%nat;
     wordWeights :=
       if TermWeight.is_one TW then wordWeights doc
       else resize wordSize (f_of_Z 1) (wordWeights doc);
     doc_numByTopic := replicate (K this) wzero |}.

(** [struct Generator { std::uniform_int_distribution<TID> theta; }],
    given by the two bounds of the distribution. *)
Record Generator : Set := { theta : Z * Z }.

Definition makeGeneratorForInit (this : LDAModel) : Generator :=
  {| theta := (0, to_TID (Z.of_nat (K this) - 1)) |}.

(** [updateStateWithDoc(g, ld, rgs, doc, i)] *)
Definition updateStateWithDoc (g : Generator) (ld : ModelStateLDA) (rgs : RANDGEN)
    (doc : DocumentLDA) (i : nat) : DocumentLDA * ModelStateLDA * RANDGEN :=
  let w := nth i (words doc) 0%nat in
  let '(z, rgs') := uniform_int (fst (theta g)) (snd (theta g)) rgs in
  let doc1 := set_Zs doc (<[i := z]> (Zs doc)) in
  let '(ld', doc') := addWordTo 1 ld doc1 i w z in
  (doc', ld', rgs').

(** The term frequencies [tf] of [initializeDocState]: [uint32_t]
    counters, one per vocabulary entry, filled only under
    [_TW == TermWeight::pmi]. *)
Definition countTf (this : LDAModel) (doc : DocumentLDA) : list Z :=
  if TermWeight.is_pmi TW then
    fold_left
      (fun tf w =>
         if (w <? realV this)%nat then alter (fun c => (c + 1) mod 2 ^ 32) w tf
         else tf)
      (words doc) (replicate (realV this) 0)
  else replicate (realV this) 0.

(** The weight stored at position [i] under idf and pmi. *)
Definition assignWeight (this : LDAModel) (tf : list Z) (doc : DocumentLDA) (i : nat)
    : DocumentLDA :=
  let w := nth i (words doc) 0%nat in
  if TermWeight.is_idf TW then
    set_wordWeights doc (<[i := nth w (vocabWeights this) fzero]> (wordWeights doc))
  else if TermWeight.is_pmi TW then
    set_wordWeights doc
      (<[i := std_max
                (logT (fdiv (fdiv (f_of_Z (nth w tf 0)) (nth w (vocabWeights this) fzero))
                            (f_of_Z (Z.of_nat (length (words doc))))))
                (f_of_Z 0)]> (wordWeights doc))
  else doc.

(** The body of the second loop of [initializeDocState] below the
    [continue], at position [i]. *)
Definition initInVocab (this : LDAModel) (g : Generator) (tf : list Z) (i : nat)
    (st : DocumentLDA * ModelStateLDA * RANDGEN) : DocumentLDA * ModelStateLDA * RANDGEN :=
  let '(doc, ld, rgs) := st in
  updateStateWithDoc g ld rgs (assignWeight this tf doc i) i.

(** One turn of that loop. *)
Definition initToken (this : LDAModel) (g : Generator) (tf : list Z) (i : nat)
    (st : DocumentLDA * ModelStateLDA * RANDGEN) : DocumentLDA * ModelStateLDA * RANDGEN :=
  if (realV this <=? nth i (words (fst (fst st))) 0%nat)%nat then st
  else initInVocab this g tf i st.

(** [initializeDocState(doc, topicDocPtr, g, ld, rgs)] *)
Definition initializeDocState (this : LDAModel) (doc : DocumentLDA) (g : Generator)
    (ld : ModelStateLDA) (rgs : RANDGEN) : DocumentLDA * ModelStateLDA * RANDGEN :=
  let doc0 := prepareDoc this doc (length (words doc)) in
  let tf := countTf this doc0 in
  fold_left (fun st i => initToken this g tf i st)
    (seq 0 (length (words doc0))) (doc0, ld, rgs).

(** [DocumentLDA::update(ptr, K)] with [ptr = nullptr]: the counts of
    the document rebuilt from [Zs]. *)
Definition update (doc : DocumentLDA) (K : nat) : DocumentLDA :=
  fold_left
    (fun d i =>
       {| words := words d; Zs := Zs d; wordWeights := wordWeights d;
          doc_numByTopic :=
            alter (fun n => wadd TW n (tokenWeight d i)) (nth i (Zs d) 0%nat)
              (doc_numByTopic d) |})
    (seq 0 (length (Zs doc)))
    {| words := words doc; Zs := Zs doc; wordWeights := wordWeights doc;
       doc_numByTopic := replicate K wzero |}.

(** [updateDocs()], the branch of [prepare] taken when [initDocs] is
    false. *)
Definition updateDocs (this : LDAModel) : LDAModel :=
  set_round this (map (fun doc => update doc (K this)) (docs this))
    (globalState this) (tState this).

(** *** Read-outs *)

(** One turn of the inner loop of [_getTopicsCount]. *)
Definition countToken (this : LDAModel) (doc : DocumentLDA) (cnt : list Z) (i : nat)
    : list Z :=
  if (nth i (words doc) 0%nat <? realV this)%nat
  then alter (fun c => wrap_size_t (c + 1)) (nth i (Zs doc) 0%nat) cnt
  else cnt.

(** [_getTopicsCount()], which [getCountByTopic] returns. *)
Definition _getTopicsCount (this : LDAModel) : list Z :=
  fold_left
    (fun cnt doc => fold_left (countToken this doc) (seq 0 (length (Zs doc))) cnt)
    (docs this) (replicate (K this) 0).

Definition getCountByTopic (this : LDAModel) : list Z := _getTopicsCount this.

(** [getTopicsByDoc(doc)]: the lambda takes its argument as [size_t]. *)
Definition getTopicsByDoc (this : LDAModel) (doc : DocumentLDA) : list FLOAT :=
  let sum := fadd (cast_FLOAT TW (getSumWordWeight doc))
                  (fmul (f_of_Z (Z.of_nat (K this))) (alpha this)) in
  map (fun n => fdiv (fadd (f_of_Z (to_size_t TW n)) (alpha this)) sum)
    (take (K this) (doc_numByTopic doc)).

(** *** Inference on held-out documents *)

(** The variables [_infer] works on: [*this], the documents in
    [docFirst, docLast), the locals [tmpState], [tState], [localData],
    [rgc], [rgs], and the log-likelihoods collected so far. *)
Record InferState : Type := {
  self : LDAModel;
  heldOut : list DocumentLDA;
  tmpState : ModelStateLDA;
  tStateL : ModelStateLDA;
  localDataL : list ModelStateLDA;
  rgc : RANDGEN;
  rgsL : list RANDGEN;
  results : list DOUBLE
}.

(** [initializeDocState] on [tmpState] and [rgc] for the
    document at index [j]. *)
Definition inferInit (g : Generator) (s : InferState) (j : nat) : InferState :=
  match heldOut s !! j with
  | Some d =>
      let '(d', tmp', rgc') := initializeDocState (self s) d g (tmpState s) (rgc s) in
      {| self := self s; heldOut := <[j := d']> (heldOut s); tmpState := tmp';
         tStateL := tStateL s; localDataL := localDataL s; rgc := rgc';
         rgsL := rgsL s; results := results s |}
  | None => s
  end.

(** One iteration of the joint loop: the sampling tasks, then
    [mergeState(pool, tmpState, tState, localData.data())]. *)
Definition inferRound (pool : ThreadPool) (s : InferState) : InferState :=
  let '(ds, localData1, rgs1) :=
    sampleRound (self s) pool (heldOut s, localDataL s, rgsL s) in
  let '(g, t, localData2) := mergeState pool (tmpState s) (tStateL s) localData1 in
  {| self := self s; heldOut := ds; tmpState := g; tStateL := t;
     localDataL := localData2; rgc := rgc s; rgsL := rgs1; results := results s |}.

(** The branch [_Together] of [_infer]. *)
Definition inferTogether (pool : ThreadPool) (maxIter : nat) (s0 : InferState)
    : InferState :=
  let generator := makeGeneratorForInit (self s0) in
  let s1 :=
    {| self := self s0; heldOut := heldOut s0;
       tmpState := globalState (self s0); tStateL := globalState (self s0);
       localDataL := localDataL s0; rgc := default_RANDGEN;
       rgsL := rgsL s0; results := results s0 |} in
  let s2 := fold_left (inferInit generator) (seq 0 (length (heldOut s1))) s1 in
  let '(rgs, rgc') := make_rgs (getNumWorkers pool) (rgc s2) in
  let s3 :=
    {| self := self s2; heldOut := heldOut s2; tmpState := tmpState s2;
       tStateL := tStateL s2;
       localDataL := replicate (getNumWorkers pool) (tmpState s2);
       rgc := rgc'; rgsL := rgs; results := results s2 |} in
  let s4 := fold_left (fun s _ => inferRound pool s) (seq 0 maxIter) s3 in
  let ll := dsub (getLLRest (self s4) (tmpState s4))
                 (getLLRest (self s4) (globalState (self s4))) in
  let ll' := dadd ll (getLLDocs (self s4) (heldOut s4)) in
  {| self := self s4; heldOut := heldOut s4; tmpState := tmpState s4;
     tStateL := tStateL s4; localDataL := localDataL s4; rgc := rgc s4;
     rgsL := rgsL s4; results := [ll'] |}.

(** The task of the other branch for the document at index [j]. *)
Definition inferOne (maxIter : nat) (gllRest : DOUBLE) (g : Generator)
    (s : InferState) (j : nat) : InferState :=
  match heldOut s !! j with
  | Some d =>
      let '(d1, tmp1, rgc1) :=
        initializeDocState (self s) d g (globalState (self s)) default_RANDGEN in
      let '(d2, tmp2, rgc2) :=
        fold_left (fun st _ => let '(d, tmp, r) := st in sampleDocument (self s) d tmp r)
          (seq 0 maxIter) (d1, tmp1, rgc1) in
      let ll := dsub (getLLRest (self s) tmp2) gllRest in
      let ll' := dadd ll (getLLDocs (self s) [d2]) in
      {| self := self s; heldOut := <[j := d2]> (heldOut s); tmpState := tmp2;
         tStateL := tStateL s; localDataL := localDataL s; rgc := rgc2;
         rgsL := rgsL s; results := results s ++ [ll'] |}
  | None => s
  end.

Definition inferSeparately (maxIter : nat) (s0 : InferState) : InferState :=
  let generator := makeGeneratorForInit (self s0) in
  let gllRest := getLLRest (self s0) (globalState (self s0)) in
  fold_left (inferOne maxIter gllRest generator) (seq 0 (length (heldOut s0))) s0.

(** [_infer<_Together>(docFirst, docLast, maxIter, tolerance,
    numWorkers)]: the model after the call, the documents after the call
    and the returned vector.  [pool] is the pool built from
    [numWorkers]; [tolerance] is not read by the body. *)
Definition _infer (_Together : bool) (this : LDAModel) (ds : list DocumentLDA)
    (maxIter : nat) (pool : ThreadPool)
    : LDAModel * list DocumentLDA * list DOUBLE :=
  let s0 :=
    {| self := this; heldOut := ds; tmpState := globalState this;
       tStateL := globalState this; localDataL := []; rgc := default_RANDGEN;
       rgsL := []; results := [] |} in
  let s := if _Together then inferTogether pool maxIter s0
           else inferSeparately maxIter s0 in
  (self s, heldOut s, results s).

(** *** Construction *)

(** [LDAModel(_K, _alpha, _eta, _rg)]: [K(_K)] converts to [TID]; the
    members of the base class start empty and the two schedule members
    at their in-class initialisers. *)
Definition LDAModel_ctor (_K : Z) (_alpha _eta : FLOAT) (_rg : RANDGEN) : LDAModel :=
  let K' := Z.to_nat (to_TID _K) in
  {| docs := [];
     globalState := {| zLikelihood := []; numByTopic := []; numByTopicWord := [] |};
     tState := {| zLikelihood := []; numByTopic := []; numByTopicWord := [] |};
     realV := 0%nat; iterated := 0; rg := _rg;
     vocabWeights := []; alpha := _alpha; alphas := replicate K' _alpha;
     eta := _eta; K := K'; optimInterval := 10; burnIn := 0 |}.
End LDA.

Arguments DocumentLDA {_} TW.
Arguments ModelStateLDA {_} TW.
Arguments LDAModel {_ _} TW.
Arguments InferState {_ _} TW.
Arguments round_state {_ _} TW.
Arguments LDAModel_ctor {_ _} TW _K _alpha _eta _rg.
Arguments wzero {_} TW.

(** [ILDAModel::create]: the macro [SWITCH_TW] returns a new model for
    each of the three term weights and [nullptr] otherwise. *)
Definition create `{Collaborators} (_weight : TermWeight.t) (_K : Z)
    (_alpha _eta : FLOAT) (_rg : RANDGEN) : option { tw : TermWeight.t & LDAModel tw } :=
  match _weight with
  | TermWeight.one =>
      Some (existT TermWeight.one (LDAModel_ctor TermWeight.one _K _alpha _eta _rg))
  | TermWeight.idf =>
      Some (existT TermWeight.idf (LDAModel_ctor TermWeight.idf _K _alpha _eta _rg))
  | TermWeight.pmi =>
      Some (existT TermWeight.pmi (LDAModel_ctor TermWeight.pmi _K _alpha _eta _rg))
  | _ => None
  end.

(** ** Two arithmetics *)

(** IEEE-754 binary32 for [FLOAT] and binary64 for [double], round to
    nearest even, on [spec_float]. *)
Module Binary32.
Definition of_Z (z : Z) : spec_float := binary_normalize 24 128 z 0 false.

Definition to_Z (x : spec_float) : Z :=
  match x with
  | S754_finite s m e =>
      cond_Zopp s
        match e with
        | Z0 => Zpos m
        | Zpos p => Zpos m * 2 ^ Zpos p
        | Zneg p => Zpos m / 2 ^ Zpos p
        end
  | _ => 0
  end.

Definition widen (x : spec_float) : spec_float :=
  match x with
  | S754_finite s m e => binary_normalize 53 1024 (cond_Zopp s (Zpos m)) e false
  | _ => x
  end.

Definition is_nan (x : spec_float) : bool :=
  match x with S754_nan => true | _ => false end.

#[export] Instance binary32_ops : FloatOps := {|
  FLOAT := spec_float;
  DOUBLE := spec_float;
  f_of_Z := of_Z;
  f_to_Z := to_Z;
  fadd := SFadd 24 128;
  fsub := SFsub 24 128;
  fmul := SFmul 24 128;
  fdiv := SFdiv 24 128;
  fltb := SFltb;
  feqb := SFeqb;
  d_of_Z := fun z => binary_normalize 53 1024 z 0 false;
  f2d := widen;
  dadd := SFadd 53 1024;
  dsub := SFsub 53 1024
|}.

(** [n / d] rounded once: the float nearest to the decimal literal when
    [n] and [d] are exactly representable. *)
Definition lit (n d : Z) : spec_float := SFdiv 24 128 (of_Z n) (of_Z d).

(** A stand-in for the collaborators, to run the definitions on concrete
    inputs: [updateCnt] adds the increment, [TID] is 16 bits wide, the
    generator is a linear congruential one, [forRandom] visits in index
    order, and the three special functions are placeholders that no
    statement below depends on. *)
Definition lcg (s : Z) : Z := (s * 1103515245 + 12345) mod 2 ^ 31.

#[export] Instance binary32_collaborators : Collaborators := {|
  digammaT := fun x => x;
  lgammaT := fun x => x;
  logT := fun x => x;
  updateCnt := fun tw _ val inc => wadd tw val inc;
  to_TID := fun z => z mod 2 ^ 16;
  RANDGEN := Z;
  default_RANDGEN := 5489;
  seeded_RANDGEN := fun s => s;
  rg_next := fun s => (lcg s, lcg s);
  uniform_int := fun a b s => (Z.to_nat (a + lcg s mod (b - a + 1)), lcg s);
  uniform_real := fun hi s => (SFmul 24 128 hi (SFdiv 24 128 (of_Z (lcg s)) (of_Z (2 ^ 31))), lcg s);
  forRandom := fun n _ => seq 0 n
|}.
End Binary32.

(** Integer arithmetic, where sums are exact and may be regrouped. *)
Module Exact.

End Exact.

(** ** The formulas of the specification *)

Section Spec.
Context `{Collaborators} {TW : TermWeight.t}.

(** Topics per document: (d.num_by_topic[k] + alphas[k]) /
    (sum_word_weight(d) + sum over k of alphas[k]). *)
Definition topics_by_doc_spec (this : LDAModel TW) (doc : DocumentLDA TW) (k : nat)
    : FLOAT :=
  fdiv (fadd (cast_FLOAT TW (nth k (doc_numByTopic doc) (wzero TW)))
             (nth k (alphas this) fzero))
       (fadd (cast_FLOAT TW (getSumWordWeight doc)) (fsum (alphas this))).

(** Entry (k, v) of a topic-word matrix. *)
Definition entry (s : ModelStateLDA TW) (k v : nat) : WeightType TW :=
  nth v (nth k (numByTopicWord s) []) (wzero TW).

(** A state with [n] topic totals and an [n] by [v] matrix. *)
Definition shape (n v : nat) (s : ModelStateLDA TW) : Prop :=
  length (numByTopic s) = n
  /\ length (numByTopicWord s) = n
  /\ Forall (fun row => length row = v) (numByTopicWord s).

(** L_0 + (L_1 - G) + ... + (L_{W-1} - G) on one entry, summed from the
    left. *)
Definition merged_entry (g l0 : WeightType TW) (ls : list (WeightType TW))
    : WeightType TW :=
  fold_left (fun acc li => wadd TW acc (wsub TW li g)) ls l0.

(** The proposal of the per-token resampling, for topic [k] and word
    [v]: (d.num_by_topic[k] + alphas[k]) * (S.num_by_topic_word[k][v] +
    eta) / (S.num_by_topic[k] + V * eta). *)
Definition proposal_spec (this : LDAModel TW) (ld : ModelStateLDA TW)
    (doc : DocumentLDA TW) (v k : nat) : FLOAT :=
  fdiv
    (fmul (fadd (cast_FLOAT TW (nth k (doc_numByTopic doc) (wzero TW)))
                (nth k (alphas this) fzero))
          (fadd (cast_FLOAT TW (entry ld k v)) (eta this)))
    (fadd (cast_FLOAT TW (nth k (numByTopic ld) (wzero TW)))
          (fmul (f_of_Z (Z.of_nat (realV this))) (eta this))).

(** p[0] + p[1] + ... + p[k], from the left. *)
Definition partial_sum (p : list FLOAT) (k : nat) : FLOAT :=
  fold_left fadd (take k (tail p)) (nth 0 p fzero).

(** The two sums of the hyperparameter update, over the documents:
    denom, with [s] the sum of the alphas, and nom_k, for the value [a]
    of alphas[k]. *)
Definition denom_spec (this : LDAModel TW) (s : FLOAT) : FLOAT :=
  fold_left
    (fun acc doc =>
       fadd acc (fsub (digammaT (fadd (cast_FLOAT TW (getSumWordWeight doc)) s))
                      (digammaT s)))
    (docs this) (f_of_Z 0).

Definition nom_spec (this : LDAModel TW) (k : nat) (a : FLOAT) : FLOAT :=
  fold_left
    (fun acc doc =>
       fadd acc
         (fsub (digammaT (fadd (cast_FLOAT TW (nth k (doc_numByTopic doc) (wzero TW))) a))
               (digammaT a)))
    (docs this) (f_of_Z 0).

(** One fixed-point iteration: every alphas[k] replaced, from the values
    of before the iteration, by the larger of nom_k / denom * alphas[k]
    and 1e-5. *)
Definition optimizeIteration_spec (this : LDAModel TW) : LDAModel TW :=
  set_alphas this
    (imap (fun k a =>
             std_max (fmul (fdiv (nom_spec this k a)
                                 (denom_spec this (fsum (alphas this)))) a)
                     FLT_1e_5)
       (alphas this)).









(** The positions of a document whose vocabulary id is below V. *)
Definition in_vocab_positions (this : LDAModel TW) (doc : DocumentLDA TW) : list nat :=
  List.filter (fun i => negb (realV this <=? nth i (words doc) 0%nat)%nat)
    (seq 0 (length (words doc))).

(** The clamp of the weighted modes, absent from [one]. *)
Definition clamp_entry (x : WeightType TW) : WeightType TW :=
  if TermWeight.is_one TW then x else wmax0 TW x.
End Spec.

(** ** Concrete inputs *)

Module Sample.
Import Binary32.

(** Three tokens over a vocabulary of two words, two on topic 0 and one
    on topic 1, and the state that counts them. *)
Definition doc3 : DocumentLDA TermWeight.one :=
  @Build_DocumentLDA _ TermWeight.one [0; 0; 1]%nat [0; 0; 1]%nat [] [2; 1].

Definition state3 : ModelStateLDA TermWeight.one :=
  @Build_ModelStateLDA _ TermWeight.one
    [of_Z 0; of_Z 0] [2; 1] [[2; 0]; [0; 1]].

(** A model with two topics whose [alphas] have moved away from the
    constructor's [alpha = 0.1], as [optimizeParameters] leaves them. *)
Definition optimised_model : LDAModel TermWeight.one :=
  {| docs := [doc3]; globalState := state3; tState := state3;
     realV := 2; iterated := 10; rg := 42; vocabWeights := [];
     alpha := lit 1 10; alphas := [lit 1 5; lit 3 10]; eta := lit 1 100;
     K := 2; optimInterval := 10; burnIn := 0 |}.

(** An idf model over one word of weight 1/2, before any optimisation,
    and its document: one token, on topic 0. *)
Definition half_doc : DocumentLDA TermWeight.idf :=
  @Build_DocumentLDA _ TermWeight.idf [0]%nat [0]%nat [lit 1 2] [lit 1 2; of_Z 0].

Definition half_state : ModelStateLDA TermWeight.idf :=
  @Build_ModelStateLDA _ TermWeight.idf
    [of_Z 0; of_Z 0] [lit 1 2; of_Z 0] [[lit 1 2]; [of_Z 0]].

Definition fresh_idf_model : LDAModel TermWeight.idf :=
  {| docs := [half_doc]; globalState := half_state; tState := half_state;
     realV := 1; iterated := 0; rg := 42; vocabWeights := [lit 1 2];
     alpha := lit 1 10; alphas := [lit 1 10; lit 1 10]; eta := lit 1 100;
     K := 2; optimInterval := 10; burnIn := 0 |}.
End Sample.

Module SampleV.
Import Binary32.

(** Two topics over a vocabulary of two words, nothing counted yet. *)
Definition zero_state : ModelStateLDA TermWeight.one :=
  @Build_ModelStateLDA _ TermWeight.one
    [of_Z 0; of_Z 0] [0; 0] [[0; 0]; [0; 0]].

Definition small_model : LDAModel TermWeight.one :=
  {| docs := []; globalState := zero_state; tState := zero_state;
     realV := 2; iterated := 0; rg := 42; vocabWeights := [];
     alpha := lit 1 10; alphas := [lit 1 10; lit 1 10]; eta := lit 1 100;
     K := 2; optimInterval := 10; burnIn := 0 |}.

(** One token of the vocabulary and one token outside it. *)
Definition oov_doc : DocumentLDA TermWeight.one :=
  @Build_DocumentLDA _ TermWeight.one [0; 5]%nat [] [] [].

(** The document as [initializeDocState] leaves it. *)
Definition oov_doc_initialised : DocumentLDA TermWeight.one :=
  fst (fst (initializeDocState small_model oov_doc
              (makeGeneratorForInit small_model) zero_state 42)).

Definition one_worker : ThreadPool :=
  {| getNumWorkers := 1; workerOf := fun _ => 0%nat |}.

Definition two_workers : ThreadPool :=
  {| getNumWorkers := 2; workerOf := fun ch => (ch mod 2)%nat |}.

(** Two replicas that each moved one token. *)
Definition replica0 : ModelStateLDA TermWeight.one :=
  @Build_ModelStateLDA _ TermWeight.one
    [of_Z 0; of_Z 0] [1; 0] [[1; 0]; [0; 0]].

Definition replica1 : ModelStateLDA TermWeight.one :=
  @Build_ModelStateLDA _ TermWeight.one
    [of_Z 0; of_Z 0] [0; 1] [[0; 0]; [0; 1]].

(** A document of two in-vocabulary tokens and the state that counts
    them. *)
Definition doc2 : DocumentLDA TermWeight.one :=
  @Build_DocumentLDA _ TermWeight.one [0; 1]%nat [0; 1]%nat [] [1; 1].

Definition state2 : ModelStateLDA TermWeight.one :=
  @Build_ModelStateLDA _ TermWeight.one
    [of_Z 0; of_Z 0] [1; 1] [[1; 0]; [0; 1]].
End SampleV.

Module SampleX.
Import Exact.


End SampleX.

(** ** Further members of [LDAModel] *)

Section More.
Context `{Collaborators} {TW : TermWeight.t}.

(** [initGlobalState(initDocs)]: [zLikelihood] is always reset to [K]
    zeros, the two count arrays only when [initDocs] holds;
    [numByTopicDoc] belongs to [_Shared], which is false. *)
Definition initGlobalState (this : LDAModel TW) (initDocs : bool) : LDAModel TW :=
  let V := realV this in
  set_round this (docs this)
    {| zLikelihood := replicate (K this) fzero;
       numByTopic :=
         if initDocs then replicate (K this) (wzero TW)
         else numByTopic (globalState this);
       numByTopicWord :=
         if initDocs then replicate (K this) (replicate V (wzero TW))
         else numByTopicWord (globalState this) |}
    (tState this).

(** [_getWidsByTopic(tid)]; the [assert] is compiled away under NDEBUG. *)
Definition _getWidsByTopic (this : LDAModel TW) (tid : nat) : list FLOAT :=
  let V := realV this in
  let sum := fadd (cast_FLOAT TW (nth tid (numByTopic (globalState this)) (wzero TW)))
                  (fmul (f_of_Z (Z.of_nat V)) (eta this)) in
  let r := nth tid (numByTopicWord (globalState this)) [] in
  map (fun v => fdiv (fadd (cast_FLOAT TW (nth v r (wzero TW))) (eta this)) sum)
    (seq 0 V).

(** [setOptimInterval] and [setBurnInIteration] *)
Definition setOptimInterval (this : LDAModel TW) (_optimInterval : Z) : LDAModel TW :=
  {| docs := docs this; globalState := globalState this; tState := tState this;
     realV := realV this; iterated := iterated this; rg := rg this;
     vocabWeights := vocabWeights this; alpha := alpha this; alphas := alphas this;
     eta := eta this; K := K this; optimInterval := _optimInterval;
     burnIn := burnIn this |}.

Definition setBurnInIteration (this : LDAModel TW) (iteration : Z) : LDAModel TW :=
  {| docs := docs this; globalState := globalState this; tState := tState this;
     realV := realV this; iterated := iterated this; rg := rg this;
     vocabWeights := vocabWeights this; alpha := alpha this; alphas := alphas this;
     eta := eta this; K := K this; optimInterval := optimInterval this;
     burnIn := iteration |}.
End More.

(** ** The histogram of the assignments *)

Section Histogram.
Context `{Collaborators} {TW : TermWeight.t}.

(** Position [i] holds a word of the vocabulary and is assigned to topic
    [k]. *)
Definition assigned_to (this : LDAModel TW) (doc : DocumentLDA TW) (k i : nat) : bool :=
  negb (realV this <=? nth i (words doc) 0%nat)%nat && (nth i (Zs doc) 0%nat =? k)%nat.

(** The number of such positions below [m], and in the whole document. *)
Definition histogram_upto (this : LDAModel TW) (doc : DocumentLDA TW) (m k : nat) : Z :=
  Z.of_nat (length (List.filter (assigned_to this doc k) (seq 0 m))).

Definition topic_histogram (this : LDAModel TW) (doc : DocumentLDA TW) (k : nat) : Z :=
  histogram_upto this doc (length (words doc)) k.
End Histogram.

(** ** Invariants of the counts under [TermWeight::one] *)

Section CountInvariants.
Context `{Collaborators}.

(** The sum of a row of integer counts. *)
Definition sumZ (l : list Z) : Z := fold_right Z.add 0 l.

(** What the code relies on from [updateCnt] when nothing is weighted:
    with [DEC] false it adds the increment, in [int32_t]. *)
Definition updateCnt_adds : Prop :=
  forall v inc : Z, updateCnt TermWeight.one false v inc = wrap32 (v + inc).

(** Adding [INC] to an [int32_t] count. *)
Definition bump (INC : Z) (x : Z) : Z := wrap32 (x + INC).

(** Every topic total is the sum of its row of the topic-word matrix,
    as [int32_t] values. *)
Definition totals_consistent (ld : ModelStateLDA TermWeight.one) : Prop :=
  forall k, (k < length (numByTopic ld))%nat ->
    wrap32 (sumZ (nth k (numByTopicWord ld) [])) = wrap32 (nth k (numByTopic ld) 0).

(** By how much a topic total of the state exceeds the count of the
    document, as an [int32_t]. *)
Definition offset (ld : ModelStateLDA TermWeight.one) (doc : DocumentLDA TermWeight.one)
    (k : nat) : Z :=
  wrap32 (nth k (numByTopic ld) 0 - nth k (doc_numByTopic doc) 0).

(** The values an [int32_t] holds. *)
Definition int32_range (z : Z) : Prop := - 2 ^ 31 <= z < 2 ^ 31.

Definition int32_state (ld : ModelStateLDA TermWeight.one) : Prop :=
  Forall int32_range (numByTopic ld)
  /\ Forall (Forall int32_range) (numByTopicWord ld).

(** The counts of a document are the histogram of its assignments. *)
Definition counts_match (this : LDAModel TermWeight.one)
    (doc : DocumentLDA TermWeight.one) : Prop :=
  forall k, (k < length (doc_numByTopic doc))%nat ->
    nth k (doc_numByTopic doc) 0 = wrap32 (topic_histogram this doc k).

(** The count of topic [k] summed over documents, and the total of topic
    [k] summed over replicas of the state. *)
Definition colsum (k : nat) (ds : list (DocumentLDA TermWeight.one)) : Z :=
  sumZ (map (fun d : DocumentLDA TermWeight.one => nth k (doc_numByTopic d) 0) ds).

Definition replica_sum (k : nat) (ls : list (ModelStateLDA TermWeight.one)) : Z :=
  sumZ (map (fun l : ModelStateLDA TermWeight.one => nth k (numByTopic l) 0) ls).

(** Every topic total of the state is the sum of the counts the
    documents hold for that topic, as [int32_t] values. *)
Definition global_matches_docs (n : nat) (ld : ModelStateLDA TermWeight.one)
    (ds : list (DocumentLDA TermWeight.one)) : Prop :=
  forall k, (k < n)%nat -> wrap32 (nth k (numByTopic ld) 0) = wrap32 (colsum k ds).

(** A document as the sampler keeps it: [n] topic counts, one assignment
    per word, and the counts are the histogram of the assignments. *)
Definition doc_consistent (this : LDAModel TermWeight.one) (n : nat)
    (doc : DocumentLDA TermWeight.one) : Prop :=
  length (doc_numByTopic doc) = n
  /\ length (Zs doc) = length (words doc)
  /\ counts_match this doc.

(** The counts of a model agree with each other: the global state is
    [K] by [V], its totals are the sums of its rows and the sums of the
    counts of the documents, and every document is consistent. *)
Definition model_consistent (this : LDAModel TermWeight.one) : Prop :=
  shape (K this) (realV this) (globalState this)
  /\ totals_consistent (globalState this)
  /\ Forall (doc_consistent this (K this)) (docs this)
  /\ global_matches_docs (K this) (globalState this) (docs this).

(** What holds of the documents and the replicas all along a round:
    consistent documents, [m] well-shaped consistent replicas, and a
    difference between the totals of the replicas and the counts of the
    documents that stays at [c], as [int32_t] values. *)
Definition round_consistent (this : LDAModel TermWeight.one) (n m : nat) (c : nat -> Z)
    (st : round_state TermWeight.one) : Prop :=
  Forall (doc_consistent this n) (fst (fst st))
  /\ length (snd (fst st)) = m
  /\ Forall (fun l : ModelStateLDA TermWeight.one =>
               shape n (realV this) l /\ totals_consistent l) (snd (fst st))
  /\ forall k, (k < n)%nat ->
       wrap32 (replica_sum k (snd (fst st)) - colsum k (fst (fst st))) = wrap32 (c k).
End CountInvariants.

(** ** [prepare] *)

Section Prepare.
Context `{Collaborators} {TW : TermWeight.t}.

(** Members of the base class [TopicModel], which this file does not
    define: the two functions [prepare] calls first, and the vector
    [vocabFrequencies] it reads. *)
Variable removeStopwords : LDAModel TW -> Z -> Z -> LDAModel TW.
Variable updateWeakArray : LDAModel TW -> LDAModel TW.
Variable vocabFrequencies : LDAModel TW -> list Z.

(** The loop filling [df]: [uint32_t] counters, one turn per distinct
    word of each document; the increments commute, so the order in which
    the [unordered_set] is visited does not matter. *)
Definition countDf (this : LDAModel TW) : list Z :=
  fold_left
    (fun df doc =>
       fold_left
         (fun df w =>
            if (realV this <=? w)%nat then df
            else alter (fun c => (c + 1) mod 2 ^ 32) w df)
         (remove_dups (words doc)) df)
    (docs this) (replicate (realV this) 0).

(** [totCf = accumulate(vocabFrequencies.begin(), vocabFrequencies.end(),
    0)]: summed in [int], stored in a [uint32_t]. *)
Definition totCf (this : LDAModel TW) : Z :=
  fold_left (fun a c => wrap32 (a + c)) (vocabFrequencies this) 0 mod 2 ^ 32.

(** The vocabulary weights [prepare] computes under idf and pmi. *)
Definition computeVocabWeights (this : LDAModel TW) : list FLOAT :=
  let V := realV this in
  if TermWeight.is_idf TW then
    let df := countDf this in
    map (fun i => logT (fdiv (f_of_Z (Z.of_nat (length (docs this))))
                             (f_of_Z (nth i df 0))))
      (seq 0 V)
  else if TermWeight.is_pmi TW then
    map (fun i => fdiv (f_of_Z (nth i (vocabFrequencies this) 0)) (f_of_Z (totCf this)))
      (seq 0 V)
  else vocabWeights this.

Definition set_vocabWeights (this : LDAModel TW) (vw : list FLOAT) : LDAModel TW :=
  {| docs := docs this; globalState := globalState this; tState := tState this;
     realV := realV this; iterated := iterated this; rg := rg this;
     vocabWeights := vw; alpha := alpha this; alphas := alphas this;
     eta := eta this; K := K this; optimInterval := optimInterval this;
     burnIn := burnIn this |}.

(** One turn of the loop of [prepare] over the documents:
    [initializeDocState(doc, nullptr, generator, this->globalState,
    this->rg)], the document written back in place. *)
Definition initializeDoc (g : Generator) (this : LDAModel TW) (i : nat) : LDAModel TW :=
  match docs this !! i with
  | Some doc =>
      let '(doc', ld', rg') :=
        initializeDocState this doc g (globalState this) (rg this) in
      {| docs := <[i := doc']> (docs this); globalState := ld'; tState := tState this;
         realV := realV this; iterated := iterated this; rg := rg';
         vocabWeights := vocabWeights this; alpha := alpha this;
         alphas := alphas this; eta := eta this; K := K this;
         optimInterval := optimInterval this; burnIn := burnIn this |}
  | None => this
  end.

(** [prepare(initDocs, minWordCnt, removeTopN)].  [prepareShared], its
    last call, moves the [Zs] and the weights of the documents into
    shared storage and changes no value. *)
Definition prepare (this : LDAModel TW) (initDocs : bool) (minWordCnt removeTopN : Z)
    : LDAModel TW :=
  let this1 := if initDocs then removeStopwords this minWordCnt removeTopN else this in
  let this2 := updateWeakArray this1 in
  let this3 := initGlobalState this2 initDocs in
  if initDocs then
    let this4 := set_vocabWeights this3 (computeVocabWeights this3) in
    let generator := makeGeneratorForInit this4 in
    fold_left (initializeDoc generator) (seq 0 (length (docs this4))) this4
  else updateDocs this3.
End Prepare.

(** ** Further sample inputs *)

Module SampleC.
Import Binary32.

(** A document whose two tokens are both outside a vocabulary of two
    words. *)
Definition oov_only_doc : DocumentLDA TermWeight.one :=
  @Build_DocumentLDA _ TermWeight.one [5; 7]%nat [0; 0]%nat [] [0; 0].

Definition three_workers : ThreadPool :=
  {| getNumWorkers := 3; workerOf := fun ch => (ch mod 3)%nat |}.
End SampleC.

(** * Properties *)

(** ** Construction *)

(** C4, as stated, fails: [create] with [K = 0], a negative [alpha] and a
    negative [eta] returns a model. *)
Lemma create_accepts_invalid_configuration :
  0 < 1
  /\ SFleb (Binary32.lit (-1) 10) (Binary32.of_Z 0) = true
  /\ SFleb (Binary32.lit (-1) 100) (Binary32.of_Z 0) = true
  /\ create (H0 := Binary32.binary32_collaborators) TermWeight.one 0 (Binary32.lit (-1) 10) (Binary32.lit (-1) 100) 42
     = Some (existT TermWeight.one
               (LDAModel_ctor (H0 := Binary32.binary32_collaborators) TermWeight.one 0
                  (Binary32.lit (-1) 10) (Binary32.lit (-1) 100) 42)).
Proof. repeat split. Qed.

(** C4, amended: [create] validates nothing and raises nothing.  For the
    term weights one, idf and pmi it returns the model the constructor
    builds, for every [K], [alpha] and [eta]: [K] converted to [TID],
    [alpha] and [eta] stored as given, [alphas] made of [K] copies of
    [alpha]; for any other value of the enumeration it returns the null
    pointer. *)
Theorem create_returns `{Collaborators} (tw : TermWeight.t) (_K : Z)
    (_alpha _eta : FLOAT) (_rg : RANDGEN) :
  let m := LDAModel_ctor tw _K _alpha _eta _rg in
  create tw _K _alpha _eta _rg
    = match tw with
      | TermWeight.size => None
      | _ => Some (existT tw m)
      end
  /\ K m = Z.to_nat (to_TID _K)
  /\ alpha m = _alpha
  /\ eta m = _eta
  /\ alphas m = replicate (K m) _alpha.
Proof. destruct tw; repeat split. Qed.

(** ** Topics per document *)

(** C1 (defect): [getTopicsByDoc] reads the scalar [alpha] and [K * alpha]
    where the specification, and the sampler and the log-likelihood of the
    same class, use [alphas]; and it takes each count as [size_t], which
    drops the fractional part of a weighted count.  On a model whose
    [alphas] are (0.2, 0.3) and a document with counts (2, 1) the code
    returns 2.1/3.2 and 1.1/3.2 where the formula gives 2.2/3.5 and
    1.3/3.5; on a fresh idf model and a document with counts (0.5, 0) it
    returns 0.1/0.7 for topic 0 where the formula gives 0.6/0.7. *)
Theorem getTopicsByDoc_departs_from_formula :
  getTopicsByDoc Sample.optimised_model Sample.doc3
    = [S754_finite false 11010047 (-24); S754_finite false 11534336 (-25)]
  /\ map (topics_by_doc_spec Sample.optimised_model Sample.doc3) [0; 1]%nat
    = [S754_finite false 10545679 (-24); S754_finite false 12463074 (-25)]
  /\ getTopicsByDoc Sample.fresh_idf_model Sample.half_doc
    = [S754_finite false 9586981 (-26); S754_finite false 9586981 (-26)]
  /\ map (topics_by_doc_spec Sample.fresh_idf_model Sample.half_doc) [0; 1]%nat
    = [S754_finite false 14380472 (-24); S754_finite false 9586981 (-26)]
  /\ getTopicsByDoc Sample.optimised_model Sample.doc3
     <> map (topics_by_doc_spec Sample.optimised_model Sample.doc3)
          (seq 0 (K Sample.optimised_model))
  /\ getTopicsByDoc Sample.fresh_idf_model Sample.half_doc
     <> map (topics_by_doc_spec Sample.fresh_idf_model Sample.half_doc)
          (seq 0 (K Sample.fresh_idf_model)).
Proof. repeat split; vm_compute; (reflexivity || discriminate). Qed.

(** ** Generic facts about loops *)

Lemma fold_left_invariant {A B} (P : A -> Prop) (f : A -> B -> A) (l : list B) (a : A) :
  (forall x b, P x -> P (f x b)) -> P a -> P (fold_left f l a).
Proof.
  intros Hstep. revert a.
  induction l as [|b l IH]; intros a Ha; simpl; [exact Ha|].
  apply IH, Hstep, Ha.
Qed.

(** ** The training round and its schedule *)

Section Schedule.
Context `{Collaborators} {TW : TermWeight.t}.
Implicit Types this : LDAModel TW.

Lemma optimDue_iff this :
  0 <= optimInterval this ->
  0 <= iterated this < 2 ^ 64 - 1 ->
  optimDue this = true
  <-> burnIn this <= iterated this
      /\ 0 < optimInterval this
      /\ (optimInterval this | iterated this + 1).
Proof.
  intros Hoi Hit. unfold optimDue, wrap_size_t.
  rewrite (Z.mod_small (iterated this + 1)) by lia.
  rewrite !andb_true_iff, negb_true_iff, Z.leb_le, !Z.eqb_eq, Z.eqb_neq.
  split.
  - intros [[Hb Hne] Hmod]. repeat split; [lia | lia |].
    apply Z.mod_divide; [lia | exact Hmod].
  - intros (Hb & Hpos & Hdiv). repeat split; [lia | lia |].
    apply Z.mod_divide; [lia | exact Hdiv].
Qed.

Lemma optimDue_disabled this : optimInterval this = 0 -> optimDue this = false.
Proof.
  intros Hz. unfold optimDue. rewrite Hz. simpl.
  now rewrite andb_false_r.
Qed.

Lemma trainOne_unfold this pool localData rgs :
  let st := sampleRound this pool (docs this, localData, rgs) in
  let mg := mergeState pool (globalState this) (tState this) (snd (fst st)) in
  let merged := set_round this (fst (fst st)) (fst (fst mg)) (snd (fst mg)) in
  trainOne this pool localData rgs
  = (if optimDue this then optimizeParameters merged else merged, snd mg, snd st).
Proof.
  unfold trainOne.
  destruct (sampleRound this pool (docs this, localData, rgs)) as [[ds l1] r1].
  simpl.
  destruct (mergeState pool (globalState this) (tState this) l1) as [[g t] l2].
  reflexivity.
Qed.

Lemma trainOne_disabled this pool localData rgs :
  optimInterval this = 0 ->
  alphas (fst (fst (trainOne this pool localData rgs))) = alphas this
  /\ optimInterval (fst (fst (trainOne this pool localData rgs))) = 0.
Proof.
  intros Hz. rewrite trainOne_unfold. cbv zeta.
  rewrite (optimDue_disabled _ Hz). simpl. auto.
Qed.

Lemma train_rounds_disabled rounds pool this localData rgs :
  optimInterval this = 0 ->
  alphas (fst (fst (train_rounds rounds pool (this, localData, rgs)))) = alphas this.
Proof.
  revert this localData rgs.
  induction rounds as [|n IH]; intros this localData rgs Hz; [reflexivity|].
  simpl.
  destruct (trainOne_disabled this pool localData rgs Hz) as [Ha Ho].
  destruct (trainOne this pool localData rgs) as [[this' l'] r'].
  simpl in Ha, Ho. rewrite IH; [exact Ha | exact Ho].
Qed.

(** C3.  In a round that starts with [r = iterated] completed rounds, the
    guard of the optimizer holds exactly when [r >= burnIn],
    [optimInterval > 0] and [optimInterval] divides [r + 1]; the round
    is the sampling, then the merge, then [optimizeParameters] under
    that guard and nothing otherwise; and with [optimInterval = 0] any
    number of training rounds leaves [alphas] as they were. *)
Theorem trainOne_optimizes_on_schedule this pool localData rgs rounds :
  0 <= optimInterval this ->
  0 <= iterated this < 2 ^ 64 - 1 ->
  (optimDue this = true
   <-> burnIn this <= iterated this
       /\ 0 < optimInterval this
       /\ (optimInterval this | iterated this + 1))
  /\ (let st := sampleRound this pool (docs this, localData, rgs) in
      let mg := mergeState pool (globalState this) (tState this) (snd (fst st)) in
      let merged := set_round this (fst (fst st)) (fst (fst mg)) (snd (fst mg)) in
      alphas merged = alphas this
      /\ trainOne this pool localData rgs
         = (if optimDue this then optimizeParameters merged else merged,
            snd mg, snd st))
  /\ (optimInterval this = 0 -> alphas (train this rounds pool) = alphas this).
Proof.
  intros Hoi Hit. split; [apply optimDue_iff; assumption|]. split.
  - split; [reflexivity | apply trainOne_unfold].
  - intros Hz. unfold train.
    destruct (make_rgs (getNumWorkers pool) (rg this)) as [rgs0 r0].
    apply train_rounds_disabled, Hz.
Qed.
End Schedule.

(** ** Inference leaves the model alone *)

Section Inference.
Context `{Collaborators} {TW : TermWeight.t}.
Implicit Types s : InferState TW.

Lemma inferInit_self g s j : self (inferInit g s j) = self s.
Proof.
  unfold inferInit. destruct (heldOut s !! j) as [d|]; [|reflexivity].
  destruct (initializeDocState (self s) d g (tmpState s) (rgc s)) as [[d' tmp'] rgc'].
  reflexivity.
Qed.

Lemma inferRound_self pool s : self (inferRound pool s) = self s.
Proof.
  unfold inferRound.
  destruct (sampleRound (self s) pool (heldOut s, localDataL s, rgsL s))
    as [[ds l1] r1].
  destruct (mergeState pool (tmpState s) (tStateL s) l1) as [[g t] l2].
  reflexivity.
Qed.

Lemma inferOne_self maxIter gll g s j : self (inferOne maxIter gll g s j) = self s.
Proof.
  unfold inferOne. destruct (heldOut s !! j) as [d|]; [|reflexivity].
  destruct (initializeDocState (self s) d g (globalState (self s)) default_RANDGEN)
    as [[d1 tmp1] rgc1].
  destruct (fold_left _ (seq 0 maxIter) (d1, tmp1, rgc1)) as [[d2 tmp2] rgc2].
  reflexivity.
Qed.

Lemma inferTogether_self pool maxIter s : self (inferTogether pool maxIter s) = self s.
Proof.
  unfold inferTogether. cbv zeta.
  match goal with |- context [make_rgs ?n ?r] => destruct (make_rgs n r) as [rgs rgc'] end.
  simpl.
  apply (fold_left_invariant (fun x => self x = self s)).
  { intros x b Hx. now rewrite inferRound_self. }
  simpl.
  apply (fold_left_invariant (fun x => self x = self s)); [|reflexivity].
  intros x b Hx. now rewrite inferInit_self.
Qed.

Lemma inferSeparately_self maxIter s : self (inferSeparately maxIter s) = self s.
Proof.
  unfold inferSeparately.
  apply (fold_left_invariant (fun x => self x = self s)); [|reflexivity].
  intros x b Hx. now rewrite inferOne_self.
Qed.

(** C8.  Whatever the mode, the number of iterations, the pool and the
    documents, the model after [_infer] is the model before it: every
    write of the initialisation, of the sampling and of the merge lands
    in [tmpState], [tState], [localData], the generators or the held-out
    documents. *)
Theorem infer_preserves_model (_Together : bool) (this : LDAModel TW)
    (ds : list (DocumentLDA TW)) (maxIter : nat) (pool : ThreadPool) :
  fst (fst (_infer _Together this ds maxIter pool)) = this
  /\ globalState (fst (fst (_infer _Together this ds maxIter pool)))
     = globalState this.
Proof.
  assert (E : fst (fst (_infer _Together this ds maxIter pool)) = this).
  { unfold _infer. simpl.
    destruct _Together;
      [rewrite inferTogether_self | rewrite inferSeparately_self]; reflexivity. }
  split; [exact E | now rewrite E].
Qed.
End Inference.

(** ** Vectors as lists *)

Section ListFacts.
Context {A B C : Type}.

Lemma nth_zip_with (f : A -> B -> C) (a : list A) (b : list B) (k : nat) da db dc :
  (k < length a)%nat -> (k < length b)%nat ->
  nth k (zip_with f a b) dc = f (nth k a da) (nth k b db).
Proof.
  revert b k. induction a as [|x a IH]; intros [|y b] [|k]; simpl; intros Ha Hb;
    try lia; [reflexivity|].
  apply IH; lia.
Qed.

Lemma nth_map_lt (f : A -> B) (l : list A) (k : nat) da db :
  (k < length l)%nat -> nth k (map f l) db = f (nth k l da).
Proof.
  revert k. induction l as [|x l IH]; intros [|k]; simpl; intros Hk; try lia;
    [reflexivity|].
  apply IH; lia.
Qed.

Lemma length_zip_with_eq (f : A -> B -> C) (a : list A) (b : list B) (n : nat) :
  length a = n -> length b = n -> length (zip_with f a b) = n.
Proof. intros Ha Hb. rewrite length_zip_with. lia. Qed.

(** A loop over the indices of a segment of an array is a fold over the
    segment. *)
Lemma fold_left_lookup_seq (f : B -> A -> B) (pre l : list A) (b : B) :
  fold_left (fun acc i => match (pre ++ l) !! i with
                          | Some x => f acc x
                          | None => acc
                          end)
    (seq (length pre) (length l)) b
  = fold_left f l b.
Proof.
  revert pre b. induction l as [|x l IH]; intros pre b; [reflexivity|].
  simpl. rewrite list_lookup_middle by reflexivity.
  specialize (IH (pre ++ [x]) (f b x)).
  rewrite length_app, <- app_assoc in IH. simpl in IH.
  rewrite Nat.add_1_r in IH. exact IH.
Qed.

(** The same for any use made of the cell read. *)
Lemma fold_left_seq_lookup (F : B -> option A -> B) (pre l : list A) (b : B) :
  fold_left (fun acc i => F acc ((pre ++ l) !! i)) (seq (length pre) (length l)) b
  = fold_left (fun acc x => F acc (Some x)) l b.
Proof.
  revert pre b. induction l as [|x l IH]; intros pre b; [reflexivity|].
  simpl. rewrite list_lookup_middle by reflexivity.
  specialize (IH (pre ++ [x]) (F b (Some x))).
  rewrite length_app, <- app_assoc in IH. simpl in IH.
  rewrite Nat.add_1_r in IH. exact IH.
Qed.

(** Writing [g] into the first [n] cells. *)
Lemma fold_left_insert_seq (g : A) (n : nat) (l : list A) :
  (n <= length l)%nat ->
  fold_left (fun l i => <[i := g]> l) (seq 0 n) l = replicate n g ++ drop n l.
Proof.
  induction n as [|n IH]; intros Hn; [reflexivity|].
  rewrite seq_S, fold_left_app, IH by lia. cbn [fold_left Nat.add].
  destruct (lookup_lt_is_Some_2 l n) as [x Hx]; [lia|].
  rewrite insert_app_r_alt by (rewrite length_replicate; lia).
  rewrite length_replicate, Nat.sub_diag, (drop_S _ _ _ Hx).
  rewrite replicate_S_end, <- app_assoc. reflexivity.
Qed.

(** A loop that rewrites cell [k] from its own content, for [k] from 0
    up, rewrites every cell from the content of before the loop. *)
Lemma fold_left_update_imap (upd : nat -> A -> A) (d : A) (n : nat) (l : list A) :
  (n <= length l)%nat ->
  fold_left (fun l k => <[k := upd k (nth k l d)]> l) (seq 0 n) l
  = imap upd (take n l) ++ drop n l.
Proof.
  induction n as [|n IH]; intros Hn; [reflexivity|].
  rewrite seq_S, fold_left_app, IH by lia. cbn [fold_left Nat.add].
  destruct (lookup_lt_is_Some_2 l n) as [x Hx]; [lia|].
  assert (Hlen : length (imap upd (take n l)) = n)
    by (rewrite length_imap, length_take; lia).
  rewrite (drop_S _ _ _ Hx), (take_S_r _ _ _ Hx), imap_app.
  rewrite app_nth2 by lia. rewrite Hlen, Nat.sub_diag.
  rewrite insert_app_r_alt by lia. rewrite Hlen, Nat.sub_diag.
  rewrite length_take, Nat.min_l by lia. simpl.
  rewrite Nat.add_0_r, <- app_assoc. reflexivity.
Qed.
End ListFacts.

(** ** The merge of the replicas *)

Section Merge.
Context `{FloatOps} {TW : TermWeight.t}.
Implicit Types g t li : ModelStateLDA TW.

Lemma shape_row n v g k :
  shape n v g -> (k < n)%nat -> length (nth k (numByTopicWord g) []) = v.
Proof.
  intros (_ & Hr & Hall) Hk.
  rewrite List.Forall_forall in Hall. apply Hall, nth_In. lia.
Qed.

Lemma shape_addDelta n v t li g :
  shape n v t -> shape n v li -> shape n v g -> shape n v (addDelta t li g).
Proof.
  intros (Ht & Htr & Hta) (Hl & Hlr & Hla) (Hg & Hgr & Hga).
  unfold shape, addDelta, vec_add, vec_sub, mat_add, mat_sub. simpl.
  repeat split.
  - apply length_zip_with_eq; [assumption|]. now apply length_zip_with_eq.
  - apply length_zip_with_eq; [assumption|]. now apply length_zip_with_eq.
  - rewrite Forall_lookup in *. intros i row Hi.
    apply lookup_zip_with_Some in Hi as (a & b & -> & Ha & Hb).
    apply lookup_zip_with_Some in Hb as (c & d & -> & Hc & Hd).
    apply length_zip_with_eq; [eauto|]. apply length_zip_with_eq; eauto.
Qed.

Lemma numByTopic_addDelta n v t li g k :
  shape n v t -> shape n v li -> shape n v g -> (k < n)%nat ->
  nth k (numByTopic (addDelta t li g)) (wzero TW)
  = wadd TW (nth k (numByTopic g) (wzero TW))
      (wsub TW (nth k (numByTopic li) (wzero TW)) (nth k (numByTopic t) (wzero TW))).
Proof.
  intros (Ht & _) (Hl & _) (Hg & _) Hk. unfold addDelta, vec_add, vec_sub. simpl.
  rewrite (nth_zip_with _ _ _ _ (wzero TW) (wzero TW)).
  - f_equal. apply nth_zip_with; lia.
  - lia.
  - rewrite (length_zip_with_eq _ _ _ n); lia.
Qed.

Lemma entry_addDelta n v t li g k j :
  shape n v t -> shape n v li -> shape n v g -> (k < n)%nat -> (j < v)%nat ->
  entry (addDelta t li g) k j
  = wadd TW (entry g k j) (wsub TW (entry li k j) (entry t k j)).
Proof.
  intros St Sl Sg Hk Hj.
  pose proof (shape_row _ _ _ _ St Hk) as Rt.
  pose proof (shape_row _ _ _ _ Sl Hk) as Rl.
  pose proof (shape_row _ _ _ _ Sg Hk) as Rg.
  destruct St as (_ & Ht & _), Sl as (_ & Hl & _), Sg as (_ & Hg & _).
  unfold entry, addDelta, mat_add, mat_sub. simpl.
  rewrite (nth_zip_with _ _ _ _ [] []);
    [| lia | rewrite (length_zip_with_eq _ _ _ n); lia].
  rewrite (nth_zip_with _ _ _ _ [] []) by lia.
  unfold vec_add, vec_sub.
  rewrite (nth_zip_with _ _ _ _ (wzero TW) (wzero TW));
    [| lia | rewrite (length_zip_with_eq _ _ _ v); lia].
  f_equal. apply nth_zip_with; lia.
Qed.

Lemma fold_addDelta n v t ls g :
  shape n v t -> Forall (shape n v) ls -> shape n v g ->
  let g' := fold_left (fun g li => addDelta t li g) ls g in
  shape n v g'
  /\ (forall k, (k < n)%nat ->
        nth k (numByTopic g') (wzero TW)
        = merged_entry (nth k (numByTopic t) (wzero TW))
            (nth k (numByTopic g) (wzero TW))
            (map (fun li => nth k (numByTopic li) (wzero TW)) ls))
  /\ (forall k j, (k < n)%nat -> (j < v)%nat ->
        entry g' k j
        = merged_entry (entry t k j) (entry g k j)
            (map (fun li => entry li k j) ls)).
Proof.
  intros St Hls. revert g.
  induction Hls as [|li ls Sl Hls IH]; intros g Sg; cbn [fold_left map].
  - split; [exact Sg | split; intros; reflexivity].
  - destruct (IH (addDelta t li g) (shape_addDelta _ _ _ _ _ St Sl Sg))
      as (S' & Hv & Hm).
    split; [exact S'|]. split.
    + intros k Hk. rewrite (Hv k Hk). unfold merged_entry. cbn [fold_left map].
      now rewrite (numByTopic_addDelta n v).
    + intros k j Hk Hj. rewrite (Hm k j Hk Hj). unfold merged_entry.
      cbn [fold_left map]. now rewrite (entry_addDelta n v).
Qed.


Lemma mergeState_unfold pool g t l0 ls :
  getNumWorkers pool = S (length ls) ->
  mergeState pool g t (l0 :: ls)
  = (clampState (fold_left (fun acc li => addDelta g li acc) ls l0), g,
     replicate (S (length ls))
       (clampState (fold_left (fun acc li => addDelta g li acc) ls l0))).
Proof.
  intros HW. unfold mergeState. rewrite HW.
  cbn [lookup list_lookup default]. rewrite Nat.sub_succ, Nat.sub_0_r.
  pose proof (fold_left_lookup_seq (fun acc li => addDelta g li acc) [l0] ls l0) as E.
  cbn [length app] in E. unfold mergeLocal. change (id l0) with l0. rewrite E.
  rewrite (fold_left_insert_seq _ (S (length ls)) (l0 :: ls)) by (simpl; lia).
  rewrite drop_ge by (simpl; lia). now rewrite app_nil_r.
Qed.

End Merge.

(** ** Out-of-vocabulary positions *)

Lemma nth_insert_ne {A} (l : list A) (i w : nat) (x d : A) :
  i <> w -> nth i (<[w := x]> l) d = nth i l d.
Proof. intros Hne. now rewrite !nth_lookup, list_lookup_insert_ne by auto. Qed.

(** A loop whose turns are guarded by a test on the index runs its body on
    the indices that pass the test, as long as the body keeps whatever the
    guard reads ([I]). *)
Lemma fold_left_skip {S} (I : S -> Prop) (c : nat -> bool) (step body : S -> nat -> S)
    (l : list nat) (st : S) :
  (forall s i, I s -> step s i = if c i then s else body s i) ->
  (forall s i, I s -> I (body s i)) ->
  I st ->
  fold_left step l st = fold_left body (List.filter (fun i => negb (c i)) l) st
  /\ I (fold_left step l st).
Proof.
  intros Hstep Hbody. revert st.
  induction l as [|i l IH]; intros st Hst; simpl; [auto|].
  rewrite (Hstep st i Hst). destruct (c i); simpl; [apply IH, Hst|].
  apply IH, Hbody, Hst.
Qed.

Section Tokens.
Context `{Collaborators} {TW : TermWeight.t}.
Implicit Types (this : LDAModel TW) (doc : DocumentLDA TW) (ld : ModelStateLDA TW).

Local Abbreviation doc_of st := (fst (fst st)).

Lemma resampleToken_frame this w doc ld rgs :
  let st' := resampleToken this w (doc, ld, rgs) in
  words (doc_of st') = words doc
  /\ wordWeights (doc_of st') = wordWeights doc
  /\ length (Zs (doc_of st')) = length (Zs doc)
  /\ forall i, i <> w -> nth i (Zs (doc_of st')) 0%nat = nth i (Zs doc) 0%nat.
Proof.
  unfold resampleToken, addWordTo. cbn zeta.
  destruct (sampleFromDiscreteAcc _ rgs) as [z r]. simpl.
  repeat split; [apply length_insert|].
  intros i Hi. now apply nth_insert_ne.
Qed.

Lemma initInVocab_frame this g tf w doc ld rgs :
  let st' := initInVocab this g tf w (doc, ld, rgs) in
  words (doc_of st') = words doc
  /\ length (wordWeights (doc_of st')) = length (wordWeights doc)
  /\ (forall i, i <> w -> nth i (Zs (doc_of st')) 0%nat = nth i (Zs doc) 0%nat)
  /\ (forall i, i <> w ->
        nth i (wordWeights (doc_of st')) fzero = nth i (wordWeights doc) fzero).
Proof.
  unfold initInVocab, updateStateWithDoc, addWordTo, assignWeight. cbn zeta.
  destruct (uniform_int _ _ rgs) as [z r].
  destruct (TermWeight.is_idf TW), (TermWeight.is_pmi TW); simpl;
    repeat split; rewrite ?length_insert; auto;
    intros i Hi; now apply nth_insert_ne.
Qed.

Lemma sampleDocument_skips this doc ld rgs :
  sampleDocument this doc ld rgs
  = fold_left (fun st w => resampleToken this w st)
      (in_vocab_positions this doc) (doc, ld, rgs).
Proof.
  unfold sampleDocument, in_vocab_positions.
  refine (proj1 (fold_left_skip (fun st => words (doc_of st) = words doc)
                   (fun i => (realV this <=? nth i (words doc) 0%nat)%nat)
                   _ _ _ _ _ _ _)).
  - intros s i Hs. unfold sampleToken. now rewrite Hs.
  - intros [[d l] r] i Hs. simpl in Hs.
    destruct (resampleToken_frame this i d l r) as (Hw & _). now rewrite Hw.
  - reflexivity.
Qed.

Lemma sampleDocument_frame this doc ld rgs i :
  (realV this <= nth i (words doc) 0%nat)%nat ->
  let doc' := doc_of (sampleDocument this doc ld rgs) in
  words doc' = words doc
  /\ wordWeights doc' = wordWeights doc
  /\ nth i (Zs doc') 0%nat = nth i (Zs doc) 0%nat.
Proof.
  intros Hi. unfold sampleDocument.
  apply (fold_left_invariant
           (fun st => words (doc_of st) = words doc
                      /\ wordWeights (doc_of st) = wordWeights doc
                      /\ nth i (Zs (doc_of st)) 0%nat = nth i (Zs doc) 0%nat));
    [|auto].
  intros [[d l] r] w (Hw & Hww & Hz). unfold sampleToken. cbn [fst] in *.
  destruct (realV this <=? nth w (words d) 0%nat)%nat eqn:E; [auto|].
  destruct (resampleToken_frame this w d l r) as (Hw' & Hww' & _ & Hz').
  rewrite Hw', Hww', Hz'; [auto|].
  intros ->. rewrite Hw in E. apply Nat.leb_gt in E. lia.
Qed.



Lemma initializeDocState_words this doc g ld rgs :
  words (doc_of (initializeDocState this doc g ld rgs)) = words doc.
Proof.
  unfold initializeDocState. cbn zeta.
  apply (fold_left_invariant (fun st => words (doc_of st) = words doc)); [|reflexivity].
  intros [[d l] r] w Hw. unfold initToken. cbn [fst] in *.
  destruct (realV this <=? nth w (words d) 0%nat)%nat; [exact Hw|].
  destruct (initInVocab_frame this g
              (countTf this (prepareDoc this doc (length (words doc)))) w d l r)
    as (Hw' & _).
  now rewrite Hw'.
Qed.

Lemma in_vocab_positions_none this doc :
  Forall (fun w => (realV this <= w)%nat) (words doc) ->
  in_vocab_positions this doc = [].
Proof.
  intros Hall. unfold in_vocab_positions.
  assert (E : forall l, List.Forall (fun i => (i < length (words doc))%nat) l ->
              List.filter (fun i => negb (realV this <=? nth i (words doc) 0%nat)%nat) l
              = []).
  { induction 1 as [|i l Hi Hl IH]; [reflexivity|]. simpl.
    rewrite List.Forall_forall in Hall.
    assert (Hle : (realV this <= nth i (words doc) 0%nat)%nat)
      by (apply Hall, nth_In, Hi).
    apply Nat.leb_le in Hle. rewrite Hle. exact IH. }
  apply E, List.Forall_forall. intros i Hi. apply in_seq in Hi. lia.
Qed.

Lemma getTopicsCount_skips this :
  _getTopicsCount this
  = fold_left
      (fun cnt doc =>
         fold_left
           (fun cnt i => alter (fun c => wrap_size_t (c + 1)) (nth i (Zs doc) 0%nat) cnt)
           (List.filter (fun i => negb (realV this <=? nth i (words doc) 0%nat)%nat)
              (seq 0 (length (Zs doc))))
           cnt)
      (docs this) (replicate (K this) 0).
Proof.
  unfold _getTopicsCount. generalize (replicate (K this) 0).
  induction (docs this) as [|doc ds IH]; intros cnt; [reflexivity|].
  simpl. rewrite <- IH. f_equal.
  refine (proj1 (fold_left_skip (fun _ => True)
                   (fun i => (realV this <=? nth i (words doc) 0%nat)%nat)
                   _ _ _ _ _ _ _)); auto.
  intros s i _. unfold countToken.
  rewrite Nat.ltb_antisym. now destruct (realV this <=? _)%nat.
Qed.


End Tokens.

(** C7 (defect).  [initializeDocState], [sampleDocument] and
    [_getTopicsCount] pass over a token whose id is not below V (the three
    lemmas [initializeDocState_skips], [sampleDocument_skips] and
    [getTopicsCount_skips] above), but [DocumentLDA::update], which
    rebuilds the topic counts of every document when [prepare] is called
    with [initDocs = false], has no such test.  With V = 2 and the words
    (0, 5), initialisation leaves [Zs = (1, 0)] and the counts (0, 1);
    [update] turns the counts into (1, 1): the token 5 is counted on
    topic 0. *)
Theorem update_counts_out_of_vocab :
  realV SampleV.small_model = 2%nat
  /\ words SampleV.oov_doc_initialised = [0; 5]%nat
  /\ Zs SampleV.oov_doc_initialised = [1; 0]%nat
  /\ doc_numByTopic SampleV.oov_doc_initialised = [0; 1]
  /\ doc_numByTopic (update SampleV.oov_doc_initialised 2) = [1; 1]
  /\ map doc_numByTopic
       (docs (updateDocs
                (set_round SampleV.small_model [SampleV.oov_doc_initialised]
                   (globalState SampleV.small_model) (tState SampleV.small_model))))
     = [[1; 1]].
Proof. repeat split. Qed.

(** ** The proposal of the sampler *)

Section Proposal.
Context `{Collaborators} {TW : TermWeight.t}.
Implicit Types (this : LDAModel TW) (doc : DocumentLDA TW) (ld : ModelStateLDA TW).

Lemma nth_prefixSum_from (l : list FLOAT) (acc d : FLOAT) (k : nat) :
  (k < length l)%nat ->
  nth k (prefixSum_from acc l) d = fold_left fadd (take (S k) l) acc.
Proof.
  revert acc k. induction l as [|x l IH]; intros acc [|k] Hk; simpl in *; try lia.
  - reflexivity.
  - apply IH. lia.
Qed.

Lemma length_prefixSum_from (l : list FLOAT) (acc : FLOAT) :
  length (prefixSum_from acc l) = length l.
Proof. revert acc. induction l as [|x l IH]; intros acc; simpl; auto. Qed.

Lemma prefixSum_whole (p : list FLOAT) :
  prefixSum p (length p)
  = match p with [] => [] | x :: l => x :: prefixSum_from x l end.
Proof.
  unfold prefixSum. rewrite firstn_all, drop_all.
  destruct p; [reflexivity | now rewrite app_nil_r].
Qed.

Lemma nth_prefixSum (p : list FLOAT) (k : nat) :
  (k < length p)%nat ->
  nth k (prefixSum p (length p)) fzero = partial_sum p k.
Proof.
  intros Hk. rewrite prefixSum_whole. unfold partial_sum.
  destruct p as [|x l]; simpl in *; [lia|].
  destruct k as [|k]; [reflexivity|].
  apply nth_prefixSum_from. lia.
Qed.

Lemma length_prefixSum (p : list FLOAT) :
  length (prefixSum p (length p)) = length p.
Proof.
  rewrite prefixSum_whole. destruct p; simpl; [reflexivity|].
  now rewrite length_prefixSum_from.
Qed.

Lemma first_ge_spec (u : FLOAT) (p : list FLOAT) :
  (forall k, (k < first_ge u p)%nat -> fgeb (nth k p fzero) u = false)
  /\ ((first_ge u p < length p)%nat -> fgeb (nth (first_ge u p) p fzero) u = true)
  /\ (first_ge u p <= length p)%nat.
Proof.
  induction p as [|x p (IH1 & IH2 & IH3)]; simpl.
  - repeat split; intros; lia.
  - destruct (fgeb x u) eqn:E; repeat split; intros; try lia; auto.
    + destruct k; [exact E | apply IH1; lia].
    + apply IH2. lia.
Qed.

Lemma last_nth {A} (l : list A) (d : A) : List.last l d = nth (length l - 1) l d.
Proof.
  induction l as [|x [|y l] IH]; [reflexivity | reflexivity |].
  change (List.last (x :: y :: l) d) with (List.last (y :: l) d).
  rewrite IH. simpl. now rewrite Nat.sub_0_r.
Qed.

Lemma nth_col (m : list (list (WeightType TW))) (vid k : nat) :
  (k < length m)%nat ->
  nth k (col m vid) (wzero TW) = nth vid (nth k m []) (wzero TW).
Proof.
  intros Hk. unfold col.
  exact (nth_map_lt (fun row => nth vid row (wzero TW)) m k [] (wzero TW) Hk).
Qed.

Lemma zLikelihood_expr_spec this ld doc vid (n : nat) :
  length (doc_numByTopic doc) = n -> length (alphas this) = n ->
  length (numByTopic ld) = n -> length (numByTopicWord ld) = n ->
  length (zLikelihood_expr this ld doc vid) = n
  /\ forall k, (k < n)%nat ->
       nth k (zLikelihood_expr this ld doc vid) fzero = proposal_spec this ld doc vid k.
Proof.
  intros Hd Ha Hn Hm. unfold zLikelihood_expr, col.
  assert (L1 : length (zip_with (fun n0 a => fadd (cast_FLOAT TW n0) a)
                         (doc_numByTopic doc) (alphas this)) = n)
    by now apply length_zip_with_eq.
  assert (L2 : length (map (fun n0 => fadd (cast_FLOAT TW n0) (eta this))
                         (map (fun row => nth vid row (wzero TW)) (numByTopicWord ld)))
               = n)
    by now rewrite !length_map.
  assert (L3 : length (map (fun n0 => fadd (cast_FLOAT TW n0)
                                        (fmul (f_of_Z (Z.of_nat (realV this))) (eta this)))
                         (numByTopic ld)) = n)
    by now rewrite length_map.
  split.
  - apply length_zip_with_eq; [|exact L3]. now apply length_zip_with_eq.
  - intros k Hk. unfold proposal_spec, entry.
    rewrite (nth_zip_with _ _ _ _ fzero fzero);
      [| rewrite (length_zip_with_eq _ _ _ n); lia | lia].
    rewrite (nth_zip_with _ _ _ _ fzero fzero) by lia.
    rewrite (nth_zip_with _ _ _ _ (wzero TW) fzero) by lia.
    rewrite (nth_map_lt _ _ _ (wzero TW)) by (rewrite length_map; lia).
    rewrite (nth_map_lt _ _ _ []) by lia.
    rewrite (nth_map_lt _ _ _ (wzero TW)) by lia.
    reflexivity.
Qed.

Lemma nth_prefixSum_n (p : list FLOAT) (n k : nat) :
  length p = n -> (k < n)%nat -> nth k (prefixSum p n) fzero = partial_sum p k.
Proof. intros <- Hk. now apply nth_prefixSum. Qed.

Lemma take_prefixSum_n (p : list FLOAT) (n : nat) :
  length p = n -> take n (prefixSum p n) = prefixSum p n.
Proof. intros <-. apply take_ge. now rewrite length_prefixSum. Qed.

Lemma last_prefixSum_n (p : list FLOAT) (n : nat) :
  length p = n -> List.last (prefixSum p n) fzero = partial_sum p (n - 1).
Proof.
  intros Hn. rewrite last_nth. subst n. rewrite length_prefixSum.
  destruct p as [|x l]; [reflexivity|].
  apply nth_prefixSum. simpl. lia.
Qed.

Lemma addWordTo_lengths INC ld doc pid vid tid :
  length (doc_numByTopic (snd (addWordTo INC ld doc pid vid tid)))
  = length (doc_numByTopic doc)
  /\ length (numByTopic (fst (addWordTo INC ld doc pid vid tid)))
     = length (numByTopic ld)
  /\ length (numByTopicWord (fst (addWordTo INC ld doc pid vid tid)))
     = length (numByTopicWord ld).
Proof. unfold addWordTo. simpl. now rewrite !length_alter. Qed.

(** C5.  At a position [w] whose word [vid] is in the vocabulary, and
    with the state [dec] reached by the decrement of the current
    assignment: the vector assigned to [zLikelihood] is, topic by topic,
    the specification's formula evaluated in [FLOAT], with no
    normalisation; it is replaced by its prefix sums; the draw is made
    below the last prefix sum; and the new [Zs[w]] is the smallest [k]
    whose prefix sum is [>=] the draw. *)
Theorem sampleToken_draws_from_proposal this doc ld rgs w :
  let vid := nth w (words doc) 0%nat in
  (vid < realV this)%nat ->
  (w < length (Zs doc))%nat ->
  length (doc_numByTopic doc) = K this ->
  length (alphas this) = K this ->
  length (numByTopic ld) = K this ->
  length (numByTopicWord ld) = K this ->
  let dec := addWordTo (-1) ld doc w vid (nth w (Zs doc) 0%nat) in
  let p := map (proposal_spec this (fst dec) (snd dec) vid) (seq 0 (K this)) in
  let draw := uniform_real (partial_sum p (K this - 1)) rgs in
  let st' := sampleToken this w (doc, ld, rgs) in
  let z := nth w (Zs (fst (fst st'))) 0%nat in
  zLikelihood_expr this (fst dec) (snd dec) vid = p
  /\ (forall k, (k < K this)%nat ->
        nth k (zLikelihood (snd (fst st'))) fzero = partial_sum p k)
  /\ snd st' = snd draw
  /\ (forall k, (k < z)%nat -> (k < K this)%nat ->
        fgeb (partial_sum p k) (fst draw) = false)
  /\ ((z < K this)%nat -> fgeb (partial_sum p z) (fst draw) = true)
  /\ (z <= K this)%nat.
Proof.
  intros vid Hvid Hw Hd Ha Hn Hm dec p draw st' z.
  destruct (addWordTo_lengths (-1) ld doc w vid (nth w (Zs doc) 0%nat))
    as (Ld & Ln & Lm).
  fold dec in Ld, Ln, Lm.
  destruct (zLikelihood_expr_spec this (fst dec) (snd dec) vid (K this))
    as (Le & He); try congruence.
  assert (Lp : length p = K this) by (subst p; now rewrite length_map, length_seq).
  assert (Ep : zLikelihood_expr this (fst dec) (snd dec) vid = p).
  { apply (nth_ext _ _ fzero fzero); [congruence|].
    intros k Hk. rewrite Le in Hk. rewrite (He k Hk). subst p.
    rewrite (nth_map_lt _ _ _ 0%nat) by (rewrite length_seq; lia).
    now rewrite seq_nth by lia. }
  assert (Est : st' = (let '(u, r) := draw in
                       let zz := first_ge u (prefixSum p (K this)) in
                       (snd (addWordTo 1
                               (set_zLikelihood (fst dec) (prefixSum p (K this)))
                               (set_Zs (snd dec) (<[w := zz]> (Zs (snd dec))))
                               w vid zz),
                        fst (addWordTo 1
                               (set_zLikelihood (fst dec) (prefixSum p (K this)))
                               (set_Zs (snd dec) (<[w := zz]> (Zs (snd dec))))
                               w vid zz),
                        r))).
  { subst st'. unfold sampleToken. cbn [fst].
    fold vid. apply Nat.leb_gt in Hvid. rewrite Hvid.
    unfold resampleToken. fold vid. fold dec.
    destruct dec as [ld1 doc1] eqn:Edec. cbn [fst snd] in *.
    unfold getZLikelihoods. rewrite Ep. cbn [zLikelihood set_zLikelihood].
    rewrite (take_prefixSum_n _ _ Lp). unfold sampleFromDiscreteAcc.
    rewrite (last_prefixSum_n _ _ Lp). fold draw.
    destruct draw as [u r]. reflexivity. }
  assert (Ez : z = first_ge (fst draw) (prefixSum p (K this))).
  { subst z. rewrite Est. destruct draw as [u r]. cbn [fst snd].
    unfold addWordTo. cbn [fst snd Zs set_Zs].
    rewrite nth_lookup, list_lookup_insert_eq; [reflexivity|].
    subst dec. unfold addWordTo. cbn [snd Zs]. exact Hw. }
  destruct (first_ge_spec (fst draw) (prefixSum p (K this))) as (F1 & F2 & F3).
  assert (Lc : length (prefixSum p (K this)) = K this)
    by (rewrite <- Lp at 1; now rewrite length_prefixSum).
  rewrite <- Ez, Lc in *.
  split; [exact Ep|]. split; [|split; [|split; [|split]]].
  - intros k Hk. rewrite Est. destruct draw as [u r]. unfold addWordTo.
    cbn [fst snd zLikelihood set_zLikelihood].
    now apply nth_prefixSum_n.
  - rewrite Est. now destruct draw as [u r].
  - intros k Hkz Hk. rewrite <- (nth_prefixSum_n p (K this) k Lp Hk). now apply F1.
  - intros Hz. rewrite <- (nth_prefixSum_n p (K this) z Lp Hz). now apply F2.
  - exact F3.
Qed.
End Proposal.

(** ** Hyperparameter optimisation *)

Section Optimizer.
Context `{Collaborators} {TW : TermWeight.t}.
Implicit Types this : LDAModel TW.

Lemma calcDigammaSum_docs this (h : DocumentLDA TW -> FLOAT) (a : FLOAT) :
  calcDigammaSum
    (fun i => match docs this !! i with Some doc => h doc | None => fzero end)
    (length (docs this)) a
  = fold_left (fun acc doc => fadd acc (fsub (digammaT (fadd (h doc) a)) (digammaT a)))
      (docs this) (f_of_Z 0).
Proof.
  unfold calcDigammaSum.
  exact (fold_left_seq_lookup
           (fun acc o =>
              fadd acc
                (fsub (digammaT (fadd (match o with
                                       | Some doc => h doc
                                       | None => fzero
                                       end) a))
                      (digammaT a)))
           [] (docs this) (f_of_Z 0)).
Qed.

Lemma calcDigammaSum_denom this (s : FLOAT) :
  calcDigammaSum (docSumWordWeight this) (length (docs this)) s = denom_spec this s.
Proof.
  exact (calcDigammaSum_docs this
           (fun doc => cast_FLOAT TW (getSumWordWeight doc)) s).
Qed.

Lemma calcDigammaSum_nom this (k : nat) (a : FLOAT) :
  calcDigammaSum (docNumByTopic this k) (length (docs this)) a = nom_spec this k a.
Proof.
  exact (calcDigammaSum_docs this
           (fun doc => cast_FLOAT TW (nth k (doc_numByTopic doc) (wzero TW))) a).
Qed.

Lemma set_alphas_same this : set_alphas this (alphas this) = this.
Proof. now destruct this. Qed.

Lemma optimizeTopic_fold (denom : FLOAT) this (ks : list nat) (l : list FLOAT) :
  fold_left (optimizeTopic denom) ks (set_alphas this l)
  = set_alphas this
      (fold_left
         (fun l k =>
            <[k := (fun k a => std_max (fmul (fdiv (nom_spec this k a) denom) a) FLT_1e_5)
                     k (nth k l fzero)]> l)
         ks l).
Proof.
  revert l. induction ks as [|k ks IH]; intros l; [reflexivity|].
  cbn [fold_left]. rewrite <- IH. f_equal.
  unfold optimizeTopic. rewrite calcDigammaSum_nom. reflexivity.
Qed.

Lemma optimizeIteration_eq this :
  K this = length (alphas this) ->
  optimizeIteration this = optimizeIteration_spec this.
Proof.
  intros HK. unfold optimizeIteration, optimizeIteration_spec.
  rewrite calcDigammaSum_denom.
  pose proof (optimizeTopic_fold (denom_spec this (fsum (alphas this))) this
                (seq 0 (K this)) (alphas this)) as E.
  rewrite set_alphas_same in E. rewrite E. f_equal.
  refine (eq_trans
            (fold_left_update_imap
               (fun k a =>
                  std_max (fmul (fdiv (nom_spec this k a)
                                      (denom_spec this (fsum (alphas this)))) a)
                          FLT_1e_5)
               fzero (K this) (alphas this) _) _); [lia|].
  rewrite HK, firstn_all, drop_all. apply app_nil_r.
Qed.

Lemma optimizeIteration_spec_sizes this :
  K this = length (alphas this) ->
  K (optimizeIteration_spec this) = length (alphas (optimizeIteration_spec this)).
Proof. intros HK. unfold optimizeIteration_spec. simpl. now rewrite length_imap. Qed.

Lemma optimizeParameters_iter this :
  K this = length (alphas this) ->
  optimizeParameters this = Nat.iter 10 optimizeIteration_spec this.
Proof.
  intros HK.
  assert (E : forall n,
             Nat.iter n optimizeIteration this = Nat.iter n optimizeIteration_spec this
             /\ K (Nat.iter n optimizeIteration_spec this)
                = length (alphas (Nat.iter n optimizeIteration_spec this))).
  { induction n as [|n [IH1 IH2]]; [split; [reflexivity | exact HK]|].
    rewrite !Nat.iter_succ, IH1. split.
    - now apply optimizeIteration_eq.
    - now apply optimizeIteration_spec_sizes. }
  rewrite <- (proj1 (E 10%nat)). reflexivity.
Qed.

(** The scalar [alpha] is never written by the optimizer: after a call,
    [alphas] and [alpha] no longer describe the same prior. *)
Lemma optimizeParameters_keeps_alpha this :
  alpha (optimizeParameters this) = alpha this /\ K (optimizeParameters this) = K this.
Proof.
  unfold optimizeParameters.
  apply (fold_left_invariant (fun m => alpha m = alpha this /\ K m = K this));
    [|split; reflexivity].
  intros m _ Hm. unfold optimizeIteration.
  apply (fold_left_invariant (fun m => alpha m = alpha this /\ K m = K this));
    [|exact Hm].
  intros m' k Hm'. exact Hm'.
Qed.
End Optimizer.

(** ** The floor of the alphas, in binary32 *)

Section Floor.
Local Existing Instance Binary32.binary32_ops.

Lemma SFcompare_antisym (x y : spec_float) :
  SFcompare y x = option_map CompOpp (SFcompare x y).
Proof.
  destruct x as [sx|sx| |sx mx ex], y as [sy|sy| |sy my ey]; simpl;
    try destruct sx; try destruct sy; try reflexivity;
    rewrite (Z.compare_antisym ey ex); destruct (ey ?= ex); simpl;
    rewrite ?(Pos.compare_cont_antisym mx my Eq); reflexivity.
Qed.

(** [std::max(x, c)] is not below [c], unless it is NaN. *)
Lemma std_max_floor (x c : spec_float) :
  SFcompare c c = Some Eq ->
  Binary32.is_nan (std_max (H := Binary32.binary32_ops) x c) = true
  \/ SFleb c (std_max (H := Binary32.binary32_ops) x c) = true.
Proof.
  intros Hc. unfold std_max. cbn [fltb Binary32.binary32_ops]. unfold SFltb, SFleb.
  destruct (SFcompare x c) as [[]|] eqn:E;
    try (right; rewrite Hc; reflexivity);
    try (right; rewrite SFcompare_antisym, E; reflexivity).
  left. destruct x as [sx|sx| |sx mx ex]; [| |reflexivity|];
    (destruct c as [sc|sc| |sc mc ec]; [| |discriminate Hc|]); simpl in E; discriminate E.
Qed.

(** The clamp of the merge, in a weighted mode: the result is not below
    zero, unless it is NaN. *)
Lemma clamp_entry_floor (TW : TermWeight.t) (x : WeightType TW) :
  match TW as tw return WeightType tw -> Prop with
  | TermWeight.one => fun x => clamp_entry x = x
  | _ => fun x =>
      Binary32.is_nan (clamp_entry x) = true
      \/ SFleb (Binary32.of_Z 0) (clamp_entry x) = true
  end x.
Proof.
  destruct TW; [reflexivity| | |]; apply std_max_floor; reflexivity.
Qed.

Context {C : @Collaborators Binary32.binary32_ops} {TW : TermWeight.t}.

Lemma optimizeIteration_spec_floor (this : LDAModel TW) :
  Forall (fun a => Binary32.is_nan a = true \/ SFleb FLT_1e_5 a = true)
    (alphas (optimizeIteration_spec this)).
Proof.
  unfold optimizeIteration_spec. cbn [alphas set_alphas].
  apply Forall_lookup. intros i a Hi.
  rewrite list_lookup_imap in Hi.
  destruct (alphas this !! i) as [a0|]; [|discriminate Hi].
  injection Hi as <-. apply std_max_floor. reflexivity.
Qed.

(** C6 as stated fails: a model built with [alpha = 1e-6], a positive
    value, has both its alphas below [1e-5]. *)
Lemma alphas_below_floor_after_construction :
  SFltb (Binary32.of_Z 0) (Binary32.lit 1 1000000) = true
  /\ alphas (LDAModel_ctor (H0 := Binary32.binary32_collaborators) TermWeight.one 2
               (Binary32.lit 1 1000000) (Binary32.lit 1 100) 42)
     = [Binary32.lit 1 1000000; Binary32.lit 1 1000000]
  /\ SFltb (Binary32.lit 1 1000000) (FLT_1e_5 (H := Binary32.binary32_ops)) = true.
Proof. repeat split. Qed.

(** C6, amended.  On a model whose [alphas] has [K] entries, one call of
    [optimizeParameters] is exactly ten iterations; each iteration
    computes denom once, from the alphas of before the iteration, and
    replaces every alphas[k], for k from 0 up, by
    [std::max(nom_k / denom * alphas[k], 1e-5f)], the sums running over
    the documents; and after the call every alphas[k] that is a number
    is at least [1e-5f].  (Before the first call alphas[k] is the
    constructor's [alpha], whatever its value.) *)
Theorem optimizeParameters_fixed_point (this : LDAModel TW) :
  K this = length (alphas this) ->
  optimizeParameters this = Nat.iter 10 optimizeIteration_spec this
  /\ Forall (fun a => Binary32.is_nan a = true \/ SFleb FLT_1e_5 a = true)
       (alphas (optimizeParameters this)).
Proof.
  intros HK. rewrite (optimizeParameters_iter this HK).
  split; [reflexivity|].
  change (Nat.iter 10 optimizeIteration_spec this)
    with (optimizeIteration_spec (Nat.iter 9 optimizeIteration_spec this)).
  apply optimizeIteration_spec_floor.
Qed.
End Floor.

(** ** The log-likelihood, in exact arithmetic *)

Section LogLikelihood.
Context `{Collaborators} {TW : TermWeight.t}.
Implicit Types (this : LDAModel TW) (ld : ModelStateLDA TW).

(** The sums of the specification are unordered: they are compared with
    the accumulation of the code where [double] addition is a
    commutative group and the conversions commute with subtraction. *)
Hypothesis dadd_comm : forall x y : DOUBLE, dadd x y = dadd y x.
Hypothesis dadd_assoc : forall x y z : DOUBLE, dadd x (dadd y z) = dadd (dadd x y) z.
Hypothesis dadd_0_l : forall x : DOUBLE, dadd (d_of_Z 0) x = x.
Hypothesis dsub_add : forall x y : DOUBLE, dadd (dsub x y) y = x.
Hypothesis f2d_sub : forall a b : FLOAT, f2d (fsub a b) = dsub (f2d a) (f2d b).
Hypothesis fmul_comm : forall a b : FLOAT, fmul a b = fmul b a.

Local Abbreviation d0 := (d_of_Z 0).











End LogLikelihood.

(** ** The statements above at concrete inputs *)


Lemma trainOne_optimizes_on_schedule_witness :
  0 <= optimInterval SampleV.small_model
  /\ 0 <= iterated SampleV.small_model < 2 ^ 64 - 1
  /\ (optimDue SampleV.small_model = true
      <-> burnIn SampleV.small_model <= iterated SampleV.small_model
          /\ 0 < optimInterval SampleV.small_model
          /\ (optimInterval SampleV.small_model | iterated SampleV.small_model + 1)).
Proof.
  assert (H1 : 0 <= optimInterval SampleV.small_model) by (simpl; lia).
  assert (H2 : 0 <= iterated SampleV.small_model < 2 ^ 64 - 1) by (simpl; lia).
  split; [exact H1|]. split; [exact H2|].
  exact (proj1 (trainOne_optimizes_on_schedule SampleV.small_model SampleV.one_worker
                  [SampleV.zero_state] [42] 3 H1 H2)).
Defined.

Lemma sampleToken_draws_from_proposal_witness :
  (nth 0 (words SampleV.doc2) 0 < realV SampleV.small_model)%nat
  /\ (nth 0 (Zs (fst (fst (sampleToken SampleV.small_model 0
                             (SampleV.doc2, SampleV.state2, 42%Z))))) 0
      <= K SampleV.small_model)%nat.
Proof.
  assert (H1 : (nth 0 (words SampleV.doc2) 0 < realV SampleV.small_model)%nat)
    by (simpl; lia).
  split; [exact H1|].
  refine (proj2 (proj2 (proj2 (proj2 (proj2
            (sampleToken_draws_from_proposal SampleV.small_model SampleV.doc2
               SampleV.state2 42 0 H1 _ _ _ _ _)))))); try reflexivity.
  simpl; lia.
Defined.

Lemma optimizeParameters_fixed_point_witness :
  K SampleV.small_model = length (alphas SampleV.small_model)
  /\ optimizeParameters SampleV.small_model
     = Nat.iter 10 optimizeIteration_spec SampleV.small_model.
Proof.
  split; [reflexivity|].
  exact (proj1 (optimizeParameters_fixed_point SampleV.small_model eq_refl)).
Defined.



(** * Further properties *)

(** ** What one count update touches *)

Lemma nth_alter_ne {A} (f : A -> A) (l : list A) (i k : nat) (d : A) :
  i <> k -> nth k (alter f i l) d = nth k l d.
Proof. intros Hne. now rewrite !nth_lookup, list_lookup_alter_ne. Qed.

Lemma nth_alter_eq {A} (f : A -> A) (l : list A) (i : nat) (d : A) :
  (i < length l)%nat -> nth i (alter f i l) d = f (nth i l d).
Proof.
  intros Hi. rewrite !nth_lookup, list_lookup_alter_eq.
  destruct (lookup_lt_is_Some_2 l i Hi) as [x Hx]. now rewrite Hx.
Qed.

Section UpdateFrame.
Context `{Collaborators} {TW : TermWeight.t}.
Implicit Types (ld : ModelStateLDA TW) (doc : DocumentLDA TW).

Lemma shape_alter n v ld (f : WeightType TW -> WeightType TW) (tid vid : nat) :
  shape n v ld ->
  shape n v {| zLikelihood := zLikelihood ld;
               numByTopic := alter f tid (numByTopic ld);
               numByTopicWord := alter (alter f vid) tid (numByTopicWord ld) |}.
Proof.
  intros (Hn & Hm & Hr). unfold shape. simpl. rewrite !length_alter.
  repeat split; auto.
  apply Forall_alter; [exact Hr|]. intros row _ Hrow. now rewrite length_alter.
Qed.

Lemma addWordTo_frame_aux (INC : Z) ld doc (pid vid tid n v : nat) :
  shape n v ld ->
  length (doc_numByTopic doc) = n ->
  let r := addWordTo INC ld doc pid vid tid in
  shape n v (fst r)
  /\ length (doc_numByTopic (snd r)) = n
  /\ words (snd r) = words doc
  /\ Zs (snd r) = Zs doc
  /\ wordWeights (snd r) = wordWeights doc
  /\ zLikelihood (fst r) = zLikelihood ld
  /\ (forall k, k <> tid ->
        nth k (numByTopic (fst r)) (wzero TW) = nth k (numByTopic ld) (wzero TW)
        /\ nth k (doc_numByTopic (snd r)) (wzero TW)
           = nth k (doc_numByTopic doc) (wzero TW))
  /\ (forall k j, k <> tid \/ j <> vid -> entry (fst r) k j = entry ld k j).
Proof.
  intros Sld Hd r. subst r. unfold addWordTo. cbn [fst snd].
  split; [now apply shape_alter|].
  cbn [doc_numByTopic words Zs wordWeights zLikelihood numByTopic].
  rewrite length_alter.
  split; [exact Hd|]. do 4 (split; [reflexivity|]). split.
  - intros k Hk. split; apply nth_alter_ne; congruence.
  - intros k j Hkj. unfold entry. cbn [numByTopicWord].
    destruct (Nat.eq_dec k tid) as [->|Hk].
    + destruct Hkj as [Hk|Hj]; [congruence|].
      destruct (Nat.lt_ge_cases tid (length (numByTopicWord ld))) as [Hlt|Hge].
      * rewrite (nth_alter_eq _ _ _ []) by exact Hlt. apply nth_alter_ne. congruence.
      * rewrite !nth_lookup, list_lookup_alter_eq.
        now rewrite (proj2 (lookup_ge_None _ _) Hge).
    + rewrite (nth_alter_ne _ _ tid k []) by congruence. reflexivity.
Qed.

(** [addWordTo] keeps the sizes of everything, leaves the document's
    words, assignments and weights and the scratch vector alone, and
    changes no topic total other than [tid]'s and no matrix entry other
    than [(tid, vid)]. *)
Theorem addWordTo_frame (INC : Z) ld doc (pid vid tid n v : nat) :
  shape n v ld ->
  length (doc_numByTopic doc) = n ->
  let r := addWordTo INC ld doc pid vid tid in
  shape n v (fst r)
  /\ length (doc_numByTopic (snd r)) = n
  /\ words (snd r) = words doc
  /\ Zs (snd r) = Zs doc
  /\ wordWeights (snd r) = wordWeights doc
  /\ zLikelihood (fst r) = zLikelihood ld
  /\ (forall k, k <> tid ->
        nth k (numByTopic (fst r)) (wzero TW) = nth k (numByTopic ld) (wzero TW)
        /\ nth k (doc_numByTopic (snd r)) (wzero TW)
           = nth k (doc_numByTopic doc) (wzero TW))
  /\ (forall k j, k <> tid \/ j <> vid -> entry (fst r) k j = entry ld k j).
Proof. apply addWordTo_frame_aux. Qed.
End UpdateFrame.

(** ** Sizes kept by the sampler and by the initialisation *)

Section Sizes.
Context `{Collaborators} {TW : TermWeight.t}.
Implicit Types (this : LDAModel TW) (ld : ModelStateLDA TW) (doc : DocumentLDA TW).

Lemma shape_set_zLikelihood n v ld (z : list FLOAT) :
  shape n v ld -> shape n v (set_zLikelihood ld z).
Proof. intros S. exact S. Qed.

Lemma resampleToken_sizes this (w n v : nat) doc ld rgs :
  shape n v ld -> length (doc_numByTopic doc) = n ->
  let st' := resampleToken this w (doc, ld, rgs) in
  shape n v (snd (fst st')) /\ length (doc_numByTopic (fst (fst st'))) = n.
Proof.
  intros Sld Hd. unfold resampleToken.
  destruct (addWordTo_frame_aux (-1) ld doc w (nth w (words doc) 0%nat)
              (nth w (Zs doc) 0%nat) n v Sld Hd) as (S1 & D1 & _).
  destruct (addWordTo (-1) ld doc w (nth w (words doc) 0%nat) (nth w (Zs doc) 0%nat))
    as [ld1 doc1]. cbn [fst snd] in S1, D1.
  destruct (sampleFromDiscreteAcc _ rgs) as [z r].
  destruct (addWordTo_frame_aux 1 (getZLikelihoods this ld1 doc1 (nth w (words doc) 0%nat))
              (set_Zs doc1 (<[w := z]> (Zs doc1))) w (nth w (words doc) 0%nat) z n v)
    as (S2 & D2 & _); [exact S1 | exact D1 |].
  destruct (addWordTo 1 _ _ w _ z) as [ld3 doc3]. cbn [fst snd] in *. auto.
Qed.

Lemma sampleDocument_sizes_aux this doc ld rgs (n v : nat) :
  shape n v ld -> length (doc_numByTopic doc) = n ->
  let st' := sampleDocument this doc ld rgs in
  shape n v (snd (fst st'))
  /\ length (doc_numByTopic (fst (fst st'))) = n
  /\ length (Zs (fst (fst st'))) = length (Zs doc)
  /\ words (fst (fst st')) = words doc
  /\ wordWeights (fst (fst st')) = wordWeights doc.
Proof.
  intros Sld Hd. unfold sampleDocument.
  apply (fold_left_invariant
           (fun st => shape n v (snd (fst st))
                      /\ length (doc_numByTopic (fst (fst st))) = n
                      /\ length (Zs (fst (fst st))) = length (Zs doc)
                      /\ words (fst (fst st)) = words doc
                      /\ wordWeights (fst (fst st)) = wordWeights doc));
    [|cbn [fst snd]; auto].
  intros [[d l] r] w (S & D & Z & Wd & Ww). unfold sampleToken. cbn [fst snd] in *.
  destruct (realV this <=? nth w (words d) 0%nat)%nat; [auto|].
  destruct (resampleToken_sizes this w n v d l r S D) as (S' & D').
  destruct (resampleToken_frame this w d l r) as (Wd' & Ww' & Z' & _).
  repeat split; try apply S'; congruence.
Qed.

(** [sampleDocument] keeps the shape of the state it works on and the
    sizes of the document: the number of topic counts and of assignments;
    the words and the weights are not written at all. *)
Theorem sampleDocument_sizes this doc ld rgs (n v : nat) :
  shape n v ld -> length (doc_numByTopic doc) = n ->
  let st' := sampleDocument this doc ld rgs in
  shape n v (snd (fst st'))
  /\ length (doc_numByTopic (fst (fst st'))) = n
  /\ length (Zs (fst (fst st'))) = length (Zs doc)
  /\ words (fst (fst st')) = words doc
  /\ wordWeights (fst (fst st')) = wordWeights doc.
Proof. apply sampleDocument_sizes_aux. Qed.

Lemma initInVocab_sizes this g tf (w n v : nat) doc ld rgs :
  shape n v ld -> length (doc_numByTopic doc) = n ->
  let st' := initInVocab this g tf w (doc, ld, rgs) in
  shape n v (snd (fst st'))
  /\ length (doc_numByTopic (fst (fst st'))) = n
  /\ length (Zs (fst (fst st'))) = length (Zs doc).
Proof.
  intros Sld Hd. unfold initInVocab, updateStateWithDoc.
  destruct (uniform_int _ _ rgs) as [z r].
  set (doc1 := set_Zs (assignWeight this tf doc w) _).
  assert (D1 : length (doc_numByTopic doc1) = n).
  { subst doc1. unfold assignWeight.
    destruct (TermWeight.is_idf TW), (TermWeight.is_pmi TW); exact Hd. }
  assert (Z1 : length (Zs doc1) = length (Zs doc)).
  { subst doc1. unfold assignWeight. cbn [Zs set_Zs]. rewrite length_insert.
    destruct (TermWeight.is_idf TW), (TermWeight.is_pmi TW); reflexivity. }
  destruct (addWordTo_frame_aux 1 ld doc1 w (nth w (words (assignWeight this tf doc w)) 0%nat)
              z n v Sld D1) as (S2 & D2 & _ & Z2 & _).
  destruct (addWordTo 1 ld doc1 w _ z) as [ld' doc']. cbn [fst snd] in *.
  repeat split; try apply S2; congruence.
Qed.

Lemma initializeDocState_sizes_aux this doc g ld rgs (v : nat) :
  shape (K this) v ld ->
  let st' := initializeDocState this doc g ld rgs in
  shape (K this) v (snd (fst st'))
  /\ length (doc_numByTopic (fst (fst st'))) = K this
  /\ length (Zs (fst (fst st'))) = length (words doc)
  /\ words (fst (fst st')) = words doc.
Proof.
  intros Sld. unfold initializeDocState. cbn zeta.
  apply (fold_left_invariant
           (fun st => shape (K this) v (snd (fst st))
                      /\ length (doc_numByTopic (fst (fst st))) = K this
                      /\ length (Zs (fst (fst st))) = length (words doc)
                      /\ words (fst (fst st)) = words doc)).
  - intros [[d l] r] w (S & D & Z & Wd). unfold initToken. cbn [fst snd] in *.
    destruct (realV this <=? nth w (words d) 0%nat)%nat; [auto|].
    destruct (initInVocab_sizes this g
                (countTf this (prepareDoc this doc (length (words doc)))) w
                (K this) v d l r S D) as (S' & D' & Z').
    destruct (initInVocab_frame this g
                (countTf this (prepareDoc this doc (length (words doc)))) w d l r)
      as (Wd' & _).
    repeat split; try apply S'; congruence.
  - cbn [fst snd prepareDoc doc_numByTopic Zs words].
    rewrite !length_replicate. auto.
Qed.

(** [initializeDocState] leaves a document with one assignment per word
    and [K] topic counts, its words unchanged, and keeps the shape of the
    state it adds the document to. *)
Theorem initializeDocState_sizes this doc g ld rgs (v : nat) :
  shape (K this) v ld ->
  let st' := initializeDocState this doc g ld rgs in
  shape (K this) v (snd (fst st'))
  /\ length (doc_numByTopic (fst (fst st'))) = K this
  /\ length (Zs (fst (fst st'))) = length (words doc)
  /\ words (fst (fst st')) = words doc.
Proof. apply initializeDocState_sizes_aux. Qed.
End Sizes.

(** ** A document without vocabulary *)

Section NoVocabulary.
Context `{Collaborators} {TW : TermWeight.t}.

(** On a document none of whose words is in the vocabulary, the empty
    document included, [sampleDocument] changes nothing and draws no
    random number. *)
Theorem sampleDocument_without_vocabulary (this : LDAModel TW) (doc : DocumentLDA TW)
    (ld : ModelStateLDA TW) (rgs : RANDGEN) :
  Forall (fun w => (realV this <= w)%nat) (words doc) ->
  sampleDocument this doc ld rgs = (doc, ld, rgs).
Proof.
  intros Hall.
  now rewrite sampleDocument_skips, (in_vocab_positions_none _ _ Hall).
Qed.
End NoVocabulary.

(** ** Arithmetic of [int32_t] *)

Lemma wrap32_range (z : Z) : int32_range z -> wrap32 z = z.
Proof. unfold int32_range, wrap32. intros Hz. rewrite Z.mod_small; lia. Qed.

Lemma wrap32_in_range (z : Z) : int32_range (wrap32 z).
Proof.
  unfold int32_range, wrap32.
  pose proof (Z.mod_pos_bound (z + 2 ^ 31) (2 ^ 32) ltac:(lia)). lia.
Qed.

Lemma wrap32_add_l (a b : Z) : wrap32 (wrap32 a + b) = wrap32 (a + b).
Proof.
  unfold wrap32. f_equal.
  replace ((a + 2 ^ 31) mod 2 ^ 32 - 2 ^ 31 + b + 2 ^ 31)
    with ((a + 2 ^ 31) mod 2 ^ 32 + b) by lia.
  rewrite Zplus_mod_idemp_l. f_equal. lia.
Qed.

Lemma wrap32_add_r (a b : Z) : wrap32 (a + wrap32 b) = wrap32 (a + b).
Proof. now rewrite Z.add_comm, wrap32_add_l, Z.add_comm. Qed.

Lemma wrap32_idem (a : Z) : wrap32 (wrap32 a) = wrap32 a.
Proof. pose proof (wrap32_add_l a 0) as E. now rewrite !Z.add_0_r in E. Qed.

Lemma wrap32_sub_l (a b : Z) : wrap32 (wrap32 a - b) = wrap32 (a - b).
Proof. unfold Z.sub. apply wrap32_add_l. Qed.

Lemma wrap32_opp (b : Z) : wrap32 (- wrap32 b) = wrap32 (- b).
Proof.
  unfold wrap32. f_equal.
  replace (- ((b + 2 ^ 31) mod 2 ^ 32 - 2 ^ 31) + 2 ^ 31)
    with (2 ^ 32 - (b + 2 ^ 31) mod 2 ^ 32) by lia.
  rewrite Zminus_mod_idemp_r. f_equal. lia.
Qed.

Lemma wrap32_sub_r (a b : Z) : wrap32 (a - wrap32 b) = wrap32 (a - b).
Proof.
  unfold Z.sub. rewrite <- wrap32_add_r, wrap32_opp, wrap32_add_r. reflexivity.
Qed.

Lemma sumZ_perm (l l' : list Z) : Permutation l l' -> sumZ l = sumZ l'.
Proof. induction 1; simpl in *; lia. Qed.

(** ** The merge under [TermWeight::one] *)

Section MergeExact.
Context `{FloatOps}.

Lemma merged_entry_one (g l0 : Z) (ls : list Z) :
  int32_range l0 ->
  merged_entry (TW := TermWeight.one) g l0 ls
  = wrap32 (l0 + sumZ (map (fun li => li - g) ls)).
Proof.
  revert l0. induction ls as [|x ls IH]; intros l0 Hl0.
  - simpl. now rewrite Z.add_0_r, wrap32_range.
  - unfold merged_entry in *. cbn [fold_left map sumZ fold_right].
    rewrite IH by apply wrap32_in_range.
    cbn [wadd wsub].
    change (wrap32 (wrap32 (l0 + wrap32 (x - g)) + sumZ (map (fun li => li - g) ls))
            = wrap32 (l0 + (x - g + sumZ (map (fun li => li - g) ls)))).
    rewrite wrap32_add_l.
    replace (l0 + wrap32 (x - g) + sumZ (map (fun li => li - g) ls))
      with (wrap32 (x - g) + (l0 + sumZ (map (fun li => li - g) ls))) by lia.
    rewrite wrap32_add_l. f_equal. lia.
Qed.

Lemma int32_range_nth (l : list Z) (k : nat) :
  Forall int32_range l -> int32_range (nth k l 0).
Proof.
  intros Hl. destruct (Nat.lt_ge_cases k (length l)) as [Hlt|Hge].
  - now apply List.Forall_nth.
  - rewrite nth_overflow by exact Hge. unfold int32_range. lia.
Qed.

Lemma int32_state_nth (L0 : ModelStateLDA TermWeight.one) (k j : nat) :
  int32_state L0 ->
  int32_range (nth k (numByTopic L0) 0) /\ int32_range (entry L0 k j).
Proof.
  intros [Hv Hm]. split; [now apply int32_range_nth|].
  unfold entry. apply int32_range_nth.
  destruct (Nat.lt_ge_cases k (length (numByTopicWord L0))) as [Hlt|Hge].
  - now apply (List.Forall_nth (Forall int32_range)).
  - rewrite nth_overflow by exact Hge. constructor.
Qed.

Lemma shape_ext (n v : nat) (a b : ModelStateLDA TermWeight.one) :
  shape n v a -> shape n v b ->
  (forall k, (k < n)%nat -> nth k (numByTopic a) 0 = nth k (numByTopic b) 0) ->
  (forall k j, (k < n)%nat -> (j < v)%nat -> entry a k j = entry b k j) ->
  numByTopic a = numByTopic b /\ numByTopicWord a = numByTopicWord b.
Proof.
  intros Sa Sb Hv Hm.
  pose proof Sa as (La & Ma & _). pose proof Sb as (Lb & Mb & _).
  split.
  - apply (nth_ext _ _ 0 0); [exact (eq_trans La (eq_sym Lb))|].
    intros k Hk. apply Hv. change (k < length (numByTopic a))%nat in Hk. lia.
  - apply (nth_ext _ _ [] []); [exact (eq_trans Ma (eq_sym Mb))|]. intros k Hk.
    assert (Hkn : (k < n)%nat) by (rewrite <- Ma; exact Hk).
    apply (nth_ext _ _ 0 0).
    + exact (eq_trans (shape_row n v a k Sa Hkn) (eq_sym (shape_row n v b k Sb Hkn))).
    + intros j Hj. apply (Hm k j Hkn).
      pose proof (shape_row n v a k Sa Hkn) as Hr.
      change (j < length (nth k (numByTopicWord a) []))%nat in Hj. lia.
Qed.

Lemma mergeState_one_entries (pool : ThreadPool) (G T L0 : ModelStateLDA TermWeight.one)
    (Ls : list (ModelStateLDA TermWeight.one))
    (n v : nat) :
  getNumWorkers pool = S (length Ls) ->
  shape n v G -> shape n v L0 -> Forall (shape n v) Ls -> int32_state L0 ->
  let G' := fst (fst (mergeState pool G T (L0 :: Ls))) in
  shape n v G'
  /\ zLikelihood G' = zLikelihood L0
  /\ (forall k, (k < n)%nat ->
        nth k (numByTopic G') 0
        = wrap32 (nth k (numByTopic L0) 0
                  + sumZ (map (fun li : ModelStateLDA TermWeight.one =>
                               nth k (numByTopic li) 0 - nth k (numByTopic G) 0)
                            Ls)))
  /\ (forall k j, (k < n)%nat -> (j < v)%nat ->
        entry G' k j
        = wrap32 (entry L0 k j
                  + sumZ (map (fun li : ModelStateLDA TermWeight.one => entry li k j - entry G k j) Ls))).
Proof.
  intros HW SG SL0 SLs R0 G'. subst G'.
  rewrite (mergeState_unfold _ _ _ _ _ HW). cbn [fst snd].
  destruct (fold_addDelta n v G Ls L0 SG SLs SL0) as (S1 & Hv & Hm).
  change (clampState ?x) with x.
  split; [exact S1|]. split.
  - clear. revert L0. induction Ls as [|li Ls IH]; intros L0; [reflexivity|].
    simpl. now rewrite IH.
  - split.
    + intros k Hk. change (wzero TermWeight.one) with 0 in Hv. rewrite (Hv k Hk).
      rewrite merged_entry_one by apply (int32_state_nth L0 k 0 R0).
      now rewrite map_map.
    + intros k j Hk Hj. rewrite (Hm k j Hk Hj).
      rewrite merged_entry_one by apply (int32_state_nth L0 k j R0).
      now rewrite map_map.
Qed.

(** Under [one] the merge is exact: every entry of the new global state
    is the integer [L0 + (L1 - G) + ...] reduced to [int32_t], so the new
    global state does not depend on the order of the other replicas. *)
Theorem mergeState_order_independent (pool : ThreadPool)
    (G T L0 : ModelStateLDA TermWeight.one)
    (Ls Ls' : list (ModelStateLDA TermWeight.one)) (n v : nat) :
  getNumWorkers pool = S (length Ls) ->
  shape n v G -> shape n v L0 -> Forall (shape n v) Ls -> int32_state L0 ->
  Permutation Ls Ls' ->
  let G1 := fst (fst (mergeState pool G T (L0 :: Ls))) in
  let G2 := fst (fst (mergeState pool G T (L0 :: Ls'))) in
  (forall k, (k < n)%nat ->
     nth k (numByTopic G1) 0
     = wrap32 (nth k (numByTopic L0) 0
               + sumZ (map (fun li : ModelStateLDA TermWeight.one =>
                               nth k (numByTopic li) 0 - nth k (numByTopic G) 0) Ls)))
  /\ (forall k j, (k < n)%nat -> (j < v)%nat ->
        entry G1 k j
        = wrap32 (entry L0 k j + sumZ (map (fun li : ModelStateLDA TermWeight.one => entry li k j - entry G k j) Ls)))
  /\ numByTopic G2 = numByTopic G1
  /\ numByTopicWord G2 = numByTopicWord G1.
Proof.
  intros HW SG SL0 SLs R0 HP G1 G2.
  assert (HW' : getNumWorkers pool = S (length Ls'))
    by (rewrite HW; f_equal; now apply Permutation_length).
  assert (SLs' : Forall (shape n v) Ls') by (now rewrite <- HP).
  destruct (mergeState_one_entries pool G T L0 Ls n v HW SG SL0 SLs R0)
    as (S1 & _ & V1 & M1).
  destruct (mergeState_one_entries pool G T L0 Ls' n v HW' SG SL0 SLs' R0)
    as (S2 & _ & V2 & M2).
  fold G1 in S1, V1, M1. fold G2 in S2, V2, M2.
  split; [exact V1|]. split; [exact M1|].
  apply (shape_ext n v G2 G1 S2 S1).
  - intros k Hk. rewrite (V1 k Hk), (V2 k Hk). do 2 f_equal.
    apply sumZ_perm, Permutation_map. now symmetry.
  - intros k j Hk Hj. rewrite (M1 k j Hk Hj), (M2 k j Hk Hj). do 2 f_equal.
    apply sumZ_perm, Permutation_map. now symmetry.
Qed.
End MergeExact.

Section MergeEdges.
Context `{FloatOps}.

Lemma state_eq (a b : ModelStateLDA TermWeight.one) :
  zLikelihood a = zLikelihood b -> numByTopic a = numByTopic b ->
  numByTopicWord a = numByTopicWord b -> a = b.
Proof. destruct a, b. simpl. intros -> -> ->. reflexivity. Qed.

Lemma sumZ_unchanged {A} (F : A -> Z) (x : A) (m : nat) :
  sumZ (map (fun y => F y - F x) (replicate m x)) = 0.
Proof. induction m as [|m IH]; simpl in *; lia. Qed.

Lemma mergeState_of_unchanged_replicas_aux (pool : ThreadPool)
    (G T : ModelStateLDA TermWeight.one) (m n v : nat) :
  getNumWorkers pool = S m ->
  shape n v G -> int32_state G ->
  mergeState pool G T (replicate (S m) G) = (G, G, replicate (S m) G).
Proof.
  intros HW SG RG.
  assert (HW' : getNumWorkers pool = S (length (replicate m G)))
    by now rewrite length_replicate.
  assert (SLs : Forall (shape n v) (replicate m G)) by now apply Forall_replicate.
  destruct (mergeState_one_entries pool G T G (replicate m G) n v HW' SG SG SLs RG)
    as (S1 & Z1 & V1 & M1).
  change (replicate (S m) G) with (G :: replicate m G).
  rewrite (mergeState_unfold _ _ _ _ _ HW') in *. cbn [fst snd] in *.
  rewrite length_replicate.
  set (C := clampState _) in *.
  assert (E : C = G).
  { destruct (shape_ext n v C G S1 SG) as [Ev Em].
    - intros k Hk. rewrite (V1 k Hk).
      rewrite (sumZ_unchanged (fun li : ModelStateLDA TermWeight.one =>
                                 nth k (numByTopic li) 0) G m).
      rewrite Z.add_0_r. apply wrap32_range, (int32_state_nth G k 0 RG).
    - intros k j Hk Hj. rewrite (M1 k j Hk Hj).
      rewrite (sumZ_unchanged (fun li : ModelStateLDA TermWeight.one => entry li k j) G m).
      rewrite Z.add_0_r. apply wrap32_range, (int32_state_nth G k j RG).
    - now apply state_eq. }
  now rewrite E.
Qed.

(** A round in which no worker changed its replica changes nothing:
    merging [W] copies of the global state gives back the global state,
    in the state itself, in [tState] and in every replica. *)
Theorem mergeState_of_unchanged_replicas (pool : ThreadPool)
    (G T : ModelStateLDA TermWeight.one) (m n v : nat) :
  getNumWorkers pool = S m ->
  shape n v G -> int32_state G ->
  mergeState pool G T (replicate (S m) G) = (G, G, replicate (S m) G).
Proof. apply mergeState_of_unchanged_replicas_aux. Qed.

(** With a single worker the merge hands the worker's replica over as
    the new global state, clamped in the weighted modes and untouched
    under [one]. *)
Theorem mergeState_single_worker {TW : TermWeight.t} (pool : ThreadPool)
    (G T L0 : ModelStateLDA TW) :
  getNumWorkers pool = 1%nat ->
  mergeState pool G T [L0] = (clampState L0, G, [clampState L0])
  /\ (TermWeight.is_one TW = true -> clampState L0 = L0).
Proof.
  intros HW. split.
  - exact (mergeState_unfold pool G T L0 [] HW).
  - intros Hone. unfold clampState. now rewrite Hone.
Qed.
End MergeEdges.

(** ** Counts under [TermWeight::one] *)

Section CountsOne.
Context `{Collaborators}.
Hypothesis Hupd : updateCnt_adds.

Local Abbreviation Model := (LDAModel TermWeight.one).
Local Abbreviation Doc := (DocumentLDA TermWeight.one).
Local Abbreviation State := (ModelStateLDA TermWeight.one).

Lemma addWordTo_one (INC : Z) (ld : State) (doc : Doc) (pid vid tid : nat) :
  addWordTo INC ld doc pid vid tid
  = (@Build_ModelStateLDA _ TermWeight.one (zLikelihood ld)
       (alter (bump INC) tid (numByTopic ld))
       (alter (alter (bump INC) vid) tid (numByTopicWord ld)),
     @Build_DocumentLDA _ TermWeight.one (words doc) (Zs doc) (wordWeights doc)
       (alter (bump INC) tid (doc_numByTopic doc))).
Proof.
  unfold addWordTo. cbn [TermWeight.is_one negb]. rewrite andb_false_r.
  assert (E : forall x : Z,
             updateCnt TermWeight.one false x
               (wscale TermWeight.one INC (tokenWeight doc pid)) = bump INC x).
  { intros x. rewrite Hupd. unfold bump. cbn [wscale tokenWeight].
    rewrite wrap32_add_r. f_equal. lia. }
  f_equal; f_equal.
  - apply list_alter_ext; [intros; apply E | reflexivity].
  - apply list_alter_ext; [|reflexivity]. intros row _.
    apply list_alter_ext; [intros; apply E | reflexivity].
  - apply list_alter_ext; [intros; apply E | reflexivity].
Qed.

Lemma sumZ_alter (f : Z -> Z) (row : list Z) (j : nat) :
  (j < length row)%nat ->
  sumZ (alter f j row) = sumZ row - nth j row 0 + f (nth j row 0).
Proof.
  revert j. induction row as [|x row IH]; intros [|j] Hj; simpl in Hj; try lia.
  - simpl. lia.
  - change (x + sumZ (alter f j row) = x + sumZ row - nth j row 0 + f (nth j row 0)).
    rewrite IH by lia. lia.
Qed.

Lemma wrap32_sumZ_bump (INC : Z) (row : list Z) (j : nat) :
  (j < length row)%nat ->
  wrap32 (sumZ (alter (bump INC) j row)) = wrap32 (sumZ row + INC).
Proof.
  intros Hj. rewrite sumZ_alter by exact Hj. unfold bump.
  replace (sumZ row - nth j row 0 + wrap32 (nth j row 0 + INC))
    with (wrap32 (nth j row 0 + INC) + (sumZ row - nth j row 0)) by lia.
  rewrite wrap32_add_l. f_equal. lia.
Qed.

Lemma wrap32_bump_sub (INC a b : Z) :
  wrap32 (bump INC a - bump INC b) = wrap32 (a - b).
Proof.
  unfold bump. rewrite wrap32_sub_l, wrap32_sub_r. f_equal. lia.
Qed.

Lemma addWordTo_counts (INC : Z) (ld : State) (doc : Doc) (pid vid tid n v : nat) :
  shape n v ld -> length (doc_numByTopic doc) = n -> (vid < v)%nat ->
  totals_consistent ld ->
  totals_consistent (fst (addWordTo INC ld doc pid vid tid))
  /\ (forall k, (k < n)%nat ->
        offset (fst (addWordTo INC ld doc pid vid tid))
               (snd (addWordTo INC ld doc pid vid tid)) k
        = offset ld doc k).
Proof.
  intros Sld Hd Hvid Hinv. rewrite addWordTo_one. cbn [fst snd].
  pose proof Sld as (Ln & Lm & _).
  split.
  - intros k Hk. cbn [numByTopic numByTopicWord] in *.
    rewrite length_alter in Hk.
    assert (Hkn : (k < n)%nat) by (rewrite <- Ln; exact Hk).
    destruct (Nat.eq_dec k tid) as [->|Hne].
    + rewrite (nth_alter_eq _ _ _ []) by (rewrite Lm; exact Hkn).
      rewrite (nth_alter_eq _ _ _ 0) by exact Hk.
      assert (Hrow : (vid < length (nth tid (numByTopicWord ld) []))%nat)
        by (rewrite (shape_row n v ld tid Sld Hkn); exact Hvid).
      rewrite wrap32_sumZ_bump by exact Hrow.
      unfold bump. rewrite wrap32_idem, <- wrap32_add_l, (Hinv tid Hk), wrap32_add_l.
      reflexivity.
    + rewrite (nth_alter_ne _ _ tid k []) by congruence.
      rewrite (nth_alter_ne _ _ tid k 0) by congruence.
      now apply Hinv.
  - intros k Hk. unfold offset. cbn [numByTopic doc_numByTopic].
    destruct (Nat.eq_dec k tid) as [->|Hne].
    + assert (H1 : (tid < length (numByTopic ld))%nat) by (rewrite Ln; exact Hk).
      assert (H2 : (tid < length (doc_numByTopic doc))%nat) by (rewrite Hd; exact Hk).
      rewrite (nth_alter_eq _ (numByTopic ld) _ 0 H1).
      rewrite (nth_alter_eq _ (doc_numByTopic doc) _ 0 H2).
      apply wrap32_bump_sub.
    + now rewrite !(nth_alter_ne _ _ tid k 0) by congruence.
Qed.

Lemma resampleToken_counts (this : Model) (w n v : nat) (doc : Doc) (ld : State)
    (rgs : RANDGEN) :
  shape n v ld -> length (doc_numByTopic doc) = n ->
  (nth w (words doc) 0 < v)%nat -> totals_consistent ld ->
  let st' := resampleToken this w (doc, ld, rgs) in
  totals_consistent (snd (fst st'))
  /\ (forall k, (k < n)%nat -> offset (snd (fst st')) (fst (fst st')) k = offset ld doc k).
Proof.
  intros Sld Hd Hv Hinv. unfold resampleToken.
  destruct (addWordTo_frame_aux (-1) ld doc w (nth w (words doc) 0%nat)
              (nth w (Zs doc) 0%nat) n v Sld Hd) as (S1 & D1 & _).
  destruct (addWordTo_counts (-1) ld doc w (nth w (words doc) 0%nat)
              (nth w (Zs doc) 0%nat) n v Sld Hd Hv Hinv) as (T1 & O1).
  destruct (addWordTo (-1) ld doc w (nth w (words doc) 0%nat) (nth w (Zs doc) 0%nat))
    as [ld1 doc1]. cbn [fst snd] in *.
  destruct (sampleFromDiscreteAcc _ rgs) as [z r].
  destruct (addWordTo_counts 1 (getZLikelihoods this ld1 doc1 (nth w (words doc) 0%nat))
              (set_Zs doc1 (<[w := z]> (Zs doc1))) w (nth w (words doc) 0%nat) z n v)
    as (T2 & O2); [exact S1 | exact D1 | exact Hv | exact T1 |].
  destruct (addWordTo 1 _ _ w _ z) as [ld3 doc3]. cbn [fst snd] in *.
  split; [exact T2|]. intros k Hk. rewrite (O2 k Hk). exact (O1 k Hk).
Qed.

Lemma sampleDocument_keeps_totals_aux (this : Model) (doc : Doc) (ld : State)
    (rgs : RANDGEN) (n : nat) :
  shape n (realV this) ld -> length (doc_numByTopic doc) = n ->
  totals_consistent ld ->
  let st' := sampleDocument this doc ld rgs in
  totals_consistent (snd (fst st'))
  /\ (forall k, (k < n)%nat -> offset (snd (fst st')) (fst (fst st')) k = offset ld doc k).
Proof.
  intros Sld Hd Hinv. unfold sampleDocument.
  apply (fold_left_invariant
           (fun st => (shape n (realV this) (snd (fst st))
                       /\ length (doc_numByTopic (fst (fst st))) = n)
                      /\ totals_consistent (snd (fst st))
                      /\ (forall k, (k < n)%nat ->
                            offset (snd (fst st)) (fst (fst st)) k = offset ld doc k)));
    [|cbn [fst snd]; auto].
  intros [[d l] r] w ((S & D) & T & O). unfold sampleToken. cbn [fst snd] in *.
  destruct (realV this <=? nth w (words d) 0%nat)%nat eqn:E; [auto|].
  apply Nat.leb_gt in E.
  destruct (resampleToken_sizes this w n (realV this) d l r S D) as (S' & D').
  destruct (resampleToken_counts this w n (realV this) d l r S D E T) as (T' & O').
  split; [split; assumption|]. split; [exact T'|].
  intros k Hk. rewrite (O' k Hk). exact (O k Hk).
Qed.

(** Under [one], with an [updateCnt] that adds: [sampleDocument] keeps
    every topic total equal to the sum of its row of the topic-word
    matrix, and moves the totals of the state by exactly what it moves
    the counts of the document. *)
Theorem sampleDocument_keeps_totals (this : Model) (doc : Doc) (ld : State)
    (rgs : RANDGEN) (n : nat) :
  shape n (realV this) ld -> length (doc_numByTopic doc) = n ->
  totals_consistent ld ->
  let st' := sampleDocument this doc ld rgs in
  totals_consistent (snd (fst st'))
  /\ (forall k, (k < n)%nat -> offset (snd (fst st')) (fst (fst st')) k = offset ld doc k).
Proof. apply sampleDocument_keeps_totals_aux. Qed.

Lemma initInVocab_counts (this : Model) (g : Generator) (tf : list Z) (w n v : nat)
    (doc : Doc) (ld : State) (rgs : RANDGEN) :
  shape n v ld -> length (doc_numByTopic doc) = n ->
  (nth w (words doc) 0 < v)%nat -> totals_consistent ld ->
  let st' := initInVocab this g tf w (doc, ld, rgs) in
  totals_consistent (snd (fst st'))
  /\ (forall k, (k < n)%nat -> offset (snd (fst st')) (fst (fst st')) k = offset ld doc k).
Proof.
  intros Sld Hd Hv Hinv. unfold initInVocab, updateStateWithDoc, assignWeight.
  cbn [TermWeight.is_idf TermWeight.is_pmi].
  destruct (uniform_int _ _ rgs) as [z r].
  destruct (addWordTo_counts 1 ld (set_Zs doc (<[w := z]> (Zs doc))) w
              (nth w (words doc) 0%nat) z n v Sld Hd Hv Hinv) as (T1 & O1).
  destruct (addWordTo 1 ld _ w _ z) as [ld' doc']. cbn [fst snd] in *.
  split; [exact T1|]. exact O1.
Qed.

Lemma initializeDocState_adds_counts_aux (this : Model) (doc : Doc) (g : Generator)
    (ld : State) (rgs : RANDGEN) :
  shape (K this) (realV this) ld -> totals_consistent ld ->
  let st' := initializeDocState this doc g ld rgs in
  totals_consistent (snd (fst st'))
  /\ (forall k, (k < K this)%nat ->
        wrap32 (nth k (numByTopic (snd (fst st'))) 0 - nth k (numByTopic ld) 0)
        = wrap32 (nth k (doc_numByTopic (fst (fst st'))) 0)).
Proof.
  intros Sld Hinv st'.
  assert (Hst : totals_consistent (snd (fst st'))
                /\ (forall k, (k < K this)%nat ->
                      offset (snd (fst st')) (fst (fst st')) k
                      = offset ld (prepareDoc this doc (length (words doc))) k)).
  { subst st'. unfold initializeDocState. cbn zeta.
    apply (fold_left_invariant
             (fun st => (shape (K this) (realV this) (snd (fst st))
                         /\ length (doc_numByTopic (fst (fst st))) = K this)
                        /\ totals_consistent (snd (fst st))
                        /\ (forall k, (k < K this)%nat ->
                              offset (snd (fst st)) (fst (fst st)) k
                              = offset ld (prepareDoc this doc (length (words doc))) k))).
    - intros [[d l] r] w ((S & D) & T & O). unfold initToken. cbn [fst snd] in *.
      destruct (realV this <=? nth w (words d) 0%nat)%nat eqn:E; [auto|].
      apply Nat.leb_gt in E.
      destruct (initInVocab_sizes this g
                  (countTf this (prepareDoc this doc (length (words doc)))) w
                  (K this) (realV this) d l r S D) as (S' & D' & _).
      destruct (initInVocab_counts this g
                  (countTf this (prepareDoc this doc (length (words doc)))) w
                  (K this) (realV this) d l r S D E T) as (T' & O').
      split; [split; assumption|]. split; [exact T'|].
      intros k Hk. rewrite (O' k Hk). exact (O k Hk).
    - cbn [fst snd prepareDoc doc_numByTopic]. rewrite length_replicate. auto. }
  destruct Hst as (T & O). split; [exact T|].
  intros k Hk. specialize (O k Hk). unfold offset in O.
  cbn [prepareDoc doc_numByTopic] in O.
  rewrite (nth_lookup (replicate _ _)), lookup_replicate_2 in O by exact Hk.
  cbn [default from_option id] in O. change (wzero TermWeight.one) with 0 in O.
  rewrite Z.sub_0_r in O.
  rewrite <- wrap32_sub_r, <- O, wrap32_sub_r. f_equal. lia.
Qed.

(** Under [one], with an [updateCnt] that adds: [initializeDocState]
    keeps every topic total equal to the sum of its row, and raises each
    topic total of the state by the count the document ends with. *)
Theorem initializeDocState_adds_counts (this : Model) (doc : Doc) (g : Generator)
    (ld : State) (rgs : RANDGEN) :
  shape (K this) (realV this) ld -> totals_consistent ld ->
  let st' := initializeDocState this doc g ld rgs in
  totals_consistent (snd (fst st'))
  /\ (forall k, (k < K this)%nat ->
        wrap32 (nth k (numByTopic (snd (fst st'))) 0 - nth k (numByTopic ld) 0)
        = wrap32 (nth k (doc_numByTopic (fst (fst st'))) 0)).
Proof. apply initializeDocState_adds_counts_aux. Qed.

Lemma nth_alter_if {A} (f : A -> A) (l : list A) (i k : nat) (d : A) :
  (k < length l)%nat ->
  nth k (alter f i l) d = if (k =? i)%nat then f (nth k l d) else nth k l d.
Proof.
  intros Hk. destruct (Nat.eqb_spec k i) as [->|Hne].
  - now apply nth_alter_eq.
  - apply nth_alter_ne. congruence.
Qed.

(** Changing a predicate at one index changes the count by that index. *)
Lemma filter_length_change (P P' : nat -> bool) (m w : nat) :
  (w < m)%nat -> (forall i, i <> w -> P' i = P i) ->
  Z.of_nat (length (List.filter P' (seq 0 m)))
  = Z.of_nat (length (List.filter P (seq 0 m))) - Z.b2z (P w) + Z.b2z (P' w).
Proof.
  intros Hw Hext.
  replace m with (w + S (m - w - 1))%nat by lia.
  rewrite seq_app. cbn [seq Nat.add]. rewrite !List.filter_app.
  cbn [List.filter]. rewrite !length_app.
  rewrite (filter_ext_in P' P (seq 0 w))
    by (intros i Hi; apply in_seq in Hi; apply Hext; lia).
  rewrite (filter_ext_in P' P (seq (S w) _))
    by (intros i Hi; apply in_seq in Hi; apply Hext; lia).
  destruct (P w), (P' w); cbn [length Z.b2z]; lia.
Qed.

Lemma filter_length_S (P : nat -> bool) (m : nat) :
  Z.of_nat (length (List.filter P (seq 0 (S m))))
  = Z.of_nat (length (List.filter P (seq 0 m))) + Z.b2z (P m).
Proof.
  rewrite seq_S, List.filter_app, length_app. cbn [List.filter Nat.add].
  destruct (P m); cbn [length Z.b2z]; lia.
Qed.

(** Induction along a loop over [0 .. n). *)
Lemma fold_left_seq_ind {S} (Q : nat -> S -> Prop) (step : S -> nat -> S) (n : nat) (s0 : S) :
  Q 0%nat s0 ->
  (forall m s, (m < n)%nat -> Q m s -> Q (Datatypes.S m) (step s m)) ->
  Q n (fold_left step (seq 0 n) s0).
Proof.
  intros H0' Hstep.
  assert (E : forall m, (m <= n)%nat -> Q m (fold_left step (seq 0 m) s0)).
  { induction m as [|m IH]; intros Hm; [exact H0'|].
    rewrite seq_S, fold_left_app. cbn [fold_left Nat.add].
    apply Hstep; [lia | apply IH; lia]. }
  apply E. lia.
Qed.

Lemma nth_insert_same {A} (l : list A) (w : nat) (x d : A) :
  (w < length l)%nat -> nth w (<[w := x]> l) d = x.
Proof. intros Hw. now rewrite nth_lookup, list_lookup_insert_eq by exact Hw. Qed.

Lemma assigned_to_ext (this : Model) (d d' : Doc) (k i : nat) :
  words d' = words d -> nth i (Zs d') 0%nat = nth i (Zs d) 0%nat ->
  assigned_to this d' k i = assigned_to this d k i.
Proof. intros Hw Hz. unfold assigned_to. now rewrite Hw, Hz. Qed.

Lemma resampleToken_doc (this : Model) (w : nat) (doc : Doc) (ld : State) (rgs : RANDGEN) :
  exists z,
    fst (fst (resampleToken this w (doc, ld, rgs)))
    = @Build_DocumentLDA _ TermWeight.one (words doc) (<[w := z]> (Zs doc))
        (wordWeights doc)
        (alter (bump 1) z (alter (bump (-1)) (nth w (Zs doc) 0%nat) (doc_numByTopic doc))).
Proof.
  unfold resampleToken. rewrite addWordTo_one.
  destruct (sampleFromDiscreteAcc _ rgs) as [z r]. exists z.
  rewrite addWordTo_one. reflexivity.
Qed.

Lemma resampleToken_histogram (this : Model) (w : nat) (doc : Doc) (ld : State)
    (rgs : RANDGEN) :
  (w < length (words doc))%nat -> (nth w (words doc) 0 < realV this)%nat ->
  length (Zs doc) = length (words doc) ->
  counts_match this doc ->
  counts_match this (fst (fst (resampleToken this w (doc, ld, rgs)))).
Proof.
  intros Hw Hv Hz Hm.
  destruct (resampleToken_doc this w doc ld rgs) as [z ->].
  set (d' := Build_DocumentLDA _ _ _ _).
  intros k Hk. subst d'. cbn [doc_numByTopic] in *. rewrite !length_alter in Hk.
  rewrite nth_alter_if by (rewrite length_alter; exact Hk).
  rewrite nth_alter_if by exact Hk.
  set (d' := Build_DocumentLDA _ _ _ _).
  assert (E : topic_histogram this d' k
              = topic_histogram this doc k
                - Z.b2z (nth w (Zs doc) 0 =? k)%nat + Z.b2z (z =? k)%nat).
  { unfold topic_histogram, histogram_upto.
    change (words d') with (words doc).
    rewrite (filter_length_change (assigned_to this doc k) (assigned_to this d' k)
               _ w Hw).
    - unfold assigned_to at 2 3. change (words d') with (words doc).
      change (Zs d') with (<[w := z]> (Zs doc)).
      rewrite (nth_insert_same (Zs doc) w z 0%nat) by (rewrite Hz; exact Hw).
      apply Nat.leb_gt in Hv. rewrite Hv. reflexivity.
    - intros i Hi. apply assigned_to_ext; [reflexivity|].
      apply nth_insert_ne. exact Hi. }
  rewrite E, (Hm k Hk).
  rewrite (Nat.eqb_sym z k), (Nat.eqb_sym (nth w (Zs doc) 0%nat) k).
  destruct (k =? z)%nat, (k =? nth w (Zs doc) 0)%nat; cbn [Z.b2z]; unfold bump;
    rewrite ?wrap32_add_l, <- ?Z.add_assoc, ?wrap32_add_l; f_equal; lia.
Qed.

Lemma sampleDocument_keeps_histogram_aux (this : Model) (doc : Doc) (ld : State)
    (rgs : RANDGEN) :
  length (Zs doc) = length (words doc) ->
  counts_match this doc ->
  counts_match this (fst (fst (sampleDocument this doc ld rgs))).
Proof.
  intros Hz Hm. unfold sampleDocument.
  refine (proj2 (proj2 (fold_left_seq_ind
            (fun _ st => words (fst (fst st)) = words doc
                         /\ length (Zs (fst (fst st))) = length (words doc)
                         /\ counts_match this (fst (fst st)))
            (fun st w => sampleToken this w st) (length (words doc)) (doc, ld, rgs) _ _)));
    [cbn [fst]; auto|].
  intros m [[d l] r] Hlt (Wd & Zd & Md). cbn [fst] in *.
  unfold sampleToken. cbn [fst].
  destruct (realV this <=? nth m (words d) 0%nat)%nat eqn:E; [cbn [fst]; auto|].
  apply Nat.leb_gt in E.
  destruct (resampleToken_frame this m d l r) as (Wd' & _ & Zd' & _).
  cbn zeta in Wd', Zd'.
  split; [congruence|]. split; [congruence|].
  apply resampleToken_histogram; [rewrite Wd; exact Hlt | exact E | congruence | exact Md].
Qed.

(** Under [one], with an [updateCnt] that adds: if the counts of a
    document are the histogram of the topics assigned to its
    in-vocabulary positions, they still are after [sampleDocument]. *)
Theorem sampleDocument_keeps_histogram (this : Model) (doc : Doc) (ld : State)
    (rgs : RANDGEN) :
  length (Zs doc) = length (words doc) ->
  counts_match this doc ->
  counts_match this (fst (fst (sampleDocument this doc ld rgs))).
Proof. apply sampleDocument_keeps_histogram_aux. Qed.

Lemma histogram_upto_ext (this : Model) (d d' : Doc) (m k : nat) :
  words d' = words d ->
  (forall i, (i < m)%nat -> nth i (Zs d') 0%nat = nth i (Zs d) 0%nat) ->
  histogram_upto this d' m k = histogram_upto this d m k.
Proof.
  intros Hw Hz. unfold histogram_upto. f_equal. f_equal.
  apply filter_ext_in. intros i Hi. apply in_seq in Hi.
  apply assigned_to_ext; [exact Hw | apply Hz; lia].
Qed.

Lemma initInVocab_doc (this : Model) (g : Generator) (tf : list Z) (w : nat)
    (doc : Doc) (ld : State) (rgs : RANDGEN) :
  exists z,
    fst (fst (initInVocab this g tf w (doc, ld, rgs)))
    = @Build_DocumentLDA _ TermWeight.one (words doc) (<[w := z]> (Zs doc))
        (wordWeights doc) (alter (bump 1) z (doc_numByTopic doc)).
Proof.
  unfold initInVocab, updateStateWithDoc, assignWeight.
  cbn [TermWeight.is_idf TermWeight.is_pmi].
  destruct (uniform_int _ _ rgs) as [z r]. exists z.
  rewrite addWordTo_one. reflexivity.
Qed.

Lemma initializeDocState_histogram_aux (this : Model) (doc : Doc) (g : Generator)
    (ld : State) (rgs : RANDGEN) :
  let doc' := fst (fst (initializeDocState this doc g ld rgs)) in
  length (doc_numByTopic doc') = K this
  /\ forall k, (k < K this)%nat ->
       nth k (doc_numByTopic doc') 0 = wrap32 (topic_histogram this doc' k).
Proof.
  cbn zeta. unfold initializeDocState, topic_histogram. cbn zeta.
  change (words (prepareDoc this doc (length (words doc)))) with (words doc).
  set (doc0 := prepareDoc this doc (length (words doc))).
  set (tf := countTf this doc0).
  pose (Q := fun (m : nat) (st : Doc * State * RANDGEN) =>
            words (fst (fst st)) = words doc
            /\ length (Zs (fst (fst st))) = length (words doc)
            /\ length (doc_numByTopic (fst (fst st))) = K this
            /\ forall k, (k < K this)%nat ->
                 nth k (doc_numByTopic (fst (fst st))) 0
                 = wrap32 (histogram_upto this (fst (fst st)) m k)).
  assert (HQ : Q (length (words doc))
           (fold_left (fun st i => initToken this g tf i st)
              (seq 0 (length (words doc))) (doc0, ld, rgs))).
  { apply (fold_left_seq_ind Q); unfold Q.
    - cbn [fst]. subst doc0. cbn [prepareDoc words Zs doc_numByTopic].
      rewrite !length_replicate. refine (conj _ (conj _ (conj _ _))); try reflexivity.
      intros k Hk. unfold histogram_upto. cbn [seq List.filter length].
      rewrite nth_lookup, lookup_replicate_2 by exact Hk. reflexivity.
    - intros m [[d l] r] Hlt (Wd & Zd & Cd & Hd). cbn [fst] in *.
      unfold initToken. cbn [fst].
      destruct (realV this <=? nth m (words d) 0%nat)%nat eqn:E.
      + cbn [fst]. refine (conj _ (conj _ (conj _ _))); auto. intros k Hk.
        rewrite (Hd k Hk). unfold histogram_upto. rewrite filter_length_S.
        replace (assigned_to this d k m) with false
          by (unfold assigned_to; now rewrite E).
        cbn [Z.b2z]. now rewrite Z.add_0_r.
      + destruct (initInVocab_doc this g tf m d l r) as [z ->].
        cbn [words Zs doc_numByTopic]. rewrite length_insert, length_alter.
        refine (conj _ (conj _ (conj _ _))); auto. intros k Hk.
        rewrite nth_alter_if by (rewrite Cd; exact Hk).
        set (d' := Build_DocumentLDA _ _ _ _).
        assert (E' : histogram_upto this d' (S m) k
                     = histogram_upto this d m k + Z.b2z (k =? z)%nat).
        { unfold histogram_upto at 1. rewrite filter_length_S.
          fold (histogram_upto this d' m k).
          rewrite (histogram_upto_ext this d d' m k)
            by (subst d'; cbn [words Zs];
                solve [reflexivity | intros i Hi; apply nth_insert_ne; lia]).
          f_equal. f_equal. unfold assigned_to. subst d'. cbn [words Zs]. rewrite E.
          rewrite (nth_insert_same (Zs d) m z 0%nat) by (rewrite Zd; exact Hlt).
          apply Nat.eqb_sym. }
        rewrite E', (Hd k Hk).
        destruct (k =? z)%nat; cbn [Z.b2z]; unfold bump;
          rewrite ?wrap32_add_l; f_equal; lia. }
  destruct HQ as (Wd & _ & Cd & Hd). split; [exact Cd|].
  intros k Hk. rewrite Wd. apply Hd, Hk.
Qed.

(** Under [one], with an [updateCnt] that adds: after
    [initializeDocState] the counts of the document are the histogram
    of the topics drawn for its in-vocabulary positions, whatever the
    document held before. *)
Theorem initializeDocState_histogram (this : Model) (doc : Doc) (g : Generator)
    (ld : State) (rgs : RANDGEN) :
  let doc' := fst (fst (initializeDocState this doc g ld rgs)) in
  length (doc_numByTopic doc') = K this
  /\ forall k, (k < K this)%nat ->
       nth k (doc_numByTopic doc') 0 = wrap32 (topic_histogram this doc' k).
Proof. apply initializeDocState_histogram_aux. Qed.
End CountsOne.

(** ** [DocumentLDA::update] against the counts kept by the sampler *)

Section UpdateOne.
Context `{Collaborators}.

Local Abbreviation Model := (LDAModel TermWeight.one).
Local Abbreviation Doc := (DocumentLDA TermWeight.one).

Lemma update_one (doc : Doc) (n : nat) :
  let doc' := update doc n in
  words doc' = words doc /\ Zs doc' = Zs doc /\ wordWeights doc' = wordWeights doc
  /\ length (doc_numByTopic doc') = n
  /\ forall k, (k < n)%nat ->
       nth k (doc_numByTopic doc') 0
       = wrap32 (Z.of_nat (length (List.filter (fun i => (nth i (Zs doc) 0 =? k)%nat)
                                     (seq 0 (length (Zs doc)))))).
Proof.
  cbn zeta. unfold update.
  pose (Q := fun (m : nat) (d : Doc) =>
          words d = words doc /\ Zs d = Zs doc /\ wordWeights d = wordWeights doc
          /\ length (doc_numByTopic d) = n
          /\ forall k, (k < n)%nat ->
               nth k (doc_numByTopic d) 0
               = wrap32 (Z.of_nat (length (List.filter
                                         (fun i => (nth i (Zs doc) 0 =? k)%nat)
                                         (seq 0 m))))).
  apply (fold_left_seq_ind Q); unfold Q.
  - cbn [words Zs wordWeights doc_numByTopic]. rewrite length_replicate.
    refine (conj _ (conj _ (conj _ (conj _ _)))); try reflexivity.
    intros k Hk. rewrite nth_lookup, lookup_replicate_2 by exact Hk. reflexivity.
  - intros m d Hm (Wd & Zd & Wwd & Cd & Hd).
    cbn [words Zs wordWeights doc_numByTopic]. rewrite length_alter.
    refine (conj _ (conj _ (conj _ (conj _ _)))); auto.
    intros k Hk. rewrite nth_alter_if by (rewrite Cd; exact Hk).
    rewrite filter_length_S, (Hd k Hk), Zd, (Nat.eqb_sym (nth m (Zs doc) 0%nat) k).
    destruct (k =? nth m (Zs doc) 0)%nat; cbn [Z.b2z wadd tokenWeight];
      rewrite ?wrap32_add_l; f_equal; lia.
Qed.

Lemma update_rebuilds_counts (this : Model) (doc : Doc) :
  Forall (fun w => (w < realV this)%nat) (words doc) ->
  length (Zs doc) = length (words doc) ->
  counts_match this doc ->
  update doc (length (doc_numByTopic doc)) = doc.
Proof.
  intros Hv Hz Hm.
  destruct (update_one doc (length (doc_numByTopic doc))) as (Wd & Zd & Wwd & Cd & Hd).
  destruct (update doc (length (doc_numByTopic doc))) as [w' z' ww' c'].
  destruct doc as [w z ww c]. cbn [words Zs wordWeights doc_numByTopic] in *.
  subst w' z' ww'. f_equal.
  apply (nth_ext _ _ 0 0); [exact Cd|]. intros k Hk0.
  assert (Hk : (k < length c)%nat)
    by (refine (Nat.lt_le_trans _ _ _ Hk0 _); apply Nat.eq_le_incl; exact Cd).
  refine (eq_trans (Hd k Hk) (eq_trans _ (eq_sym (Hm k Hk)))). f_equal.
  unfold topic_histogram, histogram_upto. cbn [words]. rewrite Hz. f_equal. f_equal.
  apply filter_ext_in. intros i Hi. apply in_seq in Hi.
  unfold assigned_to. cbn [words Zs].
  assert (Hi' : (nth i w 0 < realV this)%nat).
  { rewrite List.Forall_forall in Hv. apply Hv, nth_In. lia. }
  apply Nat.leb_gt in Hi'. now rewrite Hi'.
Qed.

(** Under [one]: on a model whose documents are consistent and hold no
    word outside the vocabulary, [updateDocs], and so [DocumentLDA::update]
    on each document, rebuilds exactly the counts that are there. *)
Theorem updateDocs_restores_counts (this : Model) :
  Forall (doc_consistent this (K this)) (docs this) ->
  Forall (fun doc : Doc => Forall (fun w => (w < realV this)%nat) (words doc))
    (docs this) ->
  updateDocs this = this.
Proof.
  intros Hc Hv. unfold updateDocs.
  replace (map (fun doc : Doc => update doc (K this)) (docs this)) with (docs this);
    [now destruct this|].
  induction (docs this) as [|d ds IH]; [reflexivity|].
  inversion Hc as [|? ? (Dn & Dz & Dm) Hc']; subst.
  inversion Hv as [|? ? Hd Hv']; subst.
  cbn [map]. rewrite <- (IH Hc' Hv'). f_equal.
  rewrite <- Dn. symmetry. now apply (update_rebuilds_counts this).
Qed.
End UpdateOne.

(** ** [getCountByTopic] *)

Section TopicsCount.
Context `{Collaborators} {TW : TermWeight.t}.

Lemma wrap_size_t_add_l (a b : Z) :
  wrap_size_t (wrap_size_t a + b) = wrap_size_t (a + b).
Proof. unfold wrap_size_t. apply Z.add_mod_idemp_l. lia. Qed.

Lemma countTokens_histogram (this : LDAModel TW) (doc : DocumentLDA TW)
    (cnt : list Z) (base : nat -> Z) :
  length (Zs doc) = length (words doc) ->
  (forall k, (k < length cnt)%nat -> nth k cnt 0 = wrap_size_t (base k)) ->
  let cnt' := fold_left (countToken this doc) (seq 0 (length (Zs doc))) cnt in
  length cnt' = length cnt
  /\ forall k, (k < length cnt)%nat ->
       nth k cnt' 0 = wrap_size_t (base k + topic_histogram this doc k).
Proof.
  intros Hz Hc. cbn zeta. unfold topic_histogram. rewrite <- Hz.
  pose (Q := fun (m : nat) (c : list Z) =>
          length c = length cnt
          /\ forall k, (k < length cnt)%nat ->
               nth k c 0 = wrap_size_t (base k + histogram_upto this doc m k)).
  apply (fold_left_seq_ind Q); unfold Q.
  - split; [reflexivity|]. intros k Hk. unfold histogram_upto.
    cbn [seq List.filter length Z.of_nat]. rewrite Z.add_0_r. apply Hc, Hk.
  - intros m c Hm (Lc & Hcm). unfold countToken.
    assert (E : forall k, histogram_upto this doc (S m) k
                          = histogram_upto this doc m k
                            + Z.b2z (assigned_to this doc k m))
      by (intros k; apply filter_length_S).
    unfold assigned_to in E. rewrite Nat.ltb_antisym.
    destruct (realV this <=? nth m (words doc) 0%nat)%nat; cbn [negb andb] in *.
    + split; [exact Lc|]. intros k Hk. rewrite E, (Hcm k Hk). cbn [Z.b2z].
      now rewrite Z.add_0_r.
    + rewrite length_alter. split; [exact Lc|]. intros k Hk.
      rewrite nth_alter_if by (rewrite Lc; exact Hk).
      rewrite E, (Hcm k Hk), (Nat.eqb_sym (nth m (Zs doc) 0%nat) k).
      destruct (k =? nth m (Zs doc) 0)%nat; cbn [Z.b2z].
      * rewrite wrap_size_t_add_l. f_equal. lia.
      * now rewrite Z.add_0_r.
Qed.

Lemma getCountByTopic_histogram_aux (this : LDAModel TW) :
  Forall (fun doc => length (Zs doc) = length (words doc)) (docs this) ->
  length (getCountByTopic this) = K this
  /\ forall k, (k < K this)%nat ->
       nth k (getCountByTopic this) 0
       = wrap_size_t (sumZ (map (fun doc => topic_histogram this doc k) (docs this))).
Proof.
  intros Hz. unfold getCountByTopic, _getTopicsCount.
  assert (G : forall (ds : list (DocumentLDA TW)) (cnt : list Z) (base : nat -> Z),
             Forall (fun doc => length (Zs doc) = length (words doc)) ds ->
             length cnt = K this ->
             (forall k, (k < K this)%nat -> nth k cnt 0 = wrap_size_t (base k)) ->
             let cnt' :=
               fold_left
                 (fun cnt doc =>
                    fold_left (countToken this doc) (seq 0 (length (Zs doc))) cnt)
                 ds cnt in
             length cnt' = K this
             /\ forall k, (k < K this)%nat ->
                  nth k cnt' 0
                  = wrap_size_t
                      (base k + sumZ (map (fun doc => topic_histogram this doc k) ds))).
  { induction ds as [|d ds IH]; intros cnt base Hds Lc Hc; cbn zeta.
    - split; [exact Lc|]. intros k Hk. cbn [map sumZ fold_right fold_left].
      rewrite Z.add_0_r. apply Hc, Hk.
    - inversion Hds as [|? ? Hd Hds']; subst.
      destruct (countTokens_histogram this d cnt base Hd) as (L1 & H1);
        [rewrite Lc; exact Hc|].
      rewrite Lc in L1, H1. cbn [fold_left].
      destruct (IH _ (fun k => base k + topic_histogram this d k) Hds' L1 H1)
        as (L2 & H2).
      split; [exact L2|]. intros k Hk. rewrite (H2 k Hk).
      cbn [map sumZ fold_right]. f_equal. unfold sumZ. lia. }
  destruct (G (docs this) (replicate (K this) 0) (fun _ => 0) Hz) as (L & Hk).
  - apply length_replicate.
  - intros k Hk. rewrite nth_lookup, lookup_replicate_2 by exact Hk. reflexivity.
  - split; [exact L|]. intros k Hk'. rewrite (Hk k Hk'). f_equal.
Qed.

(** [getCountByTopic] returns [K] numbers; the one for topic [k] is the
    number of in-vocabulary positions assigned to [k], summed over the
    documents and reduced modulo 2^64. *)
Theorem getCountByTopic_histogram (this : LDAModel TW) :
  Forall (fun doc => length (Zs doc) = length (words doc)) (docs this) ->
  length (getCountByTopic this) = K this
  /\ forall k, (k < K this)%nat ->
       nth k (getCountByTopic this) 0
       = wrap_size_t (sumZ (map (fun doc => topic_histogram this doc k) (docs this))).
Proof. apply getCountByTopic_histogram_aux. Qed.
End TopicsCount.

(** ** Sums of [int32_t] counts *)

Lemma wrap32_congr_add (a a' b b' : Z) :
  wrap32 a = wrap32 a' -> wrap32 b = wrap32 b' -> wrap32 (a + b) = wrap32 (a' + b').
Proof.
  intros Ha Hb.
  rewrite <- (wrap32_add_l a b), Ha, wrap32_add_l.
  rewrite <- (wrap32_add_r a' b), Hb, wrap32_add_r. reflexivity.
Qed.

Lemma wrap32_congr_sub (a a' b b' : Z) :
  wrap32 a = wrap32 a' -> wrap32 b = wrap32 b' -> wrap32 (a - b) = wrap32 (a' - b').
Proof.
  intros Ha Hb.
  rewrite <- (wrap32_sub_l a b), Ha, wrap32_sub_l.
  rewrite <- (wrap32_sub_r a' b), Hb, wrap32_sub_r. reflexivity.
Qed.

Lemma sumZ_cons (x : Z) (l : list Z) : sumZ (x :: l) = x + sumZ l.
Proof. reflexivity. Qed.

Lemma sumZ_app (l l' : list Z) : sumZ (l ++ l') = sumZ l + sumZ l'.
Proof. induction l as [|x l IH]; simpl in *; lia. Qed.

Lemma sumZ_map_add {A} (f g : A -> Z) (l : list A) :
  sumZ (map (fun x => f x + g x) l) = sumZ (map f l) + sumZ (map g l).
Proof. induction l as [|x l IH]; simpl in *; lia. Qed.

Lemma sumZ_map_sub {A} (f g : A -> Z) (l : list A) :
  sumZ (map (fun x => f x - g x) l) = sumZ (map f l) - sumZ (map g l).
Proof. induction l as [|x l IH]; simpl in *; lia. Qed.

Lemma sumZ_map_const {A} (c : Z) (l : list A) :
  sumZ (map (fun _ => c) l) = Z.of_nat (length l) * c.
Proof. induction l as [|x l IH]; simpl length; simpl map; simpl sumZ; lia. Qed.

Lemma sumZ_map_congr {A} (f g : A -> Z) (l : list A) :
  (forall x, In x l -> wrap32 (f x) = wrap32 (g x)) ->
  wrap32 (sumZ (map f l)) = wrap32 (sumZ (map g l)).
Proof.
  induction l as [|x l IH]; intros Hfg; [reflexivity|].
  cbn [map]. rewrite !sumZ_cons. apply wrap32_congr_add.
  - apply Hfg. now left.
  - apply IH. intros y Hy. apply Hfg. now right.
Qed.

Lemma sumZ_map_exchange {A} (h : A -> nat -> Z) (ls : list A) (js : list nat) :
  sumZ (map (fun j => sumZ (map (fun li => h li j) ls)) js)
  = sumZ (map (fun li => sumZ (map (h li) js)) ls).
Proof.
  induction js as [|j js IH].
  - cbn [map]. induction ls as [|li ls IHl]; [reflexivity|].
    cbn [map]. rewrite sumZ_cons, <- IHl. reflexivity.
  - cbn [map]. rewrite sumZ_cons, IH.
    rewrite <- (sumZ_map_add (fun li => h li j) (fun li => sumZ (map (h li) js))).
    reflexivity.
Qed.

Lemma sumZ_nth_seq (l : list Z) :
  sumZ l = sumZ (map (fun j => nth j l 0) (seq 0 (length l))).
Proof.
  induction l as [|x l IH] using rev_ind; [reflexivity|].
  rewrite length_app. cbn [length]. rewrite Nat.add_1_r, seq_S, map_app, !sumZ_app.
  cbn [Nat.add map]. rewrite !sumZ_cons.
  rewrite app_nth2, Nat.sub_diag by lia. cbn [nth]. f_equal.
  rewrite IH at 1. f_equal. apply map_ext_in. intros j Hj. apply in_seq in Hj.
  now rewrite app_nth1 by lia.
Qed.

Lemma sumZ_map_insert {A} (f : A -> Z) (l : list A) (i : nat) (x y : A) :
  l !! i = Some y ->
  sumZ (map f (<[i := x]> l)) = sumZ (map f l) - f y + f x.
Proof.
  revert i. induction l as [|a l IH]; intros [|i] Hi; try discriminate.
  - injection Hi as ->. simpl. lia.
  - simpl in Hi. specialize (IH i Hi). simpl in *. lia.
Qed.

(** ** The merge and the consistency of the counts *)

Section MergeTotals.
Context `{FloatOps}.

Local Abbreviation State := (ModelStateLDA TermWeight.one).

Lemma merged_entry_one_mod (g l0 : Z) (ls : list Z) :
  wrap32 (merged_entry (TW := TermWeight.one) g l0 ls)
  = wrap32 (l0 + sumZ (map (fun li => li - g) ls)).
Proof.
  destruct ls as [|x ls].
  - cbn [map]. unfold merged_entry. cbn [fold_left]. f_equal.
    change (sumZ []) with 0. lia.
  - change (merged_entry (TW := TermWeight.one) g l0 (x :: ls))
      with (merged_entry (TW := TermWeight.one) g (wrap32 (l0 + wrap32 (x - g))) ls).
    rewrite merged_entry_one by apply wrap32_in_range.
    rewrite wrap32_idem. cbn [map]. rewrite sumZ_cons, wrap32_add_l.
    replace (l0 + wrap32 (x - g) + sumZ (map (fun li => li - g) ls))
      with (wrap32 (x - g) + (l0 + sumZ (map (fun li => li - g) ls))) by lia.
    rewrite wrap32_add_l. f_equal. lia.
Qed.

Lemma mergeState_one_mod (pool : ThreadPool) (G T L0 : State) (Ls : list State)
    (n v : nat) :
  getNumWorkers pool = S (length Ls) ->
  shape n v G -> shape n v L0 -> Forall (shape n v) Ls ->
  let mg := mergeState pool G T (L0 :: Ls) in
  shape n v (fst (fst mg))
  /\ snd mg = replicate (S (length Ls)) (fst (fst mg))
  /\ (forall k, (k < n)%nat ->
        wrap32 (nth k (numByTopic (fst (fst mg))) 0)
        = wrap32 (nth k (numByTopic L0) 0
                  + sumZ (map (fun li : State =>
                                 nth k (numByTopic li) 0 - nth k (numByTopic G) 0) Ls)))
  /\ (forall k j, (k < n)%nat -> (j < v)%nat ->
        wrap32 (entry (fst (fst mg)) k j)
        = wrap32 (entry L0 k j
                  + sumZ (map (fun li : State => entry li k j - entry G k j) Ls))).
Proof.
  intros HW SG SL0 SLs mg. subst mg.
  rewrite (mergeState_unfold _ _ _ _ _ HW). cbn [fst snd].
  destruct (fold_addDelta n v G Ls L0 SG SLs SL0) as (S1 & Hv & Hm).
  change (clampState ?x) with x.
  split; [exact S1|]. split; [reflexivity|]. split.
  - intros k Hk. change (wzero TermWeight.one) with 0 in Hv. rewrite (Hv k Hk).
    rewrite merged_entry_one_mod. now rewrite map_map.
  - intros k j Hk Hj. rewrite (Hm k j Hk Hj).
    rewrite merged_entry_one_mod. now rewrite map_map.
Qed.

Lemma row_sum_entries (n v k : nat) (X : State) :
  shape n v X -> (k < n)%nat ->
  sumZ (nth k (numByTopicWord X) []) = sumZ (map (fun j => entry X k j) (seq 0 v)).
Proof.
  intros SX Hk. pose proof (shape_row n v X k SX Hk) as Hr.
  replace v with (length (nth k (numByTopicWord X) [])) by exact Hr.
  exact (sumZ_nth_seq (nth k (numByTopicWord X) [])).
Qed.

Lemma totals_consistent_rows (n v k : nat) (X : State) :
  shape n v X -> totals_consistent X -> (k < n)%nat ->
  wrap32 (sumZ (map (fun j => entry X k j) (seq 0 v)))
  = wrap32 (nth k (numByTopic X) 0).
Proof.
  intros SX HX Hk. rewrite <- (row_sum_entries n v k X SX Hk). apply HX.
  destruct SX as (Ln & _). change (length (numByTopic X) = n) in Ln.
  rewrite Ln. exact Hk.
Qed.

Lemma mergeState_keeps_totals_aux (pool : ThreadPool) (G T L0 : State) (Ls : list State)
    (n v : nat) :
  getNumWorkers pool = S (length Ls) ->
  shape n v G -> shape n v L0 -> Forall (shape n v) Ls ->
  totals_consistent G -> totals_consistent L0 -> Forall totals_consistent Ls ->
  totals_consistent (fst (fst (mergeState pool G T (L0 :: Ls)))).
Proof.
  intros HW SG SL0 SLs CG CL0 CLs.
  destruct (mergeState_one_mod pool G T L0 Ls n v HW SG SL0 SLs) as (S' & _ & Hv & Hm).
  set (G' := fst (fst (mergeState pool G T (L0 :: Ls)))) in *.
  intros k Hk0.
  assert (Hk : (k < n)%nat).
  { destruct S' as (Ln & _). change (length (numByTopic G') = n) in Ln.
    rewrite <- Ln. exact Hk0. }
  rewrite (row_sum_entries n v k G' S' Hk), (Hv k Hk).
  rewrite (sumZ_map_congr (fun j => entry G' k j)
             (fun j => entry L0 k j
                       + sumZ (map (fun li : State => entry li k j - entry G k j) Ls)))
    by (intros j Hj; apply in_seq in Hj; apply Hm; lia).
  rewrite sumZ_map_add.
  rewrite (sumZ_map_exchange (fun (li : State) j => entry li k j - entry G k j)).
  apply wrap32_congr_add; [apply (totals_consistent_rows n v k L0 SL0 CL0 Hk)|].
  apply sumZ_map_congr. intros li Hli. rewrite sumZ_map_sub.
  rewrite List.Forall_forall in SLs, CLs.
  apply wrap32_congr_sub.
  - apply (totals_consistent_rows n v k li (SLs li Hli) (CLs li Hli) Hk).
  - apply (totals_consistent_rows n v k G SG CG Hk).
Qed.

(** Under [one]: when the global state and every replica have each topic
    total equal to the sum of its row of the topic-word matrix, so has
    the state [mergeState] returns. *)
Theorem mergeState_keeps_totals (pool : ThreadPool) (G T L0 : State) (Ls : list State)
    (n v : nat) :
  getNumWorkers pool = S (length Ls) ->
  shape n v G -> shape n v L0 -> Forall (shape n v) Ls ->
  totals_consistent G -> totals_consistent L0 -> Forall totals_consistent Ls ->
  totals_consistent (fst (fst (mergeState pool G T (L0 :: Ls)))).
Proof. apply mergeState_keeps_totals_aux. Qed.
End MergeTotals.

(** ** What the optimiser and a round leave alone *)

Section OptimizerFrame.
Context `{Collaborators} {TW : TermWeight.t}.

Lemma set_alphas_twice (this : LDAModel TW) (a b : list FLOAT) :
  set_alphas (set_alphas this a) b = set_alphas this b.
Proof. reflexivity. Qed.

Lemma optimizeParameters_only_alphas (this : LDAModel TW) :
  optimizeParameters this = set_alphas this (alphas (optimizeParameters this))
  /\ length (alphas (optimizeParameters this)) = length (alphas this).
Proof.
  unfold optimizeParameters.
  apply (fold_left_invariant
           (fun m => m = set_alphas this (alphas m)
                     /\ length (alphas m) = length (alphas this)));
    [|split; [now destruct this | reflexivity]].
  intros m _ Hm. unfold optimizeIteration.
  generalize (calcDigammaSum (docSumWordWeight m) (length (docs m)) (fsum (alphas m))).
  intros denom.
  apply (fold_left_invariant
           (fun m => m = set_alphas this (alphas m)
                     /\ length (alphas m) = length (alphas this)));
    [|exact Hm].
  intros m' k [E L]. unfold optimizeTopic. cbn [set_alphas alphas].
  rewrite length_insert. split; [|exact L].
  rewrite E at 1. reflexivity.
Qed.
End OptimizerFrame.

(** ** A training round keeps the counts consistent *)

Section TrainOne.
Context `{Collaborators}.
Hypothesis Hupd : updateCnt_adds.

Local Abbreviation Model := (LDAModel TermWeight.one).
Local Abbreviation Doc := (DocumentLDA TermWeight.one).
Local Abbreviation State := (ModelStateLDA TermWeight.one).

Lemma wrap32_diff_zero (a b : Z) : wrap32 a = wrap32 b -> wrap32 (a - b) = wrap32 0.
Proof.
  intros E. rewrite (wrap32_congr_sub a b b b E eq_refl). f_equal. lia.
Qed.

Lemma merge_arith (l0 sl c1 c0 g : Z) (w : nat) :
  wrap32 (l0 + sl - c1) = wrap32 (Z.of_nat (S w) * g - c0) ->
  wrap32 g = wrap32 c0 ->
  wrap32 (l0 + (sl - Z.of_nat w * g)) = wrap32 c1.
Proof.
  intros C1 MG.
  replace (l0 + (sl - Z.of_nat w * g))
    with ((l0 + sl - c1) + (c1 - Z.of_nat w * g)) by lia.
  rewrite (wrap32_congr_add _ _ _ _ C1 eq_refl).
  replace (Z.of_nat (S w) * g - c0 + (c1 - Z.of_nat w * g))
    with ((g - c0) + c1) by lia.
  rewrite (wrap32_congr_add _ _ _ _ (wrap32_diff_zero _ _ MG) eq_refl).
  f_equal.
Qed.

Lemma sampleAt_consistent (this : Model) (n m : nat) (c : nat -> Z) (t j : nat)
    (st : round_state TermWeight.one) :
  round_consistent this n m c st -> round_consistent this n m c (sampleAt this t j st).
Proof.
  destruct st as [[ds ls] rgs]. intros RI. unfold sampleAt.
  destruct (ds !! j) as [doc|] eqn:Ej; [|exact RI].
  destruct (ls !! t) as [ld|] eqn:Et; [|exact RI].
  destruct (rgs !! t) as [r|] eqn:Er; [|exact RI].
  destruct RI as (Hds & Hm & Hls & Hc). cbn [fst snd] in *.
  pose proof (Forall_lookup_1 _ _ _ _ Hds Ej) as (Dn & Dz & Dm).
  pose proof (Forall_lookup_1 _ _ _ _ Hls Et) as (Ls & Lt).
  destruct (sampleDocument_sizes_aux this doc ld r n (realV this) Ls Dn)
    as (S1 & D1 & Z1 & W1 & _).
  destruct (sampleDocument_keeps_totals_aux Hupd this doc ld r n Ls Dn Lt) as (T1 & O1).
  pose proof (sampleDocument_keeps_histogram_aux Hupd this doc ld r Dz Dm) as M1.
  destruct (sampleDocument this doc ld r) as [[doc' ld'] r']. cbn [fst snd] in *.
  unfold round_consistent. cbn [fst snd].
  refine (conj _ (conj _ (conj _ _))).
  - apply Forall_insert; [exact Hds|]. repeat split; [exact D1 | congruence | exact M1].
  - rewrite length_insert. exact Hm.
  - apply Forall_insert; [exact Hls|]. split; assumption.
  - intros k Hk. unfold replica_sum, colsum.
    rewrite (sumZ_map_insert _ ls t ld' ld Et), (sumZ_map_insert _ ds j doc' doc Ej).
    specialize (Hc k Hk). specialize (O1 k Hk). unfold offset in O1.
    unfold replica_sum, colsum in Hc.
    match goal with
    | |- wrap32 (?a - ?x + ?x' - (?b - ?y + ?y')) = _ =>
        replace (a - x + x' - (b - y + y')) with ((a - b) + ((x' - y') - (x - y)))
          by lia
    end.
    replace (c k) with (c k + 0) by lia.
    apply wrap32_congr_add; [exact Hc|].
    apply wrap32_diff_zero. exact O1.
Qed.

Lemma round_consistent_rgs (this : Model) (n m : nat) (c : nat -> Z)
    (ds : list Doc) (ls : list State) (rgs rgs' : list RANDGEN) :
  round_consistent this n m c (ds, ls, rgs) -> round_consistent this n m c (ds, ls, rgs').
Proof. intros RI. exact RI. Qed.

Lemma sampleChunk_consistent (this : Model) (n m : nat) (c : nat -> Z)
    (chStride t ch : nat) (st : round_state TermWeight.one) :
  round_consistent this n m c st ->
  round_consistent this n m c (sampleChunk this chStride t ch st).
Proof.
  destruct st as [[ds ls] rgs]. intros RI. unfold sampleChunk.
  destruct (rgs !! t) as [r|]; [|exact RI].
  destruct (rg_next r) as [seed r'].
  apply fold_left_invariant.
  - intros st id. apply sampleAt_consistent.
  - exact (round_consistent_rgs this n m c ds ls rgs _ RI).
Qed.

Lemma sampleRound_consistent (this : Model) (pool : ThreadPool) (n m : nat)
    (c : nat -> Z) (st : round_state TermWeight.one) :
  round_consistent this n m c st ->
  round_consistent this n m c (sampleRound this pool st).
Proof.
  intros RI. unfold sampleRound. apply fold_left_invariant; [|exact RI].
  intros st' ch. apply sampleChunk_consistent.
Qed.

Lemma replica_sum_replicate (k m : nat) (G : State) :
  replica_sum k (replicate m G) = Z.of_nat m * nth k (numByTopic G) 0.
Proof.
  unfold replica_sum. induction m as [|m IH]; [reflexivity|].
  cbn [replicate map]. rewrite sumZ_cons, IH. lia.
Qed.

Lemma counts_match_realV (this this' : Model) (doc : Doc) :
  realV this' = realV this -> counts_match this doc -> counts_match this' doc.
Proof.
  intros E Hm k Hk. rewrite (Hm k Hk). unfold topic_histogram, histogram_upto, assigned_to.
  now rewrite E.
Qed.

Lemma doc_consistent_realV (this this' : Model) (n : nat) (doc : Doc) :
  realV this' = realV this -> doc_consistent this n doc -> doc_consistent this' n doc.
Proof.
  intros E (A & B & C). repeat split; auto. now apply (counts_match_realV this).
Qed.

Lemma model_consistent_alphas (this : Model) (a : list FLOAT) :
  model_consistent this -> model_consistent (set_alphas this a).
Proof. intros M. exact M. Qed.

(** Under [one], with an [updateCnt] that adds: a round started with
    every replica equal to the global state keeps the model consistent,
    whatever the number of workers and whichever worker runs which chunk,
    and ends with every replica equal to the new global state. *)
Theorem trainOne_keeps_consistency (this : Model) (pool : ThreadPool)
    (rgs : list RANDGEN) :
  (1 <= getNumWorkers pool)%nat ->
  model_consistent this ->
  let st' := trainOne this pool (replicate (getNumWorkers pool) (globalState this)) rgs in
  model_consistent (fst (fst st'))
  /\ snd (fst st')
     = replicate (getNumWorkers pool) (globalState (fst (fst st'))).
Proof.
  intros HW (SG & TG & DG & MG). cbn zeta. rewrite trainOne_unfold. cbn zeta.
  set (G := globalState this) in *.
  set (W := getNumWorkers pool) in *.
  pose (c := fun k => Z.of_nat W * nth k (numByTopic G) 0 - colsum k (docs this)).
  assert (RI : round_consistent this (K this) W c
                 (sampleRound this pool (docs this, replicate W G, rgs))).
  { apply sampleRound_consistent. unfold round_consistent. cbn [fst snd].
    refine (conj DG (conj _ (conj _ _))).
    - apply length_replicate.
    - apply Forall_replicate. split; assumption.
    - intros k Hk. rewrite replica_sum_replicate. reflexivity. }
  destruct (sampleRound this pool (docs this, replicate W G, rgs)) as [[ds1 ls1] rgs1].
  destruct RI as (D1 & L1 & S1 & C1). cbn [fst snd] in *.
  destruct ls1 as [|L0 Ls]; [cbn [length] in L1; lia|].
  cbn [length] in L1.
  assert (HWs : getNumWorkers pool = S (length Ls)) by (symmetry; exact L1).
  inversion S1 as [|? ? [SL0 TL0] SLs]; subst.
  assert (SLs' : Forall (shape (K this) (realV this)) Ls)
    by (eapply Forall_impl; [exact SLs | intros l [A _]; exact A]).
  assert (TLs' : Forall totals_consistent Ls)
    by (eapply Forall_impl; [exact SLs | intros l [_ B]; exact B]).
  destruct (mergeState_one_mod pool G (tState this) L0 Ls (K this) (realV this)
              HWs SG SL0 SLs') as (SG' & Hrep & Hv & _).
  pose proof (mergeState_keeps_totals_aux pool G (tState this) L0 Ls (K this) (realV this)
                HWs SG SL0 SLs' TG TL0 TLs') as TG'.
  set (mg := mergeState pool G (tState this) (L0 :: Ls)) in *.
  set (merged := set_round this ds1 (fst (fst mg)) (snd (fst mg))).
  assert (Mm : model_consistent merged).
  { unfold model_consistent, merged. cbn [set_round K realV globalState docs].
    refine (conj SG' (conj TG' (conj D1 _))).
    intros k Hk. rewrite (Hv k Hk).
    specialize (C1 k Hk). specialize (MG k Hk). subst c. cbn beta in C1.
    unfold replica_sum in C1. cbn [map] in C1. rewrite sumZ_cons in C1.
    rewrite sumZ_map_sub, sumZ_map_const.
    subst W. rewrite HWs in C1.
    exact (merge_arith _ _ _ _ _ _ C1 MG). }
  cbn [fst snd].
  assert (Gm : globalState merged = fst (fst mg)) by reflexivity.
  destruct (optimDue this).
  - destruct (optimizeParameters_only_alphas merged) as [E _]. rewrite E.
    split; [apply model_consistent_alphas, Mm|].
    cbn [set_alphas globalState]. rewrite Gm, Hrep. subst W. now rewrite HWs.
  - split; [exact Mm|]. rewrite Gm, Hrep. subst W. now rewrite HWs.
Qed.
End TrainOne.

(** ** [prepare] makes the counts consistent *)

Section PrepareOne.
Context `{Collaborators}.
Hypothesis Hupd : updateCnt_adds.

Local Abbreviation Model := (LDAModel TermWeight.one).
Local Abbreviation Doc := (DocumentLDA TermWeight.one).
Local Abbreviation State := (ModelStateLDA TermWeight.one).

Variable removeStopwords : Model -> Z -> Z -> Model.
Variable updateWeakArray : Model -> Model.
Variable vocabFrequencies : Model -> list Z.

Lemma colsum_snoc (k : nat) (ds : list Doc) (d : Doc) :
  colsum k (ds ++ [d]) = colsum k ds + nth k (doc_numByTopic d) 0.
Proof.
  unfold colsum. rewrite map_app, sumZ_app. cbn [map]. rewrite sumZ_cons.
  change (sumZ []) with 0. lia.
Qed.

Lemma wrap32_sum_step (a a' s d : Z) :
  wrap32 (a' - a) = wrap32 d -> wrap32 a = wrap32 s -> wrap32 a' = wrap32 (s + d).
Proof.
  intros Hd Hs. replace a' with (a + (a' - a)) by lia.
  now apply wrap32_congr_add.
Qed.

Lemma initializeDoc_consistent (ref : Model) (g : Generator) (N m : nat) (M : Model) :
  (m < N)%nat ->
  (K M = K ref /\ realV M = realV ref /\ length (docs M) = N
   /\ shape (K ref) (realV ref) (globalState M)
   /\ totals_consistent (globalState M)
   /\ Forall (doc_consistent ref (K ref)) (take m (docs M))
   /\ global_matches_docs (K ref) (globalState M) (take m (docs M))) ->
  let M' := initializeDoc g M m in
  K M' = K ref /\ realV M' = realV ref /\ length (docs M') = N
  /\ shape (K ref) (realV ref) (globalState M')
  /\ totals_consistent (globalState M')
  /\ Forall (doc_consistent ref (K ref)) (take (S m) (docs M'))
  /\ global_matches_docs (K ref) (globalState M') (take (S m) (docs M')).
Proof.
  intros Hm (HK & HV & HN & SG & TG & DG & MG). cbn zeta. unfold initializeDoc.
  destruct (lookup_lt_is_Some_2 (docs M) m) as [doc Hdoc]; [lia|]. rewrite Hdoc.
  rewrite <- HK, <- HV in SG.
  destruct (initializeDocState_sizes_aux M doc g (globalState M) (rg M) (realV M) SG)
    as (S1 & C1 & Z1 & W1).
  destruct (initializeDocState_adds_counts_aux Hupd M doc g (globalState M) (rg M) SG TG)
    as (T1 & A1).
  destruct (initializeDocState_histogram_aux Hupd M doc g (globalState M) (rg M))
    as (_ & H1).
  destruct (initializeDocState M doc g (globalState M) (rg M)) as [[doc' ld'] r'].
  cbn [fst snd K realV docs globalState] in *.
  rewrite length_insert.
  assert (Et : take (S m) (<[m := doc']> (docs M)) = take m (docs M) ++ [doc']).
  { rewrite (take_S_r _ m doc') by (apply list_lookup_insert_eq; lia).
    now rewrite take_insert_ge by lia. }
  rewrite Et. rewrite HK, HV in S1.
  refine (conj HK (conj HV (conj HN (conj S1 (conj T1 (conj _ _)))))).
  - apply Forall_app. split; [exact DG|]. constructor; [|constructor].
    apply (doc_consistent_realV M ref); [symmetry; exact HV|].
    split; [congruence|]. split; [congruence|].
    intros k Hk. apply H1. rewrite <- C1. exact Hk.
  - intros k Hk. rewrite colsum_snoc.
    apply (wrap32_sum_step (nth k (numByTopic (globalState M)) 0)).
    + apply A1. rewrite HK. exact Hk.
    + apply MG, Hk.
Qed.

(** Under [one], with an [updateCnt] that adds: whatever the base class
    does in [removeStopwords] and [updateWeakArray], the model [prepare]
    leaves when it initialises the documents is consistent. *)
Theorem prepare_establishes_consistency (this : Model) (minWordCnt removeTopN : Z) :
  model_consistent
    (prepare removeStopwords updateWeakArray vocabFrequencies this true
       minWordCnt removeTopN).
Proof.
  unfold prepare. cbn zeta.
  set (this2 := updateWeakArray (removeStopwords this minWordCnt removeTopN)).
  set (this4 := set_vocabWeights _ _).
  pose (Q := fun (m : nat) (M : Model) =>
          K M = K this4 /\ realV M = realV this4
          /\ length (docs M) = length (docs this4)
          /\ shape (K this4) (realV this4) (globalState M)
          /\ totals_consistent (globalState M)
          /\ Forall (doc_consistent this4 (K this4)) (take m (docs M))
          /\ global_matches_docs (K this4) (globalState M) (take m (docs M))).
  assert (HQ : Q (length (docs this4))
                 (fold_left (initializeDoc (makeGeneratorForInit this4))
                    (seq 0 (length (docs this4))) this4)).
  { apply (fold_left_seq_ind Q); unfold Q.
    - refine (conj eq_refl (conj eq_refl (conj eq_refl _))).
      subst this4. cbn [set_vocabWeights initGlobalState set_round globalState K realV docs
                          numByTopic numByTopicWord].
      refine (conj _ (conj _ (conj _ _))).
      + unfold shape. cbn [numByTopic numByTopicWord]. rewrite !length_replicate.
        refine (conj eq_refl (conj eq_refl _)). apply Forall_replicate.
        apply length_replicate.
      + intros k Hk. cbn [numByTopic numByTopicWord] in *.
        rewrite length_replicate in Hk.
        rewrite !nth_lookup, !lookup_replicate_2 by exact Hk.
        cbn [default from_option id]. f_equal.
        clear. induction (realV this2) as [|v IH]; [reflexivity|].
        cbn [replicate]. rewrite sumZ_cons, IH. reflexivity.
      + cbn [take]. constructor.
      + intros k Hk. cbn [take numByTopic]. 
        rewrite nth_lookup, lookup_replicate_2 by exact Hk. reflexivity.
    - intros m M Hm HM. apply initializeDoc_consistent; assumption. }
  revert HQ. generalize (fold_left (initializeDoc (makeGeneratorForInit this4))
                           (seq 0 (length (docs this4))) this4).
  intros Mf (HK & HV & HN & SG & TG & DG & MG).
  rewrite <- HN, firstn_all in DG, MG.
  unfold model_consistent. rewrite HK, HV.
  refine (conj SG (conj TG (conj _ MG))).
  eapply Forall_impl; [exact DG|]. intros d Hd.
  apply (doc_consistent_realV this4); [exact HV | exact Hd].
Qed.
End PrepareOne.

(** ** Taking a token out and putting it back *)

Section RoundTrip.
Context `{Collaborators}.
Hypothesis Hupd : updateCnt_adds.

Local Abbreviation Doc := (DocumentLDA TermWeight.one).
Local Abbreviation State := (ModelStateLDA TermWeight.one).

Lemma alter_restore {A} (f g : A -> A) (l : list A) (i : nat) :
  (forall x, l !! i = Some x -> f (g x) = x) -> alter f i (alter g i l) = l.
Proof.
  intros Hfg. rewrite list_alter_alter_eq.
  rewrite (list_alter_ext (f ∘ g) (fun x => x) l l i); [|exact Hfg | reflexivity].
  now apply list_alter_id.
Qed.

Lemma bump_restore (x : Z) : int32_range x -> bump 1 (bump (-1) x) = x.
Proof.
  intros Hx. unfold bump. rewrite wrap32_add_l.
  replace (x + -1 + 1) with x by lia. now apply wrap32_range.
Qed.

(** Under [one], with an [updateCnt] that adds: [addWordTo<-1>] followed
    by [addWordTo<1>] for the same token and topic gives back the state
    and the document, whatever the indices. *)
Theorem addWordTo_round_trip (ld : State) (doc : Doc) (pid vid tid : nat) :
  int32_state ld -> Forall int32_range (doc_numByTopic doc) ->
  let r := addWordTo (-1) ld doc pid vid tid in
  addWordTo 1 (fst r) (snd r) pid vid tid = (ld, doc).
Proof.
  intros [Rv Rm] Rd. cbn zeta. rewrite !(addWordTo_one Hupd).
  cbn [fst snd zLikelihood numByTopic numByTopicWord words Zs wordWeights doc_numByTopic].
  destruct ld as [zl nbt nbtw], doc as [w z ww c].
  cbn [zLikelihood numByTopic numByTopicWord words Zs wordWeights doc_numByTopic] in *.
  f_equal; f_equal.
  - apply alter_restore. intros x Hx. apply bump_restore.
    exact (Forall_lookup_1 _ _ _ _ Rv Hx).
  - apply alter_restore. intros row Hrow. apply alter_restore.
    intros x Hx. apply bump_restore.
    exact (Forall_lookup_1 _ _ _ _ (Forall_lookup_1 _ _ _ _ Rm Hrow) Hx).
  - apply alter_restore. intros x Hx. apply bump_restore.
    exact (Forall_lookup_1 _ _ _ _ Rd Hx).
Qed.
End RoundTrip.

(** ** What a round never writes *)

Section RoundFrame.
Context `{Collaborators} {TW : TermWeight.t}.
Implicit Types (this : LDAModel TW) (doc : DocumentLDA TW) (ld : ModelStateLDA TW).

Lemma sampleDocument_words this doc ld (rgs : RANDGEN) :
  words (fst (fst (sampleDocument this doc ld rgs))) = words doc
  /\ wordWeights (fst (fst (sampleDocument this doc ld rgs))) = wordWeights doc.
Proof.
  unfold sampleDocument.
  apply (fold_left_invariant
           (fun st => words (fst (fst st)) = words doc
                      /\ wordWeights (fst (fst st)) = wordWeights doc));
    [|split; reflexivity].
  intros [[d l] r] w [Hw Hww]. unfold sampleToken. cbn [fst] in *.
  destruct (realV this <=? nth w (words d) 0%nat)%nat; [cbn [fst]; auto|].
  destruct (resampleToken_frame this w d l r) as (Wd & Wwd & _). cbn zeta in Wd, Wwd.
  split; congruence.
Qed.

Lemma insert_same_image {A B} (f : A -> B) (l : list A) (i : nat) (x y : A) :
  l !! i = Some y -> f x = f y -> map f (<[i := x]> l) = map f l.
Proof.
  intros Hy Hf. change (f <$> <[i := x]> l = f <$> l).
  rewrite list_fmap_insert, Hf. apply list_insert_id.
  now rewrite list_lookup_fmap, Hy.
Qed.

Lemma sampleRound_words this (pool : ThreadPool) (st : round_state TW) :
  map words (fst (fst (sampleRound this pool st))) = map words (fst (fst st))
  /\ map wordWeights (fst (fst (sampleRound this pool st)))
     = map wordWeights (fst (fst st)).
Proof.
  pose (P := fun s : round_state TW =>
          map words (fst (fst s)) = map words (fst (fst st))
          /\ map wordWeights (fst (fst s)) = map wordWeights (fst (fst st))).
  assert (Hat : forall t j s, P s -> P (sampleAt this t j s)).
  { intros t j [[ds ls] rgs] [Pw Pww]. unfold sampleAt, P in *. cbn [fst] in *.
    destruct (ds !! j) as [doc|] eqn:Ej; [|split; assumption].
    destruct (ls !! t) as [ld|]; [|split; assumption].
    destruct (rgs !! t) as [r|]; [|split; assumption].
    destruct (sampleDocument_words this doc ld r) as [Ew Eww].
    destruct (sampleDocument this doc ld r) as [[doc' ld'] r']. cbn [fst] in *.
    rewrite (insert_same_image words ds j doc' doc Ej Ew).
    rewrite (insert_same_image wordWeights ds j doc' doc Ej Eww).
    split; assumption. }
  change (P (sampleRound this pool st)). unfold sampleRound.
  apply fold_left_invariant; [|split; reflexivity].
  intros [[ds ls] rgs] ch Ps. unfold sampleChunk.
  destruct (rgs !! workerOf pool ch) as [r|]; [|exact Ps].
  destruct (rg_next r) as [seed r'].
  apply fold_left_invariant; [|exact Ps].
  intros s id. apply Hat.
Qed.

(** [trainOne] writes the assignments and the counts of the documents,
    the global state, [tState] (which receives the global state of
    before the round) and possibly [alphas]; it leaves everything else:
    the words and the weights of the documents, the sizes, the
    hyperparameters [alpha] and [eta], the schedule, the count of rounds
    and the generator of the model. *)
Theorem trainOne_frame this (pool : ThreadPool) (localData : list (ModelStateLDA TW))
    (rgs : list RANDGEN) :
  let this' := fst (fst (trainOne this pool localData rgs)) in
  map words (docs this') = map words (docs this)
  /\ map wordWeights (docs this') = map wordWeights (docs this)
  /\ tState this' = globalState this
  /\ length (alphas this') = length (alphas this)
  /\ K this' = K this /\ realV this' = realV this
  /\ alpha this' = alpha this /\ eta this' = eta this
  /\ vocabWeights this' = vocabWeights this
  /\ optimInterval this' = optimInterval this /\ burnIn this' = burnIn this
  /\ iterated this' = iterated this /\ rg this' = rg this.
Proof.
  cbn zeta. rewrite trainOne_unfold. cbn zeta. cbn [fst snd].
  destruct (sampleRound_words this pool (docs this, localData, rgs)) as [Ew Eww].
  cbn [fst] in Ew, Eww.
  set (st := sampleRound this pool (docs this, localData, rgs)) in *.
  set (mg := mergeState pool (globalState this) (tState this) (snd (fst st))).
  assert (Et : snd (fst mg) = globalState this) by reflexivity.
  set (merged := set_round this (fst (fst st)) (fst (fst mg)) (snd (fst mg))).
  destruct (optimDue this).
  - destruct (optimizeParameters_only_alphas merged) as [E L]. rewrite E.
    cbn [set_alphas set_round merged docs tState alphas K realV alpha eta vocabWeights
           optimInterval burnIn iterated rg].
    rewrite L. repeat split; assumption.
  - cbn [set_round merged docs tState alphas K realV alpha eta vocabWeights
           optimInterval burnIn iterated rg].
    repeat split; assumption.
Qed.

(** [setOptimInterval(0)] switches the optimiser off, and
    [setBurnInIteration(b)] keeps it off while fewer than [b] rounds are
    completed: the round that follows leaves [alphas] as they are. *)
Theorem schedule_setters_hold_alphas this (pool : ThreadPool)
    (localData : list (ModelStateLDA TW)) (rgs : list RANDGEN) (b : Z) :
  alphas (fst (fst (trainOne (setOptimInterval this 0) pool localData rgs)))
  = alphas this
  /\ (iterated this < b ->
      alphas (fst (fst (trainOne (setBurnInIteration this b) pool localData rgs)))
      = alphas this).
Proof.
  split.
  - rewrite trainOne_unfold. cbn zeta.
    rewrite optimDue_disabled by reflexivity. reflexivity.
  - intros Hb. rewrite trainOne_unfold. cbn zeta.
    replace (optimDue (setBurnInIteration this b)) with false; [reflexivity|].
    unfold optimDue. cbn [setBurnInIteration burnIn iterated].
    symmetry. replace (b <=? iterated this) with false; [reflexivity|].
    symmetry. apply Z.leb_gt. exact Hb.
Qed.
End RoundFrame.

(** ** Scoring held-out documents one by one *)

Section InferSeparately.
Context `{Collaborators} {TW : TermWeight.t}.
Implicit Types (this : LDAModel TW) (d : DocumentLDA TW) (s : InferState TW).

Lemma inferOne_alone this d (maxIter : nat) (pool : ThreadPool) :
  exists d2 ll,
    _infer false this [d] maxIter pool = (this, [d2], [ll])
    /\ forall s j, self s = this -> heldOut s !! j = Some d ->
         let s' := inferOne maxIter (getLLRest this (globalState this))
                     (makeGeneratorForInit this) s j in
         self s' = this /\ heldOut s' = <[j := d2]> (heldOut s)
         /\ results s' = results s ++ [ll].
Proof.
  destruct (initializeDocState this d (makeGeneratorForInit this) (globalState this)
              default_RANDGEN) as [[d1 tmp1] rgc1] eqn:E1.
  destruct (fold_left
              (fun st _ => let '(d0, tmp, r) := st in sampleDocument this d0 tmp r)
              (seq 0 maxIter) (d1, tmp1, rgc1)) as [[d2 tmp2] rgc2] eqn:E2.
  exists d2.
  exists (dadd (dsub (getLLRest this tmp2) (getLLRest this (globalState this)))
               (getLLDocs this [d2])).
  assert (Hstep : forall s j, self s = this -> heldOut s !! j = Some d ->
            let s' := inferOne maxIter (getLLRest this (globalState this))
                        (makeGeneratorForInit this) s j in
            self s' = this /\ heldOut s' = <[j := d2]> (heldOut s)
            /\ results s' = results s
                  ++ [dadd (dsub (getLLRest this tmp2)
                                 (getLLRest this (globalState this)))
                           (getLLDocs this [d2])]).
  { intros s j Hs Hj. cbn zeta. unfold inferOne. rewrite Hj, Hs, E1, E2.
    cbn [self heldOut results]. auto. }
  split; [|exact Hstep].
  unfold _infer, inferSeparately. cbn [self heldOut length seq fold_left].
  match goal with |- context [inferOne _ _ _ ?x 0%nat] => set (s0 := x) end.
  destruct (Hstep s0 0%nat eq_refl eq_refl) as (A & B & C).
  rewrite A, B, C. reflexivity.
Qed.

Lemma flat_map_singletons {A B} (f : A -> list B) (l : list A) :
  (forall x, length (f x) = 1%nat) -> length (flat_map f l) = length l.
Proof.
  intros Hf. induction l as [|x l IH]; [reflexivity|].
  cbn [flat_map]. rewrite length_app, Hf, IH. reflexivity.
Qed.

(** In the independent mode the documents do not influence each other
    and the pool plays no part: [_infer] returns, in order, what it
    returns for each document scored alone, so one log-likelihood per
    document. *)
Theorem infer_separately_pointwise this (ds : list (DocumentLDA TW)) (maxIter : nat)
    (pool pool' : ThreadPool) :
  let r := _infer false this ds maxIter pool in
  snd (fst r) = flat_map (fun d => snd (fst (_infer false this [d] maxIter pool'))) ds
  /\ snd r = flat_map (fun d => snd (_infer false this [d] maxIter pool')) ds
  /\ length (snd r) = length ds.
Proof.
  cbn zeta.
  set (D := fun d => snd (fst (_infer false this [d] maxIter pool'))).
  set (R := fun d => snd (_infer false this [d] maxIter pool')).
  assert (LD : forall d, length (D d) = 1%nat).
  { intros d. unfold D.
    destruct (inferOne_alone this d maxIter pool') as (d2 & ll & E & _).
    now rewrite E. }
  assert (LR : forall d, length (R d) = 1%nat).
  { intros d. unfold R.
    destruct (inferOne_alone this d maxIter pool') as (d2 & ll & E & _).
    now rewrite E. }
  unfold _infer at 1 2 3. cbn [fst snd]. unfold inferSeparately. cbn [self heldOut].
  match goal with |- context [fold_left _ _ ?x] => set (s0 := x) end.
  pose (Q := fun (m : nat) s =>
          self s = this
          /\ heldOut s = flat_map D (take m ds) ++ drop m ds
          /\ results s = flat_map R (take m ds)).
  assert (HQ : Q (length ds)
                 (fold_left (inferOne maxIter (getLLRest this (globalState this))
                               (makeGeneratorForInit this))
                    (seq 0 (length ds)) s0)).
  { apply (fold_left_seq_ind Q); unfold Q.
    - subst s0. cbn [self heldOut results take drop flat_map app]. auto.
    - intros m s Hm (Hs & Hh & Hr).
      destruct (lookup_lt_is_Some_2 ds m Hm) as [d Hd].
      assert (Lm : length (flat_map D (take m ds)) = m).
      { rewrite (flat_map_singletons D _ LD), length_take. lia. }
      assert (Hj : heldOut s !! m = Some d).
      { rewrite Hh, lookup_app_r by lia. rewrite Lm, Nat.sub_diag, lookup_drop.
        now rewrite Nat.add_0_r. }
      destruct (inferOne_alone this d maxIter pool') as (d2 & ll & E & Hstep).
      destruct (Hstep s m Hs Hj) as (Hs' & Hh' & Hr').
      rewrite (take_S_r ds m d Hd), !flat_map_app. cbn [flat_map].
      unfold D at 2, R at 2. rewrite E. cbn [fst snd app].
      refine (conj Hs' (conj _ _)).
      + rewrite Hh', Hh, insert_app_r_alt by lia. rewrite Lm, Nat.sub_diag.
        rewrite (drop_S ds d m Hd). cbn [insert list_insert]. 
        now rewrite <- app_assoc.
      + rewrite Hr', Hr. reflexivity. }
  destruct HQ as (_ & Hh & Hr).
  rewrite firstn_all, drop_all, app_nil_r in Hh. rewrite firstn_all in Hr.
  refine (conj Hh (conj Hr _)). rewrite Hr. apply flat_map_singletons, LR.
Qed.
End InferSeparately.

(** ** The document frequencies of [prepare] *)

Section DocumentFrequencies.
Context `{Collaborators} {TW : TermWeight.t}.

Lemma existsb_eqb_In (w : nat) (ws : list nat) :
  existsb (Nat.eqb w) ws = true <-> In w ws.
Proof.
  rewrite existsb_exists. split.
  - intros (x & Hx & E). apply Nat.eqb_eq in E. now subst.
  - intros Hw. exists w. split; [exact Hw | apply Nat.eqb_refl].
Qed.

Lemma existsb_eqb_remove_dups (w : nat) (ws : list nat) :
  existsb (Nat.eqb w) (remove_dups ws) = existsb (Nat.eqb w) ws.
Proof.
  apply eq_true_iff_eq. rewrite !existsb_eqb_In, <- !list_elem_of_In.
  apply elem_of_remove_dups.
Qed.

Lemma countDf_document (V w : nat) (ws : list nat) (df : list Z) (c : Z) :
  NoDup ws -> (w < V)%nat -> length df = V -> nth w df 0 = c mod 2 ^ 32 ->
  let df' :=
    fold_left
      (fun df x => if (V <=? x)%nat then df else alter (fun c => (c + 1) mod 2 ^ 32) x df)
      ws df in
  length df' = V
  /\ nth w df' 0 = (c + Z.b2z (existsb (Nat.eqb w) ws)) mod 2 ^ 32.
Proof.
  intros Hnd Hw. revert df c. induction Hnd as [|x ws Hx Hnd IH]; intros df c Ldf Hc.
  - cbn [fold_left existsb Z.b2z]. rewrite Z.add_0_r. auto.
  - cbn [fold_left existsb]. destruct (Nat.eqb_spec w x) as [<-|Hne].
    + apply Nat.leb_gt in Hw. rewrite Hw. apply Nat.leb_gt in Hw.
      assert (Hf : existsb (Nat.eqb w) ws = false).
      { destruct (existsb (Nat.eqb w) ws) eqn:E; [|reflexivity].
        apply existsb_eqb_In, list_elem_of_In in E. contradiction. }
      destruct (IH (alter (fun c => (c + 1) mod 2 ^ 32) w df) (c + 1)) as [L' E'].
      * now rewrite length_alter.
      * rewrite nth_alter_eq by lia. rewrite Hc. apply Z.add_mod_idemp_l. lia.
      * split; [exact L'|]. rewrite E', Hf. cbn [orb Z.b2z]. f_equal. lia.
    + cbn [orb]. apply IH.
      * destruct (V <=? x)%nat; [exact Ldf | now rewrite length_alter].
      * destruct (V <=? x)%nat; [exact Hc|].
        rewrite nth_alter_ne by congruence. exact Hc.
Qed.

(** The loop of [prepare] that fills [df] counts, for every word of the
    vocabulary, the documents in which the word occurs, each document
    once, as a [uint32_t]. *)
Theorem countDf_counts_documents (this : LDAModel TW) (w : nat) :
  (w < realV this)%nat ->
  length (countDf this) = realV this
  /\ nth w (countDf this) 0
     = Z.of_nat (length (List.filter (fun doc => existsb (Nat.eqb w) (words doc))
                           (docs this))) mod 2 ^ 32.
Proof.
  intros Hw. unfold countDf.
  assert (G : forall (ds : list (DocumentLDA TW)) (df : list Z) (c : Z),
             length df = realV this -> nth w df 0 = c mod 2 ^ 32 ->
             let df' :=
               fold_left
                 (fun df doc =>
                    fold_left
                      (fun df x =>
                         if (realV this <=? x)%nat then df
                         else alter (fun c => (c + 1) mod 2 ^ 32) x df)
                      (remove_dups (words doc)) df)
                 ds df in
             length df' = realV this
             /\ nth w df' 0
                = (c + Z.of_nat (length (List.filter
                                           (fun doc => existsb (Nat.eqb w) (words doc))
                                           ds))) mod 2 ^ 32).
  { induction ds as [|d ds IH]; intros df c Ldf Hc; cbn zeta.
    - cbn [fold_left List.filter length Z.of_nat]. rewrite Z.add_0_r. auto.
    - cbn [fold_left List.filter].
      destruct (countDf_document (realV this) w (remove_dups (words d)) df c
                  (NoDup_remove_dups _) Hw Ldf Hc) as [L1 E1].
      rewrite existsb_eqb_remove_dups in E1.
      destruct (IH _ _ L1 E1) as [L2 E2]. split; [exact L2|].
      rewrite E2. f_equal.
      destruct (existsb (Nat.eqb w) (words d)); cbn [Z.b2z length]; lia. }
  destruct (G (docs this) (replicate (realV this) 0) 0) as [L E].
  - apply length_replicate.
  - rewrite nth_lookup, lookup_replicate_2 by exact Hw. reflexivity.
  - split; [exact L|]. rewrite E. f_equal.
Qed.
End DocumentFrequencies.

(** ** A round on an empty corpus *)

Section EmptyCorpus.
Context `{Collaborators}.

Local Abbreviation Model := (LDAModel TermWeight.one).
Local Abbreviation State := (ModelStateLDA TermWeight.one).

(** Under [one]: with no document, a round started from [W >= 1] copies
    of the global state samples nothing and merges back exactly that
    state: the global state, the replicas and the generators are those
    of before the round, and the model still has no document. *)
Theorem trainOne_without_documents (this : Model) (pool : ThreadPool)
    (rgs : list RANDGEN) (m n v : nat) :
  docs this = [] -> getNumWorkers pool = S m ->
  shape n v (globalState this) -> int32_state (globalState this) ->
  let st' := trainOne this pool (replicate (S m) (globalState this)) rgs in
  docs (fst (fst st')) = []
  /\ globalState (fst (fst st')) = globalState this
  /\ snd (fst st') = replicate (S m) (globalState this)
  /\ snd st' = rgs.
Proof.
  intros Hd HW SG RG. cbn zeta. rewrite trainOne_unfold. cbn zeta.
  assert (Er : sampleRound this pool (docs this, replicate (S m) (globalState this), rgs)
               = ([], replicate (S m) (globalState this), rgs)).
  { unfold sampleRound. cbn [fst]. rewrite Hd. cbn [length].
    rewrite Nat.min_0_r. reflexivity. }
  rewrite Er. cbn [fst snd].
  rewrite (mergeState_of_unchanged_replicas_aux pool (globalState this) (tState this)
             m n v HW SG RG).
  cbn [fst snd].
  destruct (optimDue this).
  - destruct (optimizeParameters_only_alphas
                (set_round this [] (globalState this) (globalState this))) as [E _].
    rewrite E. cbn [set_alphas set_round docs globalState]. auto.
  - cbn [set_round docs globalState]. auto.
Qed.
End EmptyCorpus.

(** ** [getCountByTopic] against the global state *)

Section CountByTopicGlobal.
Context `{Collaborators}.

Local Abbreviation Model := (LDAModel TermWeight.one).
Local Abbreviation Doc := (DocumentLDA TermWeight.one).

Lemma wrap32_mod64 (z : Z) : wrap32 (wrap_size_t z) = wrap32 z.
Proof.
  unfold wrap32, wrap_size_t. f_equal.
  rewrite (Z.mod_eq z (2 ^ 64)) by lia.
  replace (z - 2 ^ 64 * (z / 2 ^ 64) + 2 ^ 31)
    with (z + 2 ^ 31 + (- (z / 2 ^ 64) * 2 ^ 32) * 2 ^ 32) by lia.
  apply Z.mod_add. lia.
Qed.

(** Under [one]: on a consistent model the numbers [getCountByTopic]
    returns agree with the topic totals of the global state, as
    [int32_t] values. *)
Theorem getCountByTopic_matches_global (this : Model) (k : nat) :
  model_consistent this -> (k < K this)%nat ->
  wrap32 (nth k (getCountByTopic this) 0)
  = wrap32 (nth k (numByTopic (globalState this)) 0).
Proof.
  intros (SG & TG & DG & MG) Hk.
  destruct (getCountByTopic_histogram_aux this) as [_ Hc].
  { eapply Forall_impl; [exact DG|]. intros d (_ & Hz & _). exact Hz. }
  rewrite (Hc k Hk), wrap32_mod64, (MG k Hk). unfold colsum.
  apply sumZ_map_congr. intros d Hd.
  rewrite List.Forall_forall in DG. destruct (DG d Hd) as (Dn & _ & Dm).
  rewrite (Dm k) by (rewrite Dn; exact Hk). now rewrite wrap32_idem.
Qed.
End CountByTopicGlobal.

(** ** Scoring held-out documents jointly *)

Section InferTogether.
Context `{Collaborators} {TW : TermWeight.t}.
Implicit Types (this : LDAModel TW) (s : InferState TW).

Lemma inferInit_words (g : Generator) s (j : nat) :
  map words (heldOut (inferInit g s j)) = map words (heldOut s).
Proof.
  unfold inferInit. destruct (heldOut s !! j) as [d|] eqn:Ej; [|reflexivity].
  pose proof (initializeDocState_words (self s) d g (tmpState s) (rgc s)) as Ew.
  destruct (initializeDocState (self s) d g (tmpState s) (rgc s)) as [[d' tmp'] rgc'].
  cbn [fst heldOut] in *. exact (insert_same_image words (heldOut s) j d' d Ej Ew).
Qed.

Lemma inferRound_words (pool : ThreadPool) s :
  map words (heldOut (inferRound pool s)) = map words (heldOut s).
Proof.
  unfold inferRound.
  destruct (sampleRound_words (self s) pool (heldOut s, localDataL s, rgsL s)) as [Ew _].
  destruct (sampleRound (self s) pool (heldOut s, localDataL s, rgsL s))
    as [[ds l1] r1].
  destruct (mergeState pool (tmpState s) (tStateL s) l1) as [[g t] l2].
  exact Ew.
Qed.

(** In the joint mode [_infer] returns a single log-likelihood for the
    whole batch, whatever the number of documents, of iterations and of
    workers, and hands the documents back with their words unchanged. *)
Theorem infer_together_sizes this (ds : list (DocumentLDA TW)) (maxIter : nat)
    (pool : ThreadPool) :
  let r := _infer true this ds maxIter pool in
  length (snd r) = 1%nat /\ map words (snd (fst r)) = map words ds.
Proof.
  cbn zeta. unfold _infer. cbn [fst snd]. unfold inferTogether. cbn zeta.
  match goal with |- context [make_rgs ?n ?r] => destruct (make_rgs n r) as [rgs rgc'] end.
  cbn [results heldOut self tmpState tStateL localDataL rgc rgsL].
  split; [reflexivity|].
  match goal with
  | |- map words (heldOut (fold_left _ _ ?s3)) = _ =>
      transitivity (map words (heldOut s3))
  end.
  - apply (fold_left_invariant
             (fun x => map words (heldOut x) = map words (heldOut _))); [|reflexivity].
    intros x b Hx. now rewrite inferRound_words.
  - cbn [heldOut].
    apply (fold_left_invariant (fun x => map words (heldOut x) = map words ds));
      [|reflexivity].
    intros x b Hx. now rewrite inferInit_words.
Qed.
End InferTogether.

(** ** The statements of this part at concrete inputs *)

Lemma addWordTo_frame_witness :
  shape 2 2 SampleV.state2
  /\ length (doc_numByTopic SampleV.doc2) = 2%nat
  /\ shape 2 2
       (fst (addWordTo (H0 := Binary32.binary32_collaborators) 1
               SampleV.state2 SampleV.doc2 0 0 0)).
Proof.
  assert (H1 : shape 2 2 SampleV.state2) by (repeat split; repeat constructor).
  assert (H2 : length (doc_numByTopic SampleV.doc2) = 2%nat) by reflexivity.
  split; [exact H1|]. split; [exact H2|].
  exact (proj1 (addWordTo_frame (H0 := Binary32.binary32_collaborators) 1
                  SampleV.state2 SampleV.doc2 0 0 0 2 2 H1 H2)).
Defined.

Lemma sampleDocument_sizes_witness :
  shape 2 2 SampleV.state2
  /\ length (doc_numByTopic SampleV.doc2) = 2%nat
  /\ shape 2 2
       (snd (fst (sampleDocument SampleV.small_model SampleV.doc2 SampleV.state2 42%Z))).
Proof.
  assert (H1 : shape 2 2 SampleV.state2) by (repeat split; repeat constructor).
  assert (H2 : length (doc_numByTopic SampleV.doc2) = 2%nat) by reflexivity.
  split; [exact H1|]. split; [exact H2|].
  exact (proj1 (sampleDocument_sizes SampleV.small_model SampleV.doc2 SampleV.state2
                  42%Z 2 2 H1 H2)).
Defined.

Lemma initializeDocState_sizes_witness :
  shape (K SampleV.small_model) 2 SampleV.zero_state
  /\ length (Zs (fst (fst (initializeDocState SampleV.small_model SampleV.oov_doc
                             (makeGeneratorForInit SampleV.small_model)
                             SampleV.zero_state 42%Z))))
     = length (words SampleV.oov_doc).
Proof.
  assert (H1 : shape (K SampleV.small_model) 2 SampleV.zero_state)
    by (repeat split; repeat constructor).
  split; [exact H1|].
  exact (proj1 (proj2 (proj2
           (initializeDocState_sizes SampleV.small_model SampleV.oov_doc
              (makeGeneratorForInit SampleV.small_model) SampleV.zero_state 42%Z 2 H1)))).
Defined.

Lemma sampleDocument_without_vocabulary_witness :
  Forall (fun w => (realV SampleV.small_model <= w)%nat) (words SampleC.oov_only_doc)
  /\ sampleDocument SampleV.small_model SampleC.oov_only_doc SampleV.state2 42%Z
     = (SampleC.oov_only_doc, SampleV.state2, 42%Z).
Proof.
  assert (H1 : Forall (fun w => (realV SampleV.small_model <= w)%nat)
                 (words SampleC.oov_only_doc))
    by (repeat (constructor; [simpl; lia|]); constructor).
  split; [exact H1|].
  exact (sampleDocument_without_vocabulary SampleV.small_model SampleC.oov_only_doc
           SampleV.state2 42%Z H1).
Defined.

Lemma mergeState_order_independent_witness :
  getNumWorkers SampleC.three_workers = 3%nat
  /\ Permutation [SampleV.replica1; SampleV.replica0] [SampleV.replica0; SampleV.replica1]
  /\ numByTopic (fst (fst (mergeState SampleC.three_workers SampleV.zero_state
                             SampleV.zero_state
                             [SampleV.state2; SampleV.replica0; SampleV.replica1])))
     = numByTopic (fst (fst (mergeState SampleC.three_workers SampleV.zero_state
                               SampleV.zero_state
                               [SampleV.state2; SampleV.replica1; SampleV.replica0]))).
Proof.
  assert (H1 : getNumWorkers SampleC.three_workers
               = S (length [SampleV.replica1; SampleV.replica0])) by reflexivity.
  assert (H2 : shape 2 2 SampleV.zero_state) by (repeat split; repeat constructor).
  assert (H3 : shape 2 2 SampleV.state2) by (repeat split; repeat constructor).
  assert (H4 : Forall (shape 2 2) [SampleV.replica1; SampleV.replica0])
    by (repeat constructor).
  assert (H5 : int32_state SampleV.state2)
    by (split; repeat (constructor; try (unfold int32_range; lia))).
  assert (H6 : Permutation [SampleV.replica1; SampleV.replica0]
                 [SampleV.replica0; SampleV.replica1]) by apply perm_swap.
  split; [reflexivity|]. split; [exact H6|].
  exact (proj1 (proj2 (proj2
           (mergeState_order_independent SampleC.three_workers SampleV.zero_state
              SampleV.zero_state SampleV.state2 _ _ 2 2 H1 H2 H3 H4 H5 H6)))).
Defined.

Lemma mergeState_of_unchanged_replicas_witness :
  getNumWorkers SampleV.two_workers = 2%nat
  /\ shape 2 2 SampleV.state2
  /\ int32_state SampleV.state2
  /\ mergeState SampleV.two_workers SampleV.state2 SampleV.zero_state
       (replicate 2 SampleV.state2)
     = (SampleV.state2, SampleV.state2, replicate 2 SampleV.state2).
Proof.
  assert (H1 : getNumWorkers SampleV.two_workers = 2%nat) by reflexivity.
  assert (H2 : shape 2 2 SampleV.state2) by (repeat split; repeat constructor).
  assert (H3 : int32_state SampleV.state2)
    by (split; repeat (constructor; try (unfold int32_range; lia))).
  split; [exact H1|]. split; [exact H2|]. split; [exact H3|].
  exact (mergeState_of_unchanged_replicas SampleV.two_workers SampleV.state2
           SampleV.zero_state 1 2 2 H1 H2 H3).
Defined.

Lemma mergeState_single_worker_witness :
  getNumWorkers SampleV.one_worker = 1%nat
  /\ mergeState SampleV.one_worker SampleV.zero_state SampleV.zero_state [SampleV.state2]
     = (clampState SampleV.state2, SampleV.zero_state, [clampState SampleV.state2])
  /\ clampState SampleV.state2 = SampleV.state2.
Proof.
  assert (H1 : getNumWorkers SampleV.one_worker = 1%nat) by reflexivity.
  split; [exact H1|].
  destruct (mergeState_single_worker SampleV.one_worker SampleV.zero_state
              SampleV.zero_state SampleV.state2 H1) as [E1 E2].
  split; [exact E1 | exact (E2 eq_refl)].
Defined.

Lemma sampleDocument_keeps_totals_witness :
  updateCnt_adds (H0 := Binary32.binary32_collaborators)
  /\ shape 2 (realV SampleV.small_model) SampleV.state2
  /\ length (doc_numByTopic SampleV.doc2) = 2%nat
  /\ totals_consistent SampleV.state2
  /\ totals_consistent
       (snd (fst (sampleDocument SampleV.small_model SampleV.doc2 SampleV.state2 42%Z))).
Proof.
  assert (Hu : updateCnt_adds (H0 := Binary32.binary32_collaborators))
    by (intros v inc; reflexivity).
  assert (H1 : shape 2 (realV SampleV.small_model) SampleV.state2)
    by (repeat split; repeat constructor).
  assert (H2 : length (doc_numByTopic SampleV.doc2) = 2%nat) by reflexivity.
  assert (H3 : totals_consistent SampleV.state2).
  { intros k Hk. destruct k as [|[|k]]; [reflexivity | reflexivity | simpl in Hk; lia]. }
  split; [exact Hu|]. split; [exact H1|]. split; [exact H2|]. split; [exact H3|].
  exact (proj1 (sampleDocument_keeps_totals Hu SampleV.small_model SampleV.doc2
                  SampleV.state2 42%Z 2 H1 H2 H3)).
Defined.

Lemma initializeDocState_adds_counts_witness :
  updateCnt_adds (H0 := Binary32.binary32_collaborators)
  /\ shape (K SampleV.small_model) (realV SampleV.small_model) SampleV.zero_state
  /\ totals_consistent SampleV.zero_state
  /\ totals_consistent
       (snd (fst (initializeDocState SampleV.small_model SampleV.oov_doc
                    (makeGeneratorForInit SampleV.small_model) SampleV.zero_state 42%Z))).
Proof.
  assert (Hu : updateCnt_adds (H0 := Binary32.binary32_collaborators))
    by (intros v inc; reflexivity).
  assert (H1 : shape (K SampleV.small_model) (realV SampleV.small_model)
                 SampleV.zero_state) by (repeat split; repeat constructor).
  assert (H3 : totals_consistent SampleV.zero_state).
  { intros k Hk. destruct k as [|[|k]]; [reflexivity | reflexivity | simpl in Hk; lia]. }
  split; [exact Hu|]. split; [exact H1|]. split; [exact H3|].
  exact (proj1 (initializeDocState_adds_counts Hu SampleV.small_model SampleV.oov_doc
                  (makeGeneratorForInit SampleV.small_model) SampleV.zero_state 42%Z
                  H1 H3)).
Defined.

Lemma sampleDocument_keeps_histogram_witness :
  updateCnt_adds (H0 := Binary32.binary32_collaborators)
  /\ length (Zs SampleV.doc2) = length (words SampleV.doc2)
  /\ counts_match SampleV.small_model SampleV.doc2
  /\ counts_match SampleV.small_model
       (fst (fst (sampleDocument SampleV.small_model SampleV.doc2 SampleV.state2 42%Z))).
Proof.
  assert (Hu : updateCnt_adds (H0 := Binary32.binary32_collaborators))
    by (intros v inc; reflexivity).
  assert (H1 : length (Zs SampleV.doc2) = length (words SampleV.doc2)) by reflexivity.
  assert (H2 : counts_match SampleV.small_model SampleV.doc2).
  { intros k Hk. destruct k as [|[|k]]; [reflexivity | reflexivity | simpl in Hk; lia]. }
  split; [exact Hu|]. split; [exact H1|]. split; [exact H2|].
  exact (sampleDocument_keeps_histogram Hu SampleV.small_model SampleV.doc2
           SampleV.state2 42%Z H1 H2).
Defined.

Lemma initializeDocState_histogram_witness :
  updateCnt_adds (H0 := Binary32.binary32_collaborators)
  /\ length (doc_numByTopic
               (fst (fst (initializeDocState SampleV.small_model SampleV.oov_doc
                            (makeGeneratorForInit SampleV.small_model)
                            SampleV.zero_state 42%Z))))
     = K SampleV.small_model.
Proof.
  assert (Hu : updateCnt_adds (H0 := Binary32.binary32_collaborators))
    by (intros v inc; reflexivity).
  split; [exact Hu|].
  exact (proj1 (initializeDocState_histogram Hu SampleV.small_model SampleV.oov_doc
                  (makeGeneratorForInit SampleV.small_model) SampleV.zero_state 42%Z)).
Defined.

Lemma updateDocs_restores_counts_witness :
  Forall (doc_consistent Sample.optimised_model (K Sample.optimised_model))
    (docs Sample.optimised_model)
  /\ Forall (fun doc : DocumentLDA TermWeight.one =>
               Forall (fun w => (w < realV Sample.optimised_model)%nat) (words doc))
       (docs Sample.optimised_model)
  /\ updateDocs Sample.optimised_model = Sample.optimised_model.
Proof.
  assert (H1 : Forall (doc_consistent Sample.optimised_model (K Sample.optimised_model))
                 (docs Sample.optimised_model)).
  { constructor; [|constructor]. split; [reflexivity|]. split; [reflexivity|].
    intros k Hk. destruct k as [|[|k]]; [reflexivity | reflexivity | simpl in Hk; lia]. }
  assert (H2 : Forall (fun doc : DocumentLDA TermWeight.one =>
                         Forall (fun w => (w < realV Sample.optimised_model)%nat)
                           (words doc))
                 (docs Sample.optimised_model))
    by (constructor; [repeat (constructor; [simpl; lia|]); constructor | constructor]).
  split; [exact H1|]. split; [exact H2|].
  exact (updateDocs_restores_counts Sample.optimised_model H1 H2).
Defined.

Lemma getCountByTopic_histogram_witness :
  Forall (fun doc : DocumentLDA TermWeight.one => length (Zs doc) = length (words doc))
    (docs Sample.optimised_model)
  /\ length (getCountByTopic Sample.optimised_model) = K Sample.optimised_model.
Proof.
  assert (H1 : Forall (fun doc : DocumentLDA TermWeight.one =>
                         length (Zs doc) = length (words doc))
                 (docs Sample.optimised_model))
    by (constructor; [reflexivity | constructor]).
  split; [exact H1|].
  exact (proj1 (getCountByTopic_histogram Sample.optimised_model H1)).
Defined.

Lemma mergeState_keeps_totals_witness :
  getNumWorkers SampleV.two_workers = 2%nat
  /\ totals_consistent SampleV.replica0
  /\ totals_consistent SampleV.replica1
  /\ totals_consistent
       (fst (fst (mergeState SampleV.two_workers SampleV.zero_state SampleV.zero_state
                    [SampleV.replica0; SampleV.replica1]))).
Proof.
  assert (H1 : getNumWorkers SampleV.two_workers = S (length [SampleV.replica1]))
    by reflexivity.
  assert (H2 : shape 2 2 SampleV.zero_state) by (repeat split; repeat constructor).
  assert (H3 : shape 2 2 SampleV.replica0) by (repeat split; repeat constructor).
  assert (H4 : Forall (shape 2 2) [SampleV.replica1]) by (repeat constructor).
  assert (H5 : totals_consistent SampleV.zero_state).
  { intros k Hk. destruct k as [|[|k]]; [reflexivity | reflexivity | simpl in Hk; lia]. }
  assert (H6 : totals_consistent SampleV.replica0).
  { intros k Hk. destruct k as [|[|k]]; [reflexivity | reflexivity | simpl in Hk; lia]. }
  assert (H7 : totals_consistent SampleV.replica1).
  { intros k Hk. destruct k as [|[|k]]; [reflexivity | reflexivity | simpl in Hk; lia]. }
  assert (H8 : Forall totals_consistent [SampleV.replica1])
    by (constructor; [exact H7 | constructor]).
  split; [reflexivity|]. split; [exact H6|]. split; [exact H7|].
  exact (mergeState_keeps_totals SampleV.two_workers SampleV.zero_state
           SampleV.zero_state SampleV.replica0 [SampleV.replica1] 2 2
           H1 H2 H3 H4 H5 H6 H8).
Defined.

Lemma trainOne_keeps_consistency_witness :
  updateCnt_adds (H0 := Binary32.binary32_collaborators)
  /\ (1 <= getNumWorkers SampleV.two_workers)%nat
  /\ model_consistent Sample.optimised_model
  /\ model_consistent
       (fst (fst (trainOne Sample.optimised_model SampleV.two_workers
                    (replicate (getNumWorkers SampleV.two_workers)
                       (globalState Sample.optimised_model))
                    [42%Z; 43%Z]))).
Proof.
  assert (Hu : updateCnt_adds (H0 := Binary32.binary32_collaborators))
    by (intros v inc; reflexivity).
  assert (H1 : (1 <= getNumWorkers SampleV.two_workers)%nat) by (simpl; lia).
  assert (H2 : model_consistent Sample.optimised_model).
  { split; [repeat split; repeat constructor|]. split; [|split].
    - intros k Hk. destruct k as [|[|k]]; [reflexivity | reflexivity | simpl in Hk; lia].
    - constructor; [|constructor]. split; [reflexivity|]. split; [reflexivity|].
      intros k Hk. destruct k as [|[|k]]; [reflexivity | reflexivity | simpl in Hk; lia].
    - intros k Hk. destruct k as [|[|k]]; [reflexivity | reflexivity | simpl in Hk; lia]. }
  split; [exact Hu|]. split; [exact H1|]. split; [exact H2|].
  exact (proj1 (trainOne_keeps_consistency Hu Sample.optimised_model SampleV.two_workers
                  [42%Z; 43%Z] H1 H2)).
Defined.

Lemma prepare_establishes_consistency_witness :
  updateCnt_adds (H0 := Binary32.binary32_collaborators)
  /\ model_consistent
       (prepare (fun this _ _ => this) (fun this => this) (fun _ => [])
          Sample.optimised_model true 0 0).
Proof.
  assert (Hu : updateCnt_adds (H0 := Binary32.binary32_collaborators))
    by (intros v inc; reflexivity).
  split; [exact Hu|].
  exact (prepare_establishes_consistency Hu (fun this _ _ => this) (fun this => this)
           (fun _ => []) Sample.optimised_model 0 0).
Defined.

Lemma addWordTo_round_trip_witness :
  updateCnt_adds (H0 := Binary32.binary32_collaborators)
  /\ int32_state SampleV.state2
  /\ Forall int32_range (doc_numByTopic SampleV.doc2)
  /\ addWordTo (H0 := Binary32.binary32_collaborators) 1
       (fst (addWordTo (H0 := Binary32.binary32_collaborators) (-1)
               SampleV.state2 SampleV.doc2 0 0 0))
       (snd (addWordTo (H0 := Binary32.binary32_collaborators) (-1)
               SampleV.state2 SampleV.doc2 0 0 0)) 0 0 0
     = (SampleV.state2, SampleV.doc2).
Proof.
  assert (Hu : updateCnt_adds (H0 := Binary32.binary32_collaborators))
    by (intros v inc; reflexivity).
  assert (H1 : int32_state SampleV.state2)
    by (split; repeat (constructor; try (unfold int32_range; lia))).
  assert (H2 : Forall int32_range (doc_numByTopic SampleV.doc2))
    by (repeat (constructor; try (unfold int32_range; lia))).
  split; [exact Hu|]. split; [exact H1|]. split; [exact H2|].
  exact (addWordTo_round_trip Hu SampleV.state2 SampleV.doc2 0 0 0 H1 H2).
Defined.

Lemma schedule_setters_hold_alphas_witness :
  iterated Sample.optimised_model < 20
  /\ alphas (fst (fst (trainOne (setBurnInIteration Sample.optimised_model 20)
                         SampleV.one_worker [Sample.state3] [42%Z])))
     = alphas Sample.optimised_model.
Proof.
  assert (H1 : iterated Sample.optimised_model < 20) by (simpl; lia).
  split; [exact H1|].
  exact (proj2 (schedule_setters_hold_alphas Sample.optimised_model SampleV.one_worker
                  [Sample.state3] [42%Z] 20) H1).
Defined.

Lemma countDf_counts_documents_witness :
  (1 < realV Sample.optimised_model)%nat
  /\ nth 1 (countDf Sample.optimised_model) 0
     = Z.of_nat (length (List.filter
                           (fun doc : DocumentLDA TermWeight.one =>
                              existsb (Nat.eqb 1) (words doc))
                           (docs Sample.optimised_model))) mod 2 ^ 32.
Proof.
  assert (H1 : (1 < realV Sample.optimised_model)%nat) by (simpl; lia).
  split; [exact H1|].
  exact (proj2 (countDf_counts_documents Sample.optimised_model 1 H1)).
Defined.

Lemma trainOne_without_documents_witness :
  docs SampleV.small_model = []
  /\ getNumWorkers SampleV.two_workers = 2%nat
  /\ shape 2 2 (globalState SampleV.small_model)
  /\ int32_state (globalState SampleV.small_model)
  /\ globalState
       (fst (fst (trainOne SampleV.small_model SampleV.two_workers
                    (replicate 2 (globalState SampleV.small_model)) [42%Z; 43%Z])))
     = globalState SampleV.small_model.
Proof.
  assert (H1 : docs SampleV.small_model = []) by reflexivity.
  assert (H2 : getNumWorkers SampleV.two_workers = 2%nat) by reflexivity.
  assert (H3 : shape 2 2 (globalState SampleV.small_model))
    by (repeat split; repeat constructor).
  assert (H4 : int32_state (globalState SampleV.small_model))
    by (split; repeat (constructor; try (unfold int32_range; lia))).
  split; [exact H1|]. split; [exact H2|]. split; [exact H3|]. split; [exact H4|].
  exact (proj1 (proj2 (trainOne_without_documents SampleV.small_model SampleV.two_workers
                         [42%Z; 43%Z] 1 2 2 H1 H2 H3 H4))).
Defined.

Lemma getCountByTopic_matches_global_witness :
  model_consistent Sample.optimised_model
  /\ (0 < K Sample.optimised_model)%nat
  /\ wrap32 (nth 0 (getCountByTopic Sample.optimised_model) 0)
     = wrap32 (nth 0 (numByTopic (globalState Sample.optimised_model)) 0).
Proof.
  assert (H1 : model_consistent Sample.optimised_model).
  { split; [repeat split; repeat constructor|]. split; [|split].
    - intros k Hk. destruct k as [|[|k]]; [reflexivity | reflexivity | simpl in Hk; lia].
    - constructor; [|constructor]. split; [reflexivity|]. split; [reflexivity|].
      intros k Hk. destruct k as [|[|k]]; [reflexivity | reflexivity | simpl in Hk; lia].
    - intros k Hk. destruct k as [|[|k]]; [reflexivity | reflexivity | simpl in Hk; lia]. }
  assert (H2 : (0 < K Sample.optimised_model)%nat) by (simpl; lia).
  split; [exact H1|]. split; [exact H2|].
  exact (getCountByTopic_matches_global Sample.optimised_model 0 H1 H2).
Defined.
